(** * memote: model checks of a genome-scale metabolic reconstruction

    A shallow embedding of

    - [memote/support/syntax.py] (identifier convention checks),
    - [memote/suite/tests/test_basic.py] (basic checks),
    - [memote/suite/tests/test_biomass.py] (biomass checks),

    together with the parts of their collaborators that the checks rely on:
    Python numbers and exceptions, the cobra model object with its scoped
    mutation context, and the annotation record attached to every check. *)

From Stdlib Require Import ZArith QArith Lqa Lia Bool List Ascii SpecFloat.
From stdpp Require Import base option list gmap sets strings.

Set Default Proof Using "Type".
Local Open Scope Z_scope.

(** ** Python floats: IEEE 754 binary64 *)

Module F64.

Definition prec : Z := 53.
Definition emax : Z := 1024.

Definition float : Type := spec_float.

Definition add : float -> float -> float := SFadd prec emax.
Definition sub : float -> float -> float := SFsub prec emax.
Definition mul : float -> float -> float := SFmul prec emax.
Definition div : float -> float -> float := SFdiv prec emax.
Definition abs : float -> float := SFabs.
Definition neg : float -> float := SFopp.

(** [a < b], [a <= b] and [a > b] on floats; every comparison with a NaN
    is false. *)
Definition ltb : float -> float -> bool := SFltb.
Definition leb : float -> float -> bool := SFleb.
Definition gtb (a b : float) : bool := SFltb b a.

(** [float(n)] for a Python integer. *)
Definition of_Z (n : Z) : float := binary_normalize prec emax n 0 false.

(** The literals of the sources, each the binary64 value nearest to the
    decimal numeral. *)
Definition zero : float := S754_zero false.
Definition one : float := S754_finite false 4503599627370496 (-52).
Definition lit_1e_3 : float := S754_finite false 4611686018427388 (-62).
Definition lit_1e_5 : float := S754_finite false 5902958103587057 (-69).
Definition lit_10_3972 : float := S754_finite false 5853103255712065 (-49).
Definition lit_1000 : float := S754_finite false 8796093022208000 (-43).
Definition lit_m1000 : float := S754_finite true 8796093022208000 (-43).

Definition is_finite (x : float) : bool :=
  match x with
  | S754_zero _ | S754_finite _ _ _ => true
  | _ => false
  end.

(** The exact rational value of a finite float (0 for the others). *)
Definition to_Q (x : float) : Q :=
  match x with
  | S754_finite s m e =>
      let n := if s then Z.neg m else Z.pos m in
      match e with
      | Z0 => n # 1
      | Z.pos k => (n * 2 ^ Z.pos k) # 1
      | Z.neg k => n # (2 ^ k)
      end
  | _ => 0%Q
  end.

End F64.

Abbreviation float := F64.float.

Global Instance spec_float_eq_dec : EqDecision spec_float.
Proof. solve_decision. Defined.

(** ** Python values, exceptions and the state-and-exception monad *)

Module Py.

(** A reference to a heap-allocated dictionary. *)
Definition loc : Type := positive.

Inductive value : Type :=
| VNone
| VBool (b : bool)
| VInt (n : Z)
| VFloat (x : float)
| VStr (s : string)
| VList (l : list string)
| VRef (l : loc).

Inductive exn : Type :=
| AssertionError (msg : option value)
| ZeroDivisionError
| AttributeError (name : string)
| KeyError (key : string)
| TypeError
| ValueError (msg : string).

Inductive result (A : Type) : Type :=
| Ok (a : A)
| Raise (e : exn).
Arguments Ok {A} a.
Arguments Raise {A} e.

(** A computation over a mutable state [S] that returns or raises. *)
Definition M (S A : Type) : Type := S -> result A * S.

Definition ret {S A} (a : A) : M S A := fun s => (Ok a, s).
Definition raise {S A} (e : exn) : M S A := fun s => (Raise e, s).
Definition bind {S A B} (c : M S A) (k : A -> M S B) : M S B :=
  fun s =>
    match c s with
    | (Ok a, s') => k a s'
    | (Raise e, s') => (Raise e, s')
    end.
Definition get {S} : M S S := fun s => (Ok s, s).
Definition put {S} (s : S) : M S unit := fun _ => (Ok tt, s).
Definition modify {S} (f : S -> S) : M S unit := fun s => (Ok tt, f s).
Definition lift_result {S A} (r : result A) : M S A := fun s => (r, s).

(** [assert cond, msg] *)
Definition assert {S} (cond : bool) (msg : option value) : M S unit :=
  if cond then ret tt else raise (AssertionError msg).

(** [for x in xs: body x] *)
Fixpoint for_each {S A} (xs : list A) (body : A -> M S unit) : M S unit :=
  match xs with
  | [] => ret tt
  | x :: xs' => bind (body x) (fun _ => for_each xs' body)
  end.

(** [bool(v)] *)
Definition truthy (v : value) : bool :=
  match v with
  | VNone => false
  | VBool b => b
  | VInt n => negb (n =? 0)
  | VFloat x =>
      match x with S754_zero _ => false | _ => true end
  | VStr s => negb (String.eqb s "")
  | VList l => negb (Nat.eqb (length l) 0)
  | VRef _ => true
  end.

(** [a / b] on integers under [from __future__ import division]: the
    quotient as a float, [ZeroDivisionError] when [b] is zero.  (For the
    operands of the checks, list lengths, both conversions are exact and
    the quotient is rounded once.) *)
Definition truediv (a b : Z) : result float :=
  if b =? 0 then Raise ZeroDivisionError
  else Ok (F64.div (F64.of_Z a) (F64.of_Z b)).

(** [len(l)] *)
Definition len {A} (l : list A) : Z := Z.of_nat (length l).

(** [a in b] on strings: [a] occurs in [b]. *)
Definition str_in (a b : string) : bool :=
  match String.index 0 a b with
  | Some _ => true
  | None => false
  end.

(** [s.startswith(p)] *)
Definition startswith (s p : string) : bool := String.prefix p s.

(** [s.endswith(p)] *)
Definition endswith (s p : string) : bool :=
  let n := String.length s in
  let k := String.length p in
  (k <=? n)%nat && String.eqb (String.substring (n - k) k s) p.

End Py.

Export Py.

Declare Scope py_scope.
Delimit Scope py_scope with py.
Notation "x <~ c ; k" := (Py.bind c (fun x => k))
  (at level 100, c at next level, right associativity) : py_scope.
Notation "c >> k" := (Py.bind c (fun _ => k))
  (at level 100, right associativity) : py_scope.
Local Open Scope py_scope.

(** ** Regular expressions ([re]) *)

Module Re.

(** A pattern, as [re.compile] reads it.  Greedy and lazy repetition accept
    the same strings and differ only in which match is reported; the checks
    only ask whether there is a match. *)
Inductive regex : Type :=
| Never
| Eps
| Chr (p : Ascii.ascii -> bool)
| Cat (r1 r2 : regex)
| Alt (r1 r2 : regex)
| Star (r : regex).

(** [r+] *)
Definition Plus (r : regex) : regex := Cat r (Star r).

(** A literal string. *)
Fixpoint Lit (s : string) : regex :=
  match s with
  | EmptyString => Eps
  | String c s' => Cat (Chr (Ascii.eqb c)) (Lit s')
  end.

Fixpoint nullable (r : regex) : bool :=
  match r with
  | Never => false
  | Eps => true
  | Chr _ => false
  | Cat r1 r2 => nullable r1 && nullable r2
  | Alt r1 r2 => nullable r1 || nullable r2
  | Star _ => true
  end.

(** What is left of the pattern after the character [c]. *)
Fixpoint deriv (c : Ascii.ascii) (r : regex) : regex :=
  match r with
  | Never => Never
  | Eps => Never
  | Chr p => if p c then Eps else Never
  | Cat r1 r2 =>
      if nullable r1 then Alt (Cat (deriv c r1) r2) (deriv c r2)
      else Cat (deriv c r1) r2
  | Alt r1 r2 => Alt (deriv c r1) (deriv c r2)
  | Star r1 => Cat (deriv c r1) (Star r1)
  end.

(** [re.match(pattern, s) is not None]: the pattern matches at the
    beginning of the string; the string may go on after the match. *)
Fixpoint re_match (pattern : regex) (s : string) : bool :=
  nullable pattern
  || match s with
     | EmptyString => false
     | String c s' => re_match (deriv c pattern) s'
     end.

(** The strings a pattern matches in full. *)
Inductive lang : regex -> string -> Prop :=
| lang_eps : lang Eps ""
| lang_chr p c : p c = true -> lang (Chr p) (String c "")
| lang_cat r1 r2 s1 s2 :
    lang r1 s1 -> lang r2 s2 -> lang (Cat r1 r2) (s1 +:+ s2)
| lang_alt_l r1 r2 s : lang r1 s -> lang (Alt r1 r2) s
| lang_alt_r r1 r2 s : lang r2 s -> lang (Alt r1 r2) s
| lang_star_nil r : lang (Star r) ""
| lang_star_app r s1 s2 :
    lang r s1 -> lang (Star r) s2 -> lang (Star r) (s1 +:+ s2).

(** The character classes of the patterns, on ASCII identifiers. *)
Definition between (lo hi : nat) (c : Ascii.ascii) : bool :=
  (lo <=? Ascii.nat_of_ascii c)%nat && (Ascii.nat_of_ascii c <=? hi)%nat.
Definition is_upper : Ascii.ascii -> bool := between 65 90.
Definition is_lower : Ascii.ascii -> bool := between 97 122.
Definition is_digit : Ascii.ascii -> bool := between 48 57.
(** [\w] *)
Definition is_word (c : Ascii.ascii) : bool :=
  is_upper c || is_lower c || is_digit c || Ascii.eqb c "_"%char.
(** [[A-Z0-9]] and [[a-z0-9]] *)
Definition is_upper_digit (c : Ascii.ascii) : bool := is_upper c || is_digit c.
Definition is_lower_digit (c : Ascii.ascii) : bool := is_lower c || is_digit c.

(** Every character of the string is in the class. *)
Fixpoint all_in (p : Ascii.ascii -> bool) (s : string) : bool :=
  match s with
  | EmptyString => true
  | String c s' => p c && all_in p s'
  end.

End Re.

(** ** The cobra model object

    The model is the external collaborator of every check.  It is embedded
    as far as the checks use it: the entities with the attributes the checks
    read, reaction objects addressed by reference (their position in
    [model.reactions]) where a check writes their bounds, and the context
    manager [with model: ...], which records an undo action for every change
    made inside it and replays the actions, last first, when the block is
    left, normally or by an exception. *)

Module Cobra.

Record Metabolite : Type := {
  met_id : string;
  formula : option string;
  charge : option Z;
  compartment : string;
  (** molar mass, derived from the formula *)
  formula_weight : float
}.

Record Gene : Type := { gene_id : string }.

Record Reaction : Type := {
  rxn_id : string;
  (** stoichiometry: negative coefficients are consumed *)
  rxn_metabolites : list (Metabolite * float);
  lower_bound : float;
  upper_bound : float;
  gene_reaction_rule : string
}.

Global Instance Metabolite_eq_dec : EqDecision Metabolite.
Proof. solve_decision. Defined.
Global Instance Reaction_eq_dec : EqDecision Reaction.
Proof. solve_decision. Defined.

(** [rxn.compartments]: the compartments of the reaction's metabolites. *)
Definition compartments (r : Reaction) : gset string :=
  list_to_set (map (fun mc => compartment (fst mc)) (rxn_metabolites r)).

(** [rxn.reactants] and [rxn.products] *)
Definition reactants (r : Reaction) : list Metabolite :=
  map fst (filter (fun mc => F64.ltb (snd mc) F64.zero = true)
             (rxn_metabolites r)).
Definition products (r : Reaction) : list Metabolite :=
  map fst (filter (fun mc => F64.gtb (snd mc) F64.zero = true)
             (rxn_metabolites r)).

Definition nonempty {A} (l : list A) : bool :=
  match l with [] => false | _ => true end.

(** [rxn.boundary]: a single metabolite, and not both a reactant and a
    product. *)
Definition boundary (r : Reaction) : bool :=
  Nat.eqb (length (rxn_metabolites r)) 1
  && negb (nonempty (reactants r) && nonempty (products r)).

(** An undo action of the context manager. *)
Inductive Undo : Type :=
| UndoBounds (ref : nat) (lb ub : float)
| UndoObjective (old : option nat)
| UndoAdd (n : nat).

Record Model : Type := {
  (** [None]: the object has no attribute [id] *)
  model_id : option value;
  reactions : list Reaction;
  metabolites : list Metabolite;
  genes : list Gene;
  objective : option nat;
  (** the open [with model:] blocks, innermost first, each with its
      undo actions, latest first *)
  contexts : list (list Undo)
}.

Definition set_reactions (rs : list Reaction) (m : Model) : Model :=
  {| model_id := model_id m; reactions := rs; metabolites := metabolites m;
     genes := genes m; objective := objective m; contexts := contexts m |}.
Definition set_objective_field (o : option nat) (m : Model) : Model :=
  {| model_id := model_id m; reactions := reactions m;
     metabolites := metabolites m; genes := genes m; objective := o;
     contexts := contexts m |}.
Definition set_contexts (cs : list (list Undo)) (m : Model) : Model :=
  {| model_id := model_id m; reactions := reactions m;
     metabolites := metabolites m; genes := genes m;
     objective := objective m; contexts := cs |}.

Definition with_bounds (lb ub : float) (r : Reaction) : Reaction :=
  {| rxn_id := rxn_id r; rxn_metabolites := rxn_metabolites r;
     lower_bound := lb; upper_bound := ub;
     gene_reaction_rule := gene_reaction_rule r |}.

(** [model.exchanges]: the boundary reactions, as objects and as
    references. *)
Definition exchanges (m : Model) : list Reaction :=
  filter (fun r => boundary r = true) (reactions m).

Fixpoint boundary_refs (i : nat) (rs : list Reaction) : list nat :=
  match rs with
  | [] => []
  | r :: rs' =>
      if boundary r then i :: boundary_refs (S i) rs'
      else boundary_refs (S i) rs'
  end.
Definition exchange_refs (m : Model) : list nat :=
  boundary_refs 0 (reactions m).

(** Record an undo action in the innermost open context, if any. *)
Definition record (u : Undo) (m : Model) : Model :=
  match contexts m with
  | [] => m
  | c :: cs => set_contexts ((u :: c) :: cs) m
  end.

Definition apply_undo (m : Model) (u : Undo) : Model :=
  match u with
  | UndoBounds ref lb ub =>
      set_reactions (alter (with_bounds lb ub) ref (reactions m)) m
  | UndoObjective old => set_objective_field old m
  | UndoAdd n => set_reactions (take n (reactions m)) m
  end.

(** [model.__enter__()] and [model.__exit__(...)] *)
Definition enter (m : Model) : Model := set_contexts ([] :: contexts m) m.
Definition exit (m : Model) : Model :=
  match contexts m with
  | [] => m
  | c :: cs => fold_left apply_undo c (set_contexts cs m)
  end.

(** [rxn.bounds = (lb, ub)] *)
Definition set_bounds (ref : nat) (lb ub : float) : M Model unit :=
  fun m =>
    match reactions m !! ref with
    | None => (Raise (KeyError ""), m)
    | Some r =>
        if F64.gtb lb ub then (Raise (ValueError "bounds"), m)
        else
          (Ok tt,
           record (UndoBounds ref (lower_bound r) (upper_bound r))
             (set_reactions (alter (with_bounds lb ub) ref (reactions m)) m))
    end.

Fixpoint index_of_id (rid : string) (i : nat) (rs : list Reaction)
  : option nat :=
  match rs with
  | [] => None
  | r :: rs' =>
      if String.eqb (rxn_id r) rid then Some i
      else index_of_id rid (S i) rs'
  end.

(** [model.reactions.get_by_id(rid)] *)
Definition get_by_id (rid : string) : M Model nat :=
  fun m =>
    match index_of_id rid 0 (reactions m) with
    | Some i => (Ok i, m)
    | None => (Raise (KeyError rid), m)
    end.

(** The reaction object behind a reference. *)
Definition deref (ref : nat) : M Model Reaction :=
  fun m =>
    match reactions m !! ref with
    | Some r => (Ok r, m)
    | None => (Raise (KeyError ""), m)
    end.

(** [model.add_boundary(met, type="demand")]: a new reaction [met ->]
    with bounds (0, 1000); the reference of the new reaction. *)
Definition demand_reaction (met : Metabolite) : Reaction :=
  {| rxn_id := "DM_" +:+ met_id met;
     rxn_metabolites := [(met, F64.neg F64.one)];
     lower_bound := F64.zero; upper_bound := F64.lit_1000;
     gene_reaction_rule := "" |}.
Definition add_demand (met : Metabolite) : M Model nat :=
  fun m =>
    let n := length (reactions m) in
    (Ok n,
     record (UndoAdd n)
       (set_reactions (reactions m ++ [demand_reaction met]) m)).

(** [model.objective = rxn] *)
Definition set_objective (ref : nat) : M Model unit :=
  fun m =>
    (Ok tt,
     record (UndoObjective (objective m))
       (set_objective_field (Some ref) m)).

(** [with model: body] *)
Definition with_model {A} (body : M Model A) : M Model A :=
  fun m =>
    let '(r, m') := body (enter m) in
    (r, exit m').

End Cobra.

Export Cobra.

(** ** The annotation record of a check ([memote.utils]) *)

Module Utils.

(** Function attributes and the dictionaries they refer to.  A check
    function is named by its identifier; [attrs] holds its attribute
    [annotation], a reference into [heap]. *)
Record Store : Type := {
  attrs : gmap string loc;
  heap : gmap loc (gmap string value);
  next_loc : loc
}.

Definition empty_store : Store :=
  {| attrs := ∅; heap := ∅; next_loc := 1%positive |}.

(** [dict()]: a new empty dictionary. *)
Definition new_dict : M Store loc :=
  fun st =>
    let l := next_loc st in
    (Ok l,
     {| attrs := attrs st; heap := <[l := ∅]> (heap st);
        next_loc := Pos.succ l |}).

(** Modelled from the spec: [memote.utils.annotate] is absent from the
    sources.  Before execution it attaches to the check a metadata record
    with the title, the type tag and the placeholders for data and message
    (the arguments [data] and [message], [None] when not given). *)
Definition annotate (func title type : string) (data message : value)
  : M Store unit :=
  fun st =>
    let l := next_loc st in
    let rec : gmap string value :=
      <["title" := VStr title]>
        (<["type" := VStr type]>
           (<["data" := data]> (<["message" := message]> ∅))) in
    (Ok tt,
     {| attrs := <[func := l]> (attrs st); heap := <[l := rec]> (heap st);
        next_loc := Pos.succ l |}).

(** [func.annotation] *)
Definition annotation (func : string) : M Store loc :=
  fun st =>
    match attrs st !! func with
    | Some l => (Ok l, st)
    | None => (Raise (AttributeError "annotation"), st)
    end.

(** [d[key] = v] on the dictionary at [d]: the dictionary is updated where
    it is. *)
Definition setitem (d : loc) (key : string) (v : value) : M Store unit :=
  fun st =>
    match heap st !! d with
    | Some rec =>
        (Ok tt,
         {| attrs := attrs st; heap := <[d := <[key := v]> rec]> (heap st);
            next_loc := next_loc st |})
    | None => (Raise TypeError, st)
    end.

(** [d[key]] *)
Definition getitem (d : loc) (key : string) : M Store value :=
  fun st =>
    match heap st !! d with
    | Some rec =>
        match rec !! key with
        | Some v => (Ok v, st)
        | None => (Raise (KeyError key), st)
        end
    | None => (Raise TypeError, st)
    end.

(** The dictionary a value refers to; subscripting anything else is a
    [TypeError]. *)
Definition as_dict {S} (v : value) : M S loc :=
  match v with
  | VRef l => ret l
  | _ => raise TypeError
  end.

(** [d[k1][k2] = v] and [d[k1][k2]] *)
Definition setitem2 (d : loc) (k1 k2 : string) (v : value) : M Store unit :=
  inner <~ getitem d k1;
  l <~ as_dict inner;
  setitem l k2 v.
Definition getitem2 (d : loc) (k1 k2 : string) : M Store value :=
  inner <~ getitem d k1;
  l <~ as_dict inner;
  getitem l k2.

(** [len(v)] of a stored value. *)
Definition len_value {S} (v : value) : M S Z :=
  match v with
  | VList l => ret (len l)
  | VStr s => ret (Z.of_nat (String.length s))
  | _ => raise TypeError
  end.

(** [len(d[key])] and [len(d[k1][k2])] *)
Definition len_item (d : loc) (key : string) : M Store Z :=
  v <~ getitem d key;
  len_value v.
Definition len_item2 (d : loc) (k1 k2 : string) : M Store Z :=
  v <~ getitem2 d k1 k2;
  len_value v.

(** The record attached to a check, as the reporting collaborator reads
    it. *)
Definition attached (func : string) (st : Store)
  : option (gmap string value) :=
  l ← attrs st !! func; heap st !! l.

(** The entry [key] of the dictionary stored in field [field] of the
    record of [func]. *)
Definition attached_entry (func field key : string) (st : Store)
  : option value :=
  rec ← attached func st;
  v ← rec !! field;
  match v with
  | VRef l => d ← heap st !! l; d !! key
  | _ => None
  end.

(** Modelled from the spec: [memote.utils.get_ids] is absent from the
    sources; the data payload of a check is the list of the identifiers of
    the offending entities. *)
Definition get_ids {A} (ident : A -> string) (xs : list A) : list string :=
  map ident xs.

(** The state of a check that works on the mutable [model] fixture. *)
Record World : Type := { store : Store; model : Model }.

Definition on_store {A} (c : M Store A) : M World A :=
  fun w =>
    let '(r, st) := c (store w) in
    (r, {| store := st; model := model w |}).
Definition on_model {A} (c : M Model A) : M World A :=
  fun w =>
    let '(r, m) := c (model w) in
    (r, {| store := store w; model := m |}).

(** [with model: body] where the body also works on annotations. *)
Definition with_model_w {A} (body : M World A) : M World A :=
  fun w =>
    let '(r, w') :=
      body {| store := store w; model := enter (model w) |} in
    (r, {| store := store w'; model := exit (model w') |}).

End Utils.

Export Utils.

(** ** [memote/support/syntax.py] *)

Module Syntax.

(** A match object of the convention pattern, as far as the checks read
    it: [match.group("suffix")]. *)
Record Match : Type := { group_suffix : string }.

Inductive Level : Type := DEBUG | WARNING.

(** The records handed to [LOGGER]. *)
Definition Log : Type := list (Level * string).

Definition log (lvl : Level) (msg : string) : M Log unit :=
  modify (fun l => l ++ [(lvl, msg)]).

(** A [dict] with reactions as keys, in insertion order. *)
Definition ReactionMap : Type := list (Reaction * option Match).

(** [set(d)]: the keys, each once. *)
Definition keys (d : ReactionMap) : list Reaction := remove_dups (map fst d).

(** [d[rxn]] *)
Fixpoint lookup_rxn (d : ReactionMap) (rxn : Reaction)
  : result (option Match) :=
  match d with
  | [] => Raise (KeyError (rxn_id rxn))
  | (k, v) :: d' => if decide (k = rxn) then Ok v else lookup_rxn d' rxn
  end.

Section Helpers.

(** [memote.support.helpers], absent from the sources: the checks take
    what these return as it comes. *)
Variable build_reaction_pattern_map : Model -> ReactionMap.
Variable find_transport_reactions : Model -> list Reaction.

(** The body of the loop of [find_mistagged_reaction_compartment] for one
    reaction; [continue] returns the list as it is. *)
Definition mistagged_step (reaction_match : ReactionMap) (rxn : Reaction)
    (wrong : list Reaction) : M Log (list Reaction) :=
  match_ <~ lift_result (lookup_rxn reaction_match rxn);
  (if (1 <? Z.of_nat (size (compartments rxn)))
   then log WARNING (rxn_id rxn +:+ " spans different compartments.")
   else ret tt) >>
  match match_ with
  | None =>
      log DEBUG (rxn_id rxn +:+ " did not match regexp") >>
      ret wrong
  | Some mt =>
      if bool_decide ({["c"]} = compartments rxn) then
        (* cytosolic reaction *)
        ret wrong
      else
        let suffix := group_suffix mt in
        if existsb (fun comp => str_in comp suffix)
             (elements (compartments rxn))
        then
          log DEBUG (rxn_id rxn +:+ "'s compartments (" +:+
                     String.concat ", " (elements (compartments rxn)) +:+
                     ") properly tagged") >>
          ret wrong
        else ret (wrong ++ [rxn])
  end.

Fixpoint mistagged_loop (reaction_match : ReactionMap) (rxns : list Reaction)
    (wrong : list Reaction) : M Log (list Reaction) :=
  match rxns with
  | [] => ret wrong
  | rxn :: rest =>
      wrong' <~ mistagged_step reaction_match rxn wrong;
      mistagged_loop reaction_match rest wrong'
  end.

Definition find_mistagged_reaction_compartment (model : Model)
    (reaction_match : option ReactionMap)
    (transport_reactions : option (list Reaction))
  : M Log (list Reaction) :=
  let reaction_match :=
    match reaction_match with
    | None => build_reaction_pattern_map model
    | Some d => d
    end in
  let transport_reactions :=
    match transport_reactions with
    | None => find_transport_reactions model
    | Some l => l
    end in
  mistagged_loop reaction_match
    (list_difference (keys reaction_match) (remove_dups transport_reactions))
    [].

End Helpers.

Definition find_untagged_demand_rxns (model : Model) : list Reaction :=
  filter (fun rxn =>
            ("e" ∉ compartments rxn) /\ startswith (rxn_id rxn) "DM_" = false)
    (exchanges model).

Definition find_untagged_exchange_rxns (model : Model) : list Reaction :=
  filter (fun rxn =>
            ("e" ∈ compartments rxn) /\ startswith (rxn_id rxn) "EX_" = false)
    (exchanges model).

End Syntax.

Export Syntax.

Module SyntaxTags.

(** [[A-Z0-9]+\w*?t\w*?] and [[A-Z0-9]+\w*?abc\w*?] *)
Definition tagged (tag : string) : Re.regex :=
  Re.Cat (Re.Plus (Re.Chr Re.is_upper_digit))
    (Re.Cat (Re.Star (Re.Chr Re.is_word))
       (Re.Cat (Re.Lit tag) (Re.Star (Re.Chr Re.is_word)))).
Definition transport_tag : Re.regex := tagged "t".
Definition abc_tag : Re.regex := tagged "abc".

(** [^([a-z0-9]|Z|E|L|D|ACP|S|R)+_\w+]; the anchor is where [re.match]
    starts anyway. *)
Definition root_token : Re.regex :=
  Re.Alt (Re.Chr Re.is_lower_digit)
    (Re.Alt (Re.Lit "Z")
       (Re.Alt (Re.Lit "E")
          (Re.Alt (Re.Lit "L")
             (Re.Alt (Re.Lit "D")
                (Re.Alt (Re.Lit "ACP")
                   (Re.Alt (Re.Lit "S") (Re.Lit "R"))))))).
Definition comp_pattern : Re.regex :=
  Re.Cat (Re.Plus root_token)
    (Re.Cat (Re.Lit "_") (Re.Plus (Re.Chr Re.is_word))).

Section Helpers.

Variable find_transport_reactions : Model -> list Reaction.
Variable find_atp_adp_converting_reactions : Model -> list Reaction.

Definition find_reaction_tag_transporter (model : Model) : list Reaction :=
  let transport_rxns := find_transport_reactions model in
  let atp_adp_rxns := find_atp_adp_converting_reactions model in
  let non_abc_transporters :=
    list_difference (remove_dups transport_rxns) (remove_dups atp_adp_rxns) in
  filter (fun rxn => Re.re_match transport_tag (rxn_id rxn) = false)
    non_abc_transporters.

Definition find_abc_tag_transporter (model : Model) : list Reaction :=
  let transport_rxns := find_transport_reactions model in
  let atp_adp_rxns := find_atp_adp_converting_reactions model in
  let abc_transporters :=
    list_intersection (remove_dups transport_rxns)
      (remove_dups atp_adp_rxns) in
  filter (fun rxn => Re.re_match abc_tag (rxn_id rxn) = false)
    abc_transporters.

End Helpers.

Definition find_upper_case_mets (model : Model) : list Metabolite :=
  filter (fun met => Re.re_match comp_pattern (met_id met) = false)
    (metabolites model).

(** The root of an identifier is made of the allowed pieces: lower-case
    letters, digits, the letters Z, E, L, D, S, R, and ACP. *)
Definition single_token (c : Ascii.ascii) : bool :=
  Re.is_lower_digit c
  || Ascii.eqb c "Z" || Ascii.eqb c "E" || Ascii.eqb c "L"
  || Ascii.eqb c "D" || Ascii.eqb c "S" || Ascii.eqb c "R".

Fixpoint root_ok (s : string) : bool :=
  match s with
  | EmptyString => true
  | String c s' =>
      if single_token c then root_ok s'
      else
        match c, s' with
        | "A"%char, String "C" (String "P" s'') => root_ok s''
        | _, _ => false
        end
  end.

(** The identifier carries the tag: it begins with an upper-case letter or
    a digit, and after that character and a run of word characters the tag
    follows. *)
Definition has_tag (tag id : string) : Prop :=
  exists c w rest,
    id = String c (w +:+ tag +:+ rest)
    /\ Re.is_upper_digit c = true /\ Re.all_in Re.is_word w = true.

(** The identifier is a root of allowed pieces, an underscore and at least
    one word character; anything may follow. *)
Definition lower_case_id (id : string) : Prop :=
  exists root c rest,
    id = root +:+ String "_" (String c rest)
    /\ root <> "" /\ root_ok root = true /\ Re.is_word c = true.

(** Any character but the underscore. *)
Definition not_underscore (c : Ascii.ascii) : bool :=
  negb (Ascii.eqb c "_").

End SyntaxTags.

Module SyntaxSuffix.

(** The two names that [find_rxn_id_compartment_suffix] and
    [find_rxn_id_suffix_compartment] look up in the module when they are
    called; a name that is not bound there is a [NameError]. *)
Record Namespace : Type := {
  ns_find_demand_and_exchange_reactions : option (Model -> list Reaction);
  ns_SUFFIX_MAP : option (list (string * string))
}.

(** The module [memote.support.syntax] binds neither: it imports
    [build_reaction_pattern_map], [find_atp_adp_converting_reactions] and
    [find_transport_reactions] from the helpers, and its table of suffixes
    is called [COMPARTMENT_SUFFIX]. *)
Definition syntax_module : Namespace :=
  {| ns_find_demand_and_exchange_reactions := None; ns_SUFFIX_MAP := None |}.

Inductive outcome (A : Type) : Type :=
| Returned (a : A)
| NameError (name : string)
| KeyError (key : string).
Arguments Returned {A} a.
Arguments NameError {A} name.
Arguments KeyError {A} key.

(** [s.lower()] on ASCII strings *)
Definition lower_char (c : Ascii.ascii) : Ascii.ascii :=
  if Re.is_upper c then Ascii.ascii_of_nat (Ascii.nat_of_ascii c + 32)
  else c.
Fixpoint lower (s : string) : string :=
  match s with
  | EmptyString => EmptyString
  | String c s' => String (lower_char c) (lower s')
  end.

Fixpoint dict_get (d : list (string * string)) (key : string)
  : option string :=
  match d with
  | [] => None
  | (k, v) :: d' => if String.eqb k key then Some v else dict_get d' key
  end.

(** [re.compile("[A-Z0-9]+\w*?{}\w*?".format(sfx))], for a suffix without
    characters that are special in a pattern. *)
Definition suffix_pattern (sfx : string) : Re.regex := SyntaxTags.tagged sfx.

Section Helpers.

Variable find_transport_reactions : Model -> list Reaction.
Variable ns : Namespace.

(** The reactions that are neither biomass, transport, exchange nor
    demand reactions. *)
Definition plain (transport_rxns exchange_demand_rxns : list Reaction)
    (rxn : Reaction) : Prop :=
  str_in "biomass" (lower (rxn_id rxn)) = false
  /\ (rxn ∉ transport_rxns) /\ (rxn ∉ exchange_demand_rxns).

Definition find_rxn_id_compartment_suffix (model : Model) (suffix : string)
  : outcome (list Reaction) :=
  let transport_rxns := find_transport_reactions model in
  match ns_find_demand_and_exchange_reactions ns with
  | None => NameError "find_demand_and_exchange_reactions"
  | Some find_demand_and_exchange_reactions =>
      let exchange_demand_rxns :=
        find_demand_and_exchange_reactions model in
      match ns_SUFFIX_MAP ns with
      | None => NameError "SUFFIX_MAP"
      | Some suffix_map =>
          match dict_get suffix_map suffix with
          | None => KeyError suffix
          | Some sfx =>
              let comp_pattern := suffix_pattern sfx in
              let rxns :=
                filter (fun rxn =>
                          suffix ∈ compartments rxn
                          /\ plain transport_rxns exchange_demand_rxns rxn)
                  (reactions model) in
              Returned
                (filter (fun rxn =>
                           Re.re_match comp_pattern (rxn_id rxn) = false)
                   rxns)
          end
      end
  end.

Definition find_rxn_id_suffix_compartment (model : Model) (suffix : string)
  : outcome (list Reaction) :=
  let transport_rxns := find_transport_reactions model in
  match ns_find_demand_and_exchange_reactions ns with
  | None => NameError "find_demand_and_exchange_reactions"
  | Some find_demand_and_exchange_reactions =>
      let exchange_demand_rxns :=
        find_demand_and_exchange_reactions model in
      match ns_SUFFIX_MAP ns with
      | None => NameError "SUFFIX_MAP"
      | Some suffix_map =>
          match dict_get suffix_map suffix with
          | None => KeyError suffix
          | Some sfx =>
              let comp_pattern := suffix_pattern sfx in
              let rxns :=
                filter (fun rxn =>
                          Re.re_match comp_pattern (rxn_id rxn) = true
                          /\ plain transport_rxns exchange_demand_rxns rxn)
                  (reactions model) in
              Returned
                (filter (fun rxn => suffix ∉ compartments rxn) rxns)
          end
      end
  end.

End Helpers.

End SyntaxSuffix.

(** ** [numpy.isclose] *)

Module Numpy.

Definition eqb (a b : float) : bool := SFeqb a b.

(** [numpy.isclose(a, b, rtol, atol)]: for finite [a] and [b],
    [|a - b| <= atol + rtol * |b|]; otherwise [a == b]. *)
Definition isclose (a b rtol atol : float) : bool :=
  if F64.is_finite a && F64.is_finite b then
    F64.leb (F64.abs (F64.sub a b))
      (F64.add atol (F64.mul rtol (F64.abs b)))
  else eqb a b.

(** The default of the keyword [rtol], [1e-05]. *)
Definition default_rtol : float := F64.lit_1e_5.

End Numpy.

(** ** [memote.support.basic], as the specification describes it *)

Module Basic.

Definition formula_missing (met : Metabolite) : bool :=
  match formula met with
  | None => true
  | Some f => String.eqb f ""
  end.

(** Modelled from the spec: [basic.check_metabolites_formula_presence] is
    absent from the sources; it returns the metabolites whose formula is
    empty or missing. *)
Definition check_metabolites_formula_presence (model : Model)
  : list Metabolite :=
  filter (fun met => formula_missing met = true) (metabolites model).

(** Modelled from the spec: [basic.calculate_metabolic_coverage] is absent
    from the sources; the coverage is the number of reactions divided by
    the number of genes.  A model without genes is an explicit edge case:
    no division is attempted and a fallback value stands for the coverage.
    The spec leaves the value open (undefined, zero, infinite); it is the
    parameter [fallback]. *)
Definition calculate_metabolic_coverage (fallback : float) (model : Model)
  : result float :=
  if len (genes model) =? 0 then Ok fallback
  else truediv (len (reactions model)) (len (genes model)).

(** Modelled from the spec: the stripping that
    [basic.find_unique_metabolites], absent from the sources, applies to
    every identifier: the identifier of a metabolite without the suffix of
    its compartment; with the suffix [_c] for the compartment [c], [atp_c]
    is [atp].  The suffix of a compartment is what the compartment table
    gives for it, the parameter [suffix]. *)
Definition strip_compartment (suffix : string -> string) (met : Metabolite)
  : string :=
  let sfx := suffix (compartment met) in
  if endswith (met_id met) sfx then
    String.substring 0
      (String.length (met_id met) - String.length sfx) (met_id met)
  else met_id met.

(** Modelled from the spec: [basic.find_unique_metabolites] is absent from
    the sources; it returns the metabolite identifiers with the compartment
    suffix stripped, each once. *)
Definition find_unique_metabolites (suffix : string -> string)
    (model : Model) : list string :=
  remove_dups (map (strip_compartment suffix) (metabolites model)).

End Basic.

(** ** [memote/suite/tests/test_basic.py] *)

Module TestBasic.

Section Checks.

(** [str.format], [wrapper.fill] and [memote.utils.truncate] produce the
    text of the messages; the checks do not look into it.  (The templates
    are written with each run of white space of the source literal as one
    space.) *)
Variable format : string -> list value -> string.
Variable fill : string -> string.
Variable truncate : value -> value.

(** [memote.support.basic] and [memote.support.helpers], absent from the
    sources. *)
Variable check_metabolites_formula_presence : Model -> list Metabolite.
Variable check_metabolites_charge_presence : Model -> list Metabolite.
Variable check_gene_protein_reaction_rule_presence : Model -> list Reaction.
Variable calculate_metabolic_coverage : Model -> result float.
Variable find_pure_metabolic_reactions : Model -> list Reaction.
Variable find_transport_reactions : Model -> list Reaction.
Variable find_unique_metabolites : Model -> list string.

Definition test_model_id_presence (read_only_model : Model) : M Store unit :=
  ann <~ annotation "test_model_id_presence";
  assert (bool_decide (is_Some (model_id read_only_model))) None >>
  setitem ann "data" (default VNone (model_id read_only_model)) >>
  assert (truthy (default VNone (model_id read_only_model))) None.

Definition test_metabolites_formula_presence (read_only_model : Model)
  : M Store unit :=
  ann <~ annotation "test_metabolites_formula_presence";
  setitem ann "data"
    (VList (get_ids met_id
              (check_metabolites_formula_presence read_only_model))) >>
  n <~ len_item ann "data";
  metric <~ lift_result (truediv n (len (metabolites read_only_model)));
  setitem ann "metric" (VFloat metric) >>
  n <~ len_item ann "data";
  metric <~ getitem ann "metric";
  data <~ getitem ann "data";
  setitem ann "message"
    (VStr (fill (format
       "There are a total of {} metabolites ({:.2%}) without a formula: {}"
       [VInt n; metric; truncate data]))) >>
  n <~ len_item ann "data";
  msg <~ getitem ann "message";
  assert (n =? 0) (Some msg).

Definition test_metabolites_charge_presence (read_only_model : Model)
  : M Store unit :=
  ann <~ annotation "test_metabolites_charge_presence";
  setitem ann "data"
    (VList (get_ids met_id
              (check_metabolites_charge_presence read_only_model))) >>
  n <~ len_item ann "data";
  metric <~ lift_result (truediv n (len (metabolites read_only_model)));
  setitem ann "metric" (VFloat metric) >>
  n <~ len_item ann "data";
  metric <~ getitem ann "metric";
  data <~ getitem ann "data";
  setitem ann "message"
    (VStr (fill (format
       "There are a total of {} metabolites ({:.2%}) without a charge: {}"
       [VInt n; metric; truncate data]))) >>
  n <~ len_item ann "data";
  msg <~ getitem ann "message";
  assert (n =? 0) (Some msg).

Definition test_gene_protein_reaction_rule_presence
    (read_only_model : Model) : M Store unit :=
  ann <~ annotation "test_gene_protein_reaction_rule_presence";
  let missing_gpr_metabolic_rxns :=
    list_difference
      (remove_dups
         (check_gene_protein_reaction_rule_presence read_only_model))
      (remove_dups (exchanges read_only_model)) in
  setitem ann "data" (VList (get_ids rxn_id missing_gpr_metabolic_rxns)) >>
  n <~ len_item ann "data";
  metric <~ lift_result (truediv n (len (reactions read_only_model)));
  setitem ann "metric" (VFloat metric) >>
  n <~ len_item ann "data";
  metric <~ getitem ann "metric";
  data <~ getitem ann "data";
  setitem ann "message"
    (VStr (fill (format
       "There are a total of {} reactions ({:.2%}) without GPR: {}"
       [VInt n; metric; truncate data]))) >>
  n <~ len_item ann "data";
  msg <~ getitem ann "message";
  assert (n =? 0) (Some msg).

Definition test_metabolic_coverage (read_only_model : Model)
  : M Store unit :=
  ann <~ annotation "test_metabolic_coverage";
  metric <~ lift_result (calculate_metabolic_coverage read_only_model);
  setitem ann "metric" (VFloat metric) >>
  metric <~ getitem ann "metric";
  setitem ann "message"
    (VStr (fill (format
       "The degree of metabolic coverage is {:.2}." [metric]))) >>
  metric <~ getitem ann "metric";
  msg <~ getitem ann "message";
  match metric with
  | VFloat x => assert (F64.leb F64.one x) (Some msg)
  | _ => raise TypeError
  end.

Definition test_find_pure_metabolic_reactions (read_only_model : Model)
  : M Store unit :=
  ann <~ annotation "test_find_pure_metabolic_reactions";
  setitem ann "data"
    (VList (get_ids rxn_id
              (find_pure_metabolic_reactions read_only_model))) >>
  n <~ len_item ann "data";
  metric <~ lift_result (truediv n (len (reactions read_only_model)));
  setitem ann "metric" (VFloat metric) >>
  n <~ len_item ann "data";
  metric <~ getitem ann "metric";
  data <~ getitem ann "data";
  setitem ann "message"
    (VStr (fill (format
       "A total of {:d} ({:.2%}) purely metabolic reactions are defined in the model, this excludes transporters, exchanges, or pseudo-reactions: {}"
       [VInt n; metric; truncate data]))) >>
  n <~ len_item ann "data";
  msg <~ getitem ann "message";
  assert (1 <=? n) (Some msg).

Definition test_find_transport_reactions (read_only_model : Model)
  : M Store unit :=
  ann <~ annotation "test_find_transport_reactions";
  setitem ann "data"
    (VList (get_ids rxn_id (find_transport_reactions read_only_model))) >>
  n <~ len_item ann "data";
  metric <~ lift_result (truediv n (len (reactions read_only_model)));
  setitem ann "metric" (VFloat metric) >>
  n <~ len_item ann "data";
  metric <~ getitem ann "metric";
  data <~ getitem ann "data";
  setitem ann "message"
    (VStr (fill (format
       "A total of {:d} ({:.2%}) transport reactions are defined in the model, this excludes purely metabolic reactions, exchanges, or pseudo-reactions: {}"
       [VInt n; metric; truncate data]))) >>
  n <~ len_item ann "data";
  msg <~ getitem ann "message";
  assert (1 <=? n) (Some msg).

Definition test_find_unique_metabolites (read_only_model : Model)
  : M Store unit :=
  ann <~ annotation "test_find_unique_metabolites";
  setitem ann "data" (VList (find_unique_metabolites read_only_model)) >>
  n <~ len_item ann "data";
  metric <~ lift_result (truediv n (len (metabolites read_only_model)));
  setitem ann "metric" (VFloat metric) >>
  n <~ len_item ann "data";
  metric <~ getitem ann "metric";
  data <~ getitem ann "data";
  setitem ann "message"
    (VStr (fill (format
       "Not counting the same entities in other compartments, there is a total of {} ({:.2%}) unique metabolites in the model: {}"
       [VInt n; metric; truncate data]))) >>
  n <~ len_item ann "data";
  msg <~ getitem ann "message";
  assert (n <? len (metabolites read_only_model)) (Some msg).

(** [memote.support.basic.find_ngam], absent from the sources. *)
Variable find_ngam : Model -> list Reaction.

(** The checks that count entities.  [hasattr(read_only_model, "genes")],
    and the same for [reactions] and [metabolites], holds of every model
    object: the attributes are fields of the class. *)
Definition test_genes_presence (read_only_model : Model) : M Store unit :=
  ann <~ annotation "test_genes_presence";
  assert true None >>
  setitem ann "data" (VList (get_ids gene_id (genes read_only_model))) >>
  n <~ len_item ann "data";
  setitem ann "message"
    (VStr (format "{:d} genes are defined in the model." [VInt n])) >>
  n <~ len_item ann "data";
  msg <~ getitem ann "message";
  assert (1 <=? n) (Some msg).

Definition test_reactions_presence (read_only_model : Model)
  : M Store unit :=
  ann <~ annotation "test_reactions_presence";
  assert true None >>
  setitem ann "data" (VList (get_ids rxn_id (reactions read_only_model))) >>
  n <~ len_item ann "data";
  setitem ann "message"
    (VStr (format "{:d} reactions are defined in the model." [VInt n])) >>
  n <~ len_item ann "data";
  msg <~ getitem ann "message";
  assert (1 <=? n) (Some msg).

Definition test_metabolites_presence (read_only_model : Model)
  : M Store unit :=
  ann <~ annotation "test_metabolites_presence";
  assert true None >>
  setitem ann "data"
    (VList (get_ids met_id (metabolites read_only_model))) >>
  n <~ len_item ann "data";
  setitem ann "message"
    (VStr (format "{:d} metabolites are defined in the model." [VInt n])) >>
  n <~ len_item ann "data";
  msg <~ getitem ann "message";
  assert (1 <=? n) (Some msg).

Definition test_transport_reaction_presence (read_only_model : Model)
  : M Store unit :=
  ann <~ annotation "test_transport_reaction_presence";
  setitem ann "data"
    (VList (get_ids rxn_id (find_transport_reactions read_only_model))) >>
  n <~ len_item ann "data";
  setitem ann "message"
    (VStr (fill (format
       "{:d} transport reactions are defined in the model." [VInt n]))) >>
  n <~ len_item ann "data";
  msg <~ getitem ann "message";
  assert (1 <=? n) (Some msg).

Definition test_ngam_presence (read_only_model : Model) : M Store unit :=
  ann <~ annotation "test_ngam_presence";
  setitem ann "data" (VList (get_ids rxn_id (find_ngam read_only_model))) >>
  n <~ len_item ann "data";
  data <~ getitem ann "data";
  setitem ann "message"
    (VStr (fill (format
       "A total of {} NGAM reactions could be identified: {}"
       [VInt n; truncate data]))) >>
  n <~ len_item ann "data";
  msg <~ getitem ann "message";
  assert (n =? 1) (Some msg).

(** [model.get_metabolite_compartments()]: the set of the compartments of
    the metabolites of the model. *)
Definition get_metabolite_compartments (m : Model) : gset string :=
  list_to_set (map compartment (metabolites m)).

(** [list(s)] of a set: its elements, each once, in the order in which the
    set is iterated. *)
Variable list_of_set : gset string -> list string.

Definition test_compartments_presence (read_only_model : Model)
  : M Store unit :=
  ann <~ annotation "test_compartments_presence";
  assert true None >>
  setitem ann "data"
    (VList (list_of_set (get_metabolite_compartments read_only_model))) >>
  n <~ len_item ann "data";
  data <~ getitem ann "data";
  setitem ann "message"
    (VStr (fill (format
       "A total of {:d} compartments are defined in the model: {}"
       [VInt n; truncate data]))) >>
  n <~ len_item ann "data";
  msg <~ getitem ann "message";
  assert (3 <=? n) (Some msg).


End Checks.

(** The decorations of the checks: [@annotate(title=..., type=...)]. *)
Definition decorate_test_model_id_presence : M Store unit :=
  annotate "test_model_id_presence" "Model Identifier" "string" VNone VNone.
Definition decorate_test_metabolites_formula_presence : M Store unit :=
  annotate "test_metabolites_formula_presence"
    "Metabolites without Formula" "length" VNone VNone.
Definition decorate_test_metabolites_charge_presence : M Store unit :=
  annotate "test_metabolites_charge_presence"
    "Metabolites without Charge" "length" VNone VNone.
Definition decorate_test_gene_protein_reaction_rule_presence
  : M Store unit :=
  annotate "test_gene_protein_reaction_rule_presence"
    "Reactions without GPR" "length" VNone VNone.
Definition decorate_test_metabolic_coverage : M Store unit :=
  annotate "test_metabolic_coverage" "Metabolic Coverage" "number"
    VNone VNone.
Definition decorate_test_find_pure_metabolic_reactions : M Store unit :=
  annotate "test_find_pure_metabolic_reactions"
    "Number of Purely Metabolic Reactions" "length" VNone VNone.
Definition decorate_test_find_transport_reactions : M Store unit :=
  annotate "test_find_transport_reactions"
    "Number of Transport Reactions" "length" VNone VNone.
Definition decorate_test_find_unique_metabolites : M Store unit :=
  annotate "test_find_unique_metabolites"
    "Number of Unique Metabolites" "length" VNone VNone.

Definition decorate_test_genes_presence : M Store unit :=
  annotate "test_genes_presence" "Total Number of Genes" "length"
    VNone VNone.
Definition decorate_test_reactions_presence : M Store unit :=
  annotate "test_reactions_presence" "Total Number of Reactions" "length"
    VNone VNone.
Definition decorate_test_metabolites_presence : M Store unit :=
  annotate "test_metabolites_presence" "Total Number of Metabolites"
    "length" VNone VNone.
Definition decorate_test_transport_reaction_presence : M Store unit :=
  annotate "test_transport_reaction_presence"
    "Total Number of Transport Reactions" "length" VNone VNone.
Definition decorate_test_ngam_presence : M Store unit :=
  annotate "test_ngam_presence"
    "Non-Growth Associated Maintenance Reaction" "length" VNone VNone.

Definition decorate_test_compartments_presence : M Store unit :=
  annotate "test_compartments_presence" "Total Number of Compartments"
    "length" VNone VNone.


End TestBasic.

(** ** [memote.support.biomass], as the specification describes it *)

Module Biomass.

(** Modelled from the spec: [biomass.sum_biomass_weight] is absent from the
    sources; the mass sum is the sum of |coefficient| x molar mass over all
    metabolites with a negative coefficient. *)
Definition sum_biomass_weight (reaction : Reaction) : float :=
  fold_left
    (fun acc mc =>
       if F64.ltb (snd mc) F64.zero
       then F64.add acc (F64.mul (F64.abs (snd mc)) (formula_weight (fst mc)))
       else acc)
    (rxn_metabolites reaction) F64.zero.

Section Solver.

(** The flux-balance optimisation of the model's current objective, a
    black box that reads the model and returns the optimum (a NaN when
    there is none). *)
Variable slim_optimize : Model -> float.

Definition optimize : M Model float :=
  fun m => (Ok (slim_optimize m), m).

(** One precursor: inside a scope of its own, require its net production
    through a demand reaction, make that the objective and optimise; the
    precursor is blocked unless a positive flux is achieved. *)
Definition blocked_step (precursor : Metabolite) (blocked : list Metabolite)
  : M Model (list Metabolite) :=
  value <~ with_model
             (dm_rxn <~ add_demand precursor;
              set_objective dm_rxn >>
              optimize);
  if F64.gtb value F64.zero then ret blocked
  else ret (blocked ++ [precursor]).

Fixpoint blocked_loop (precursors blocked : list Metabolite)
  : M Model (list Metabolite) :=
  match precursors with
  | [] => ret blocked
  | p :: rest =>
      blocked' <~ blocked_step p blocked;
      blocked_loop rest blocked'
  end.

(** Modelled from the spec: [biomass.find_blocked_biomass_precursors] is
    absent from the sources; for each metabolite consumed by the biomass
    reaction it transiently forces the net production of the metabolite to
    be required and checks whether the optimisation can still achieve a
    positive flux; if not, the metabolite is blocked. *)
Definition find_blocked_biomass_precursors (reaction : nat)
  : M Model (list Metabolite) :=
  rxn <~ deref reaction;
  blocked_loop (reactants rxn) [].

End Solver.

End Biomass.

(** ** [memote/suite/tests/test_biomass.py] *)

Module TestBiomass.

Section Checks.

Variable format : string -> list value -> string.
Variable fill : string -> string.

(** [memote.support.biomass] and [memote.support.helpers], absent from the
    sources. *)
Variable sum_biomass_weight : Reaction -> float.
Variable find_blocked_biomass_precursors : nat -> M Model (list Metabolite).
Variable run_fba : string -> M Model float.

(** [read_only_model.reactions.get_by_id(reaction_id)] *)
Definition get_reaction (read_only_model : Model) (reaction_id : string)
  : result Reaction :=
  match get_by_id reaction_id read_only_model with
  | (Ok ref, _) =>
      match reactions read_only_model !! ref with
      | Some r => Ok r
      | None => Raise (KeyError reaction_id)
      end
  | (Raise e, _) => Raise e
  end.

(** The float stored at [d[k1][k2]]. *)
Definition float_item2 (d : loc) (k1 k2 : string) : M Store float :=
  v <~ getitem2 d k1 k2;
  match v with
  | VFloat x => ret x
  | _ => raise TypeError
  end.

Definition test_biomass_consistency (read_only_model : Model)
    (reaction_id : string) : M Store unit :=
  ann <~ annotation "test_biomass_consistency";
  reaction <~ lift_result (get_reaction read_only_model reaction_id);
  setitem2 ann "data" reaction_id (VFloat (sum_biomass_weight reaction)) >>
  data <~ getitem2 ann "data" reaction_id;
  setitem2 ann "message" reaction_id
    (VStr (fill (format
       "The component molar mass of the biomass reaction {} sums up to {} which is outside of the 1e-03 margin from 1 mmol / g[CDW] / h. "
       [VStr reaction_id; data]))) >>
  x <~ float_item2 ann "data" reaction_id;
  msg <~ getitem2 ann "message" reaction_id;
  assert (Numpy.isclose x F64.one Numpy.default_rtol F64.lit_1e_3) (Some msg).

Definition test_biomass_default_production (reaction_id : string)
  : M World unit :=
  ann <~ on_store (annotation "test_biomass_default_production");
  rate <~ on_model (run_fba reaction_id);
  on_store (setitem2 ann "data" reaction_id (VFloat rate)) >>
  data <~ on_store (getitem2 ann "data" reaction_id);
  on_store (setitem2 ann "message" reaction_id
    (VStr (fill (format
       "Using the biomass reaction {} this is the growth rate that can be achieved when the model is simulated on the provided default medium: {} "
       [VStr reaction_id; data])))) >>
  x <~ on_store (float_item2 ann "data" reaction_id);
  msg <~ on_store (getitem2 ann "message" reaction_id);
  assert (F64.gtb x F64.zero) (Some msg).

Definition test_biomass_precursors_default_production
    (reaction_id : string) : M World unit :=
  ann <~ on_store (annotation "test_biomass_precursors_default_production");
  reaction <~ on_model (get_by_id reaction_id);
  blocked <~ on_model (find_blocked_biomass_precursors reaction);
  on_store (setitem2 ann "data" reaction_id
              (VList (get_ids met_id blocked))) >>
  n <~ on_store (len_item2 ann "data" reaction_id);
  data <~ on_store (getitem2 ann "data" reaction_id);
  on_store (setitem2 ann "message" reaction_id
    (VStr (fill (format
       "Using the biomass reaction {} and when the model is simulated on the provided default medium a total of {} precursors cannot be produced: {} "
       [VStr reaction_id; VInt n; data])))) >>
  n <~ on_store (len_item2 ann "data" reaction_id);
  msg <~ on_store (getitem2 ann "message" reaction_id);
  assert (n =? 0) (Some msg).

(** [for exchange in model.exchanges: exchange.bounds = (-1000, 1000)] *)
Definition open_exchanges : M Model unit :=
  m <~ get;
  for_each (exchange_refs m)
    (fun exchange => set_bounds exchange F64.lit_m1000 F64.lit_1000).

Definition test_biomass_precursors_open_production (reaction_id : string)
  : M World unit :=
  ann <~ on_store (annotation "test_biomass_precursors_open_production");
  with_model_w
    (on_model open_exchanges >>
     reaction <~ on_model (get_by_id reaction_id);
     blocked <~ on_model (find_blocked_biomass_precursors reaction);
     on_store (setitem2 ann "data" reaction_id
                 (VList (get_ids met_id blocked)))) >>
  n <~ on_store (len_item2 ann "data" reaction_id);
  data <~ on_store (getitem2 ann "data" reaction_id);
  on_store (setitem2 ann "message" reaction_id
    (VStr (fill (format
       "Using the biomass reaction {} and when the model is simulated in complete medium a total of {} precursors cannot be produced: {} "
       [VStr reaction_id; VInt n; data])))) >>
  n <~ on_store (len_item2 ann "data" reaction_id);
  msg <~ on_store (getitem2 ann "message" reaction_id);
  assert (n =? 0) (Some msg).

Definition test_fast_growth_default (reaction_id : string) : M World unit :=
  ann <~ on_store (annotation "test_fast_growth_default");
  rate <~ on_model (run_fba reaction_id);
  on_store (setitem2 ann "data" reaction_id (VFloat rate)) >>
  data <~ on_store (getitem2 ann "data" reaction_id);
  on_store (setitem2 ann "message" reaction_id
    (VStr (fill (format
       "Using the biomass reaction {} and when the model is simulated on the provided default medium the growth rate amounts to {}"
       [VStr reaction_id; data])))) >>
  x <~ on_store (float_item2 ann "data" reaction_id);
  msg <~ on_store (getitem2 ann "message" reaction_id);
  assert (F64.leb x F64.lit_10_3972) (Some msg).

(** [memote.utils.truncate], [pytest.memote.biomass_ids] and
    [memote.support.biomass.gam_in_biomass], absent from the sources. *)
Variable truncate : value -> value.
Variable BIOMASS_IDS : list string.
Variable gam_in_biomass : Reaction -> bool.

Definition test_biomass_presence : M Store unit :=
  ann <~ annotation "test_biomass_presence";
  setitem ann "data" (VList BIOMASS_IDS) >>
  n <~ len_item ann "data";
  data <~ getitem ann "data";
  setitem ann "message"
    (VStr (fill (format
       "In this model {} the following biomass reactions were identified: {}"
       [VInt n; truncate data]))) >>
  n <~ len_item ann "data";
  msg <~ getitem ann "message";
  assert (0 <? n) (Some msg).

Definition test_gam_in_biomass (reaction_id : string) : M World unit :=
  ann <~ on_store (annotation "test_gam_in_biomass");
  ref <~ on_model (get_by_id reaction_id);
  reaction <~ on_model (deref ref);
  on_store (setitem2 ann "data" reaction_id
              (VBool (gam_in_biomass reaction))) >>
  on_store (setitem2 ann "message" reaction_id
    (VStr (fill (format
       "{} does not contain a term for growth-associated maintenance. "
       [VStr reaction_id])))) >>
  data <~ on_store (getitem2 ann "data" reaction_id);
  msg <~ on_store (getitem2 ann "message" reaction_id);
  assert (truthy data) (Some msg).


End Checks.

(** The decoration of a biomass check:
    [@annotate(title=..., type="object", data=dict(), message=dict())]. *)
Definition decorate (func title : string) : M Store unit :=
  data <~ new_dict;
  message <~ new_dict;
  annotate func title "object" (VRef data) (VRef message).

Definition decorate_test_biomass_consistency : M Store unit :=
  decorate "test_biomass_consistency" "Biomass Consistency".
Definition decorate_test_biomass_default_production : M Store unit :=
  decorate "test_biomass_default_production"
    "Biomass Production At Default State".
Definition decorate_test_biomass_precursors_default_production
  : M Store unit :=
  decorate "test_biomass_precursors_default_production"
    "Blocked Biomass Precursors At Default State".
Definition decorate_test_biomass_precursors_open_production
  : M Store unit :=
  decorate "test_biomass_precursors_open_production"
    "Blocked Biomass Precursors In Complete Medium".
Definition decorate_test_fast_growth_default : M Store unit :=
  decorate "test_fast_growth_default"
    "Unrealistic Growth Rate In Default Condition".

Definition decorate_test_biomass_presence : M Store unit :=
  annotate "test_biomass_presence" "Presence of a Biomass Reaction" "array"
    VNone VNone.
Definition decorate_test_gam_in_biomass : M Store unit :=
  decorate "test_gam_in_biomass"
    "Growth-associated Maintenance in Biomass Reaction".


End TestBiomass.

(** ** Flux balance analysis

    What the optimisation decides, stated on the exact values of the
    model's numbers: a flux distribution assigns a rate to every reaction
    (by reference); it is feasible when every rate lies within the bounds of
    its reaction and every metabolite is produced as fast as it is
    consumed. *)

Module FBA.

Definition flux : Type := nat -> Q.

Definition lower_ok (lb : float) (x : Q) : Prop :=
  match lb with
  | S754_nan => False
  | S754_infinity s => s = true
  | _ => (F64.to_Q lb <= x)%Q
  end.

Definition upper_ok (ub : float) (x : Q) : Prop :=
  match ub with
  | S754_nan => False
  | S754_infinity s => s = false
  | _ => (x <= F64.to_Q ub)%Q
  end.

Definition within_bounds (r : Reaction) (x : Q) : Prop :=
  lower_ok (lower_bound r) x /\ upper_ok (upper_bound r) x.

(** The coefficient of the metabolite named [met] in a reaction. *)
Fixpoint coefficient_in (mcs : list (Metabolite * float)) (met : string)
  : Q :=
  match mcs with
  | [] => 0%Q
  | (m, c) :: rest =>
      if String.eqb (met_id m) met then F64.to_Q c
      else coefficient_in rest met
  end.
Definition coefficient (r : Reaction) (met : string) : Q :=
  coefficient_in (rxn_metabolites r) met.

(** The net production of a metabolite by the reactions [rs], the first of
    which has reference [i]. *)
Fixpoint net_production (rs : list Reaction) (i : nat) (v : flux)
    (met : string) : Q :=
  match rs with
  | [] => 0%Q
  | r :: rs' =>
      (coefficient r met * v i + net_production rs' (S i) v met)%Q
  end.

Definition metabolite_ids (rs : list Reaction) : list string :=
  concat (map (fun r => map (fun mc => met_id (fst mc)) (rxn_metabolites r))
            rs).

Definition steady_state (rs : list Reaction) (v : flux) : Prop :=
  Forall (fun met => (net_production rs 0 v met == 0)%Q) (metabolite_ids rs).

Definition feasible (rs : list Reaction) (v : flux) : Prop :=
  (forall i r, rs !! i = Some r -> within_bounds r (v i))
  /\ steady_state rs v.

(** The optimisation can achieve a positive flux through the reaction
    [ref]. *)
Definition positive_flux (rs : list Reaction) (ref : nat) : Prop :=
  exists v, feasible rs v /\ (0 < v ref)%Q.

(** A metabolite can be produced: with a demand reaction for it added to
    the model, a positive flux through the demand is achievable. *)
Definition producible (rs : list Reaction) (met : Metabolite) : Prop :=
  positive_flux (rs ++ [demand_reaction met]) (length rs).

(** The blocked precursors of a biomass reaction in a model: the
    metabolites the reaction consumes that cannot be produced. *)
Definition blocked_precursor (rs : list Reaction) (biomass : Reaction)
    (met : Metabolite) : Prop :=
  met ∈ reactants biomass /\ ~ producible rs met.

(** The complete medium: the bounds of every exchange reaction are
    (-1000, 1000). *)
Definition widen (r : Reaction) : Reaction :=
  if boundary r then with_bounds F64.lit_m1000 F64.lit_1000 r else r.
Definition complete_medium (rs : list Reaction) : list Reaction :=
  map widen rs.

(** The bounds of a reaction lie within (-1000, 1000). *)
Definition bounds_within_1000 (r : Reaction) : bool :=
  F64.is_finite (lower_bound r) && F64.is_finite (upper_bound r)
  && Qle_bool (F64.to_Q F64.lit_m1000) (F64.to_Q (lower_bound r))
  && Qle_bool (F64.to_Q (upper_bound r)) (F64.to_Q F64.lit_1000).

Definition exchanges_within_1000 (rs : list Reaction) : bool :=
  forallb (fun r => implb (boundary r) (bounds_within_1000 r)) rs.

End FBA.

(** ** Characterisations used by the statements *)

Module Spec.

(** What the loop of [find_mistagged_reaction_compartment] appends: the
    identifier matched the pattern, the reaction is not purely cytosolic,
    and no compartment of the reaction occurs in the matched suffix. *)
Definition flagged (reaction_match : ReactionMap) (rxn : Reaction) : bool :=
  match lookup_rxn reaction_match rxn with
  | Ok (Some mt) =>
      negb (bool_decide ({["c"]} = compartments rxn))
      && negb (existsb (fun comp => str_in comp (group_suffix mt))
                 (elements (compartments rxn)))
  | _ => false
  end.

(** An exchange reaction: a boundary reaction that touches only the
    extracellular compartment. *)
Definition exchange_reaction (rxn : Reaction) : Prop :=
  boundary rxn = true /\ compartments rxn = {["e"]}.

(** A demand reaction: a boundary reaction that touches a single
    compartment other than the extracellular one. *)
Definition demand_reaction_of (rxn : Reaction) : Prop :=
  boundary rxn = true
  /\ size (compartments rxn) = 1%nat /\ "e" ∉ compartments rxn.

Global Instance exchange_reaction_dec rxn : Decision (exchange_reaction rxn).
Proof. unfold exchange_reaction. apply _. Defined.
Global Instance demand_reaction_of_dec rxn
  : Decision (demand_reaction_of rxn).
Proof. unfold demand_reaction_of. apply _. Defined.

(** The entry [key] of the dictionary at [d]. *)
Definition entry (d : loc) (key : string) (st : Store) : option value :=
  rec ← heap st !! d; rec !! key.

(** The store after [d[key] = v]. *)
Definition set_entry (d : loc) (key : string) (v : value) (st : Store)
  : Store :=
  {| attrs := attrs st;
     heap := alter (fun rec => <[key := v]> rec) d (heap st);
     next_loc := next_loc st |}.

(** The check [func] carries a record at [l]. *)
Definition annotated_at (func : string) (l : loc) (st : Store) : Prop :=
  attrs st !! func = Some l /\ is_Some (heap st !! l).

(** The check [func] carries a record at [l] whose data and message are
    the dictionaries at [dl] and [ml], three different objects: the state
    that [@annotate(..., data=dict(), message=dict())] leaves. *)
Definition decorated_at (func : string) (l dl ml : loc) (st : Store)
  : Prop :=
  attrs st !! func = Some l
  /\ (exists rec, heap st !! l = Some rec
                  /\ rec !! "data" = Some (VRef dl)
                  /\ rec !! "message" = Some (VRef ml))
  /\ is_Some (heap st !! dl) /\ is_Some (heap st !! ml)
  /\ l <> dl /\ l <> ml /\ dl <> ml.

(** A field of a record is populated when it holds something else than
    the placeholder [None]. *)
Definition populated (rec : gmap string value) (field : string) : bool :=
  match rec !! field with
  | Some VNone | None => false
  | Some _ => true
  end.

(** The field [field] of the record attached to [func]. *)
Definition attached_field (func field : string) (st : Store)
  : option value :=
  rec ← attached func st; rec !! field.

(** The same, as tests that compute. *)
Definition annotated_atb (func : string) (l : loc) (st : Store) : bool :=
  match attrs st !! func, heap st !! l with
  | Some l', Some _ => Pos.eqb l' l
  | _, _ => false
  end.

Definition refers_to (rec : gmap string value) (field : string) (d : loc)
  : bool :=
  match rec !! field with
  | Some (VRef d') => Pos.eqb d' d
  | _ => false
  end.

Definition decorated_atb (func : string) (l dl ml : loc) (st : Store)
  : bool :=
  match attrs st !! func, heap st !! l, heap st !! dl, heap st !! ml with
  | Some l', Some rec, Some _, Some _ =>
      Pos.eqb l' l && refers_to rec "data" dl && refers_to rec "message" ml
      && negb (Pos.eqb l dl) && negb (Pos.eqb l ml) && negb (Pos.eqb dl ml)
  | _, _, _, _ => false
  end.

(** The shape shared by the checks of [test_basic.py] that report a ratio:
    store the identifiers, divide their number by [denom], store the
    metric and the message, assert [cond] of the number. *)
Definition ratio_check (format : string -> list value -> string)
    (fill : string -> string) (truncate : value -> value)
    (func : string) (ids : list string) (denom : Z) (template : string)
    (cond : Z -> bool) : M Store unit :=
  ann <~ annotation func;
  setitem ann "data" (VList ids) >>
  n <~ len_item ann "data";
  metric <~ lift_result (truediv n denom);
  setitem ann "metric" (VFloat metric) >>
  n <~ len_item ann "data";
  metric <~ getitem ann "metric";
  data <~ getitem ann "data";
  setitem ann "message"
    (VStr (fill (format template [VInt n; metric; truncate data]))) >>
  n <~ len_item ann "data";
  msg <~ getitem ann "message";
  assert (cond n) (Some msg).

(** The model [m] is inside a [with model:] block that was entered at
    [m0]: leaving the block now leads back to [m0]. *)
Definition scoped (m0 m : Model) : Prop :=
  exists us,
    contexts m = us :: contexts m0
    /\ fold_left apply_undo us (set_contexts (contexts m0) m) = m0.

(** A computation on the model changes it only through the context
    manager: every change is recorded in the innermost block. *)
Definition tracked {A} (c : M Model A) : Prop :=
  forall m0 m, scoped m0 m -> scoped m0 (snd (c m)).

Definition tracked_w {A} (c : M World A) : Prop :=
  forall m0 w, scoped m0 (model w) -> scoped m0 (model (snd (c w))).

(** A check leaves the model as it found it. *)
Definition keeps_model {A} (c : M World A) : Prop :=
  forall w, model (snd (c w)) = model w.

(** The model the optimisation is asked about when the precursor [met]
    is probed in [m]: inside a scope, with the demand reaction for [met]
    added and made the objective. *)
Definition probe (m : Model) (met : Metabolite) : Model :=
  snd ((dm_rxn <~ add_demand met; set_objective dm_rxn) (enter m)).

(** The optimisation is exact on the probes of the precursors of a biomass
    reaction: it finds a positive optimum exactly when a positive flux
    through the demand is achievable. *)
Definition solver_exact (slim_optimize : Model -> float) (m : Model)
    (biomass : Reaction) : Prop :=
  forall met,
    met ∈ reactants biomass ->
    F64.gtb (slim_optimize (probe m met)) F64.zero = true
    <-> FBA.producible (reactions m) met.

(** The model inside the block of the complete-medium check, once the
    bounds of the exchanges have been widened. *)
Definition in_complete_medium (m : Model) : Model :=
  snd (TestBiomass.open_exchanges (enter m)).

(** What a ratio check stores as its message and what it returns. *)
Definition ratio_message (format : string -> list value -> string)
    (fill : string -> string) (truncate : value -> value)
    (template : string) (ids : list string) (metric : float) : value :=
  VStr (fill (format template
                [VInt (len ids); VFloat metric; truncate (VList ids)])).

Definition ratio_outcome (format : string -> list value -> string)
    (fill : string -> string) (truncate : value -> value)
    (ids : list string) (denom : Z) (template : string) (cond : Z -> bool)
  : result unit :=
  match truediv (len ids) denom with
  | Raise e => Raise e
  | Ok metric =>
      if cond (len ids) then Ok tt
      else Raise (AssertionError
                    (Some (ratio_message format fill truncate template ids
                             metric)))
  end.

(** The checks of [test_basic.py] that divide, and the check of the
    metabolic coverage. *)
Definition dividing_checks : list string :=
  ["test_metabolites_formula_presence"; "test_metabolites_charge_presence";
   "test_gene_protein_reaction_rule_presence";
   "test_find_pure_metabolic_reactions"; "test_find_transport_reactions";
   "test_find_unique_metabolites"; "test_metabolic_coverage"].

(** Every check of the list carries a record. *)
Definition all_annotated (funcs : list string) (st : Store) : Prop :=
  forall func, func ∈ funcs -> exists l, annotated_at func l st.

(** Some metabolite exists in more than one compartment: two metabolites
    of the model lie in different compartments and carry the same name,
    each followed by the suffix of its own compartment. *)
Definition in_several_compartments (suffix : string -> string)
    (model : Model) : Prop :=
  exists name m1 m2,
    m1 ∈ metabolites model
    /\ m2 ∈ metabolites model
    /\ compartment m1 <> compartment m2
    /\ met_id m1 = name +:+ suffix (compartment m1)
    /\ met_id m2 = name +:+ suffix (compartment m2).

(** A check that divides without a guard: it raises the division fault
    exactly when [empty] holds, and it has then produced no fallback: the
    metric and the message of its record are what they were before the
    check. *)
Definition faults_without_fallback (func : string) (empty : Prop)
    (st : Store) (run : result unit * Store) : Prop :=
  (fst run = Raise ZeroDivisionError <-> empty)
  /\ (empty ->
      attached_field func "metric" (snd run)
      = attached_field func "metric" st
      /\ attached_field func "message" (snd run)
         = attached_field func "message" st).

(** What the check of the metabolic coverage leaves and returns when the
    coverage is [x]: the metric, a text as the message, and either a
    normal return, when [x] is at least 1, or the assertion error that
    carries the stored text. *)
Definition coverage_report (x : float) (run : result unit * Store) : Prop :=
  attached_field "test_metabolic_coverage" "metric" (snd run)
  = Some (VFloat x)
  /\ exists text,
       attached_field "test_metabolic_coverage" "message" (snd run)
       = Some (VStr text)
       /\ fst run
          = if F64.leb F64.one x then Ok tt
            else Raise (AssertionError (Some (VStr text))).

End Spec.

(** ** The records the checks leave *)

Module Records.

Import Spec.

Section Named.

Variable format : string -> list value -> string.
Variable fill : string -> string.
Variable truncate : value -> value.
Variable check_metabolites_formula_presence : Model -> list Metabolite.
Variable check_metabolites_charge_presence : Model -> list Metabolite.
Variable check_gene_protein_reaction_rule_presence : Model -> list Reaction.
Variable find_pure_metabolic_reactions : Model -> list Reaction.
Variable find_transport_reactions : Model -> list Reaction.
Variable find_unique_metabolites : Model -> list string.

(** The six checks of [test_basic.py] that report a ratio, each under the
    name that carries its record. *)
Definition ratio_checks : list (string * (Model -> M Store unit)) :=
  [("test_metabolites_formula_presence",
    TestBasic.test_metabolites_formula_presence format fill truncate
      check_metabolites_formula_presence);
   ("test_metabolites_charge_presence",
    TestBasic.test_metabolites_charge_presence format fill truncate
      check_metabolites_charge_presence);
   ("test_gene_protein_reaction_rule_presence",
    TestBasic.test_gene_protein_reaction_rule_presence format fill truncate
      check_gene_protein_reaction_rule_presence);
   ("test_find_pure_metabolic_reactions",
    TestBasic.test_find_pure_metabolic_reactions format fill truncate
      find_pure_metabolic_reactions);
   ("test_find_transport_reactions",
    TestBasic.test_find_transport_reactions format fill truncate
      find_transport_reactions);
   ("test_find_unique_metabolites",
    TestBasic.test_find_unique_metabolites format fill truncate
      find_unique_metabolites)].

End Named.

(** The store that a ratio check leaves: the data, and after a division
    that did not fault the metric and the message. *)
Definition ratio_store (format : string -> list value -> string)
    (fill : string -> string) (truncate : value -> value) (l : loc)
    (ids : list string) (denom : Z) (template : string) (st : Store)
  : Store :=
  match truediv (len ids) denom with
  | Raise _ => set_entry l "data" (VList ids) st
  | Ok metric =>
      set_entry l "message"
        (ratio_message format fill truncate template ids metric)
        (set_entry l "metric" (VFloat metric)
           (set_entry l "data" (VList ids) st))
  end.

(** What a ratio check leaves in its record at [l] and how it ends: the
    data are stored in every case; an assertion error carries the stored
    message; the only other exception is the division fault, and then
    metric and message are what they were in [st]. *)
Definition ratio_report (l : loc) (st : Store) (run : result unit * Store)
  : Prop :=
  (exists ids, entry l "data" (snd run) = Some (VList ids))
  /\ match fst run with
     | Ok _ => exists text, entry l "message" (snd run) = Some (VStr text)
     | Raise (AssertionError msg) =>
         msg = entry l "message" (snd run)
         /\ exists text, msg = Some (VStr text)
     | Raise e =>
         e = ZeroDivisionError
         /\ entry l "metric" (snd run) = entry l "metric" st
         /\ entry l "message" (snd run) = entry l "message" st
     end.

(** The stores [st] and [st'] differ at most in the entries [keys] of the
    dictionary at [l]. *)
Definition same_elsewhere (l : loc) (keys : list string) (st st' : Store)
  : Prop :=
  attrs st' = attrs st
  /\ next_loc st' = next_loc st
  /\ (forall l', l' <> l -> heap st' !! l' = heap st !! l')
  /\ (forall k, k ∉ keys -> entry l k st' = entry l k st).

(** The shape shared by the checks that report a number of entities:
    store the identifiers, store a message made from their number, assert
    [cond] of the number. *)
Definition count_check (func : string) (ids : list string)
    (message : Z -> value) (cond : Z -> bool) : M Store unit :=
  ann <~ annotation func;
  setitem ann "data" (VList ids) >>
  n <~ len_item ann "data";
  setitem ann "message" (message n) >>
  n <~ len_item ann "data";
  msg <~ getitem ann "message";
  assert (cond n) (Some msg).

(** The same where the message also lists the stored data. *)
Definition listing_check (func : string) (ids : list string)
    (message : Z -> value -> value) (cond : Z -> bool) : M Store unit :=
  ann <~ annotation func;
  setitem ann "data" (VList ids) >>
  n <~ len_item ann "data";
  data <~ getitem ann "data";
  setitem ann "message" (message n data) >>
  n <~ len_item ann "data";
  msg <~ getitem ann "message";
  assert (cond n) (Some msg).

(** What a check that counts leaves and returns: the identifiers as the
    data of its record, a text as the message, and either a normal return,
    when [ok], or the assertion error that carries the stored text. *)
Definition count_report (func : string) (ids : list string) (ok : bool)
    (run : result unit * Store) : Prop :=
  attached_field func "data" (snd run) = Some (VList ids)
  /\ exists text,
       attached_field func "message" (snd run) = Some (VStr text)
       /\ fst run
          = if ok then Ok tt
            else Raise (AssertionError (Some (VStr text))).

(** The checks of [test_basic.py] that count entities. *)
Definition counting_checks : list string :=
  ["test_genes_presence"; "test_reactions_presence";
   "test_metabolites_presence"; "test_transport_reaction_presence"].

(** The checks of [test_biomass.py] that look the reaction up in the
    model. *)
Definition lookup_checks : list string :=
  ["test_biomass_consistency"; "test_biomass_precursors_default_production";
   "test_biomass_precursors_open_production"; "test_gam_in_biomass"].

End Records.


(** ** Example data *)

Module Examples.

Definition met (id comp : string) : Metabolite :=
  {| met_id := id; formula := Some "C"; charge := Some 0;
     compartment := comp; formula_weight := F64.one |}.

Definition rxn (id : string) (mets : list (Metabolite * float))
    (lb ub : float) : Reaction :=
  {| rxn_id := id; rxn_metabolites := mets; lower_bound := lb;
     upper_bound := ub; gene_reaction_rule := "" |}.

Definition minus_one : float := F64.neg F64.one.

Definition mk_model (rs : list Reaction) (ms : list Metabolite) : Model :=
  {| model_id := Some (VStr "example"); reactions := rs; metabolites := ms;
     genes := []; objective := None; contexts := [] |}.

(** A reaction in the periplasm whose identifier does not follow the
    convention. *)
Definition unmatched : Reaction :=
  rxn "foo" [(met "a_p" "p", minus_one); (met "b_p" "p", F64.one)]
    F64.zero F64.lit_1000.

(** A cytosolic reaction whose identifier carries the suffix of another
    compartment. *)
Definition cytosolic : Reaction :=
  rxn "PGI_e" [(met "g6p_c" "c", minus_one); (met "f6p_c" "c", F64.one)]
    F64.zero F64.lit_1000.

(** The text of the messages, for the examples. *)
Definition format (template : string) (args : list value) : string :=
  template.
Definition fill (s : string) : string := s.
Definition truncate (v : value) : value := v.

(** The store after the decorations of [test_basic.py]. *)
Definition basic_store : Store :=
  snd ((TestBasic.decorate_test_model_id_presence >>
        TestBasic.decorate_test_metabolites_formula_presence >>
        TestBasic.decorate_test_metabolites_charge_presence >>
        TestBasic.decorate_test_gene_protein_reaction_rule_presence >>
        TestBasic.decorate_test_metabolic_coverage >>
        TestBasic.decorate_test_find_pure_metabolic_reactions >>
        TestBasic.decorate_test_find_transport_reactions >>
        TestBasic.decorate_test_find_unique_metabolites) empty_store).

(** The store after the decorations of [test_biomass.py]. *)
Definition biomass_store : Store :=
  snd ((TestBiomass.decorate_test_biomass_consistency >>
        TestBiomass.decorate_test_biomass_default_production >>
        TestBiomass.decorate_test_biomass_precursors_default_production >>
        TestBiomass.decorate_test_biomass_precursors_open_production >>
        TestBiomass.decorate_test_fast_growth_default) empty_store).

(** A model with five reactions and neither metabolites nor genes. *)
Definition five_reactions : Model :=
  mk_model
    [rxn "R1" [] F64.zero F64.lit_1000; rxn "R2" [] F64.zero F64.lit_1000;
     rxn "R3" [] F64.zero F64.lit_1000; rxn "R4" [] F64.zero F64.lit_1000;
     rxn "R5" [] F64.zero F64.lit_1000] [].

(** The suffix of a compartment in a metabolite identifier: an underscore
    and the tag of the compartment, as in [atp_c]; or the tag in square
    brackets, as in [atp[c]]. *)
Definition underscore_suffix (comp : string) : string := "_" +:+ comp.
Definition bracket_suffix (comp : string) : string := "[" +:+ comp +:+ "]".

(** ATP in the cytosol and in the extracellular space, in the other
    convention. *)
Definition atp_brackets : Model :=
  {| model_id := Some (VStr "example"); reactions := [];
     metabolites :=
       [{| met_id := "atp[c]"; formula := Some "C"; charge := Some 0;
           compartment := "c"; formula_weight := F64.one |};
        {| met_id := "atp[e]"; formula := Some "C"; charge := Some 0;
           compartment := "e"; formula_weight := F64.one |}];
     genes := []; objective := None; contexts := [] |}.

(** The same metabolite twice, in one compartment. *)
Definition atp_copies : Model :=
  {| model_id := Some (VStr "example"); reactions := [];
     metabolites :=
       [{| met_id := "atp_c"; formula := Some "C"; charge := Some 0;
           compartment := "c"; formula_weight := F64.one |};
        {| met_id := "atp_c"; formula := Some "C"; charge := Some 0;
           compartment := "c"; formula_weight := F64.one |}];
     genes := []; objective := None; contexts := [] |}.

(** ATP in the cytosol and in the extracellular space. *)
Definition atp_twice : Model :=
  mk_model [] [met "atp_c" "c"; met "atp_e" "e"; met "adp_c" "c"].

(** A biomass reaction that consumes one unit of a single precursor of
    molar mass 1.001005. *)
Definition lit_1_001005 : float :=
  S754_finite false 4508125744996003 (-52).
Definition heavy : Metabolite :=
  {| met_id := "protein_c"; formula := Some "X"; charge := Some 0;
     compartment := "c"; formula_weight := lit_1_001005 |}.
Definition heavy_biomass : Reaction :=
  rxn "BIOMASS" [(heavy, minus_one); (met "biomass_c" "c", F64.one)]
    F64.zero F64.lit_1000.
Definition heavy_model : Model :=
  mk_model [heavy_biomass] [heavy; met "biomass_c" "c"].

Definition lit_5000 : float := S754_finite false 5497558138880000 (-40).
Definition lit_m5000 : float := S754_finite true 5497558138880000 (-40).

(** A model whose default medium takes up more than the complete medium
    allows: the exchange of [a] is open to 5000 in both directions, the
    maintenance reaction [M] is forced to run at 1000 at least, and the
    precursor [b] of the biomass reaction is made from what [M] leaves. *)
Definition a_e : Metabolite := met "a_e" "e".
Definition b_c : Metabolite := met "b_c" "c".
Definition c_e : Metabolite := met "c_e" "e".
Definition forced_uptake_reactions : list Reaction :=
  [rxn "EX_a" [(a_e, minus_one)] lit_m5000 lit_5000;
   rxn "EX_c" [(c_e, minus_one)] F64.zero lit_5000;
   rxn "M" [(a_e, minus_one); (c_e, F64.one)] F64.lit_1000 lit_5000;
   rxn "R" [(a_e, minus_one); (b_c, F64.one)] F64.zero lit_5000;
   rxn "BIOMASS" [(b_c, minus_one); (c_e, F64.one)] F64.zero lit_5000].
Definition forced_uptake_biomass : Reaction :=
  rxn "BIOMASS" [(b_c, minus_one); (c_e, F64.one)] F64.zero lit_5000.
Definition forced_uptake : Model :=
  mk_model forced_uptake_reactions [a_e; b_c; c_e].

(** An optimisation for this model: 1000 as long as the uptake of [a] is
    open beyond 1000, nothing otherwise. *)
Definition forced_uptake_solver (m : Model) : float :=
  match reactions m !! 0%nat with
  | Some r => if F64.leb (lower_bound r) lit_m5000 then F64.lit_1000
              else F64.zero
  | None => F64.zero
  end.

(** A model whose only exchange stays within (-1000, 1000): the biomass
    reaction consumes [a], which the exchange supplies, and [z], which
    nothing produces. *)
Definition z_c : Metabolite := met "z_c" "c".
Definition x_c : Metabolite := met "x_c" "c".
Definition modest_biomass : Reaction :=
  rxn "BIOMASS" [(a_e, minus_one); (z_c, minus_one); (x_c, F64.one)]
    F64.zero F64.lit_1000.
Definition modest_reactions : list Reaction :=
  [rxn "EX_a" [(a_e, minus_one)] minus_one F64.one; modest_biomass].
Definition modest : Model := mk_model modest_reactions [a_e; z_c; x_c].

(** An optimisation for this model: 1.0 for the demand of [a], nothing
    for any other objective. *)
Definition modest_solver (m : Model) : float :=
  match last (reactions m) with
  | Some r => if String.eqb (rxn_id r) "DM_a_e" then F64.one else F64.zero
  | None => F64.zero
  end.

(** A flux distribution, given by the rates of the first reactions. *)
Definition flux_of (rates : list Q) : FBA.flux :=
  fun i => nth i rates 0%Q.

(** An optimisation that always finds the growth rate 1.0. *)
Definition run_fba_one (reaction_id : string) : M Model float :=
  fun m => (Ok F64.one, m).

(** The store after the decorations of the checks that count. *)
Definition counting_store : Store :=
  snd ((TestBasic.decorate_test_genes_presence >>
        TestBasic.decorate_test_reactions_presence >>
        TestBasic.decorate_test_metabolites_presence >>
        TestBasic.decorate_test_transport_reaction_presence >>
        TestBasic.decorate_test_ngam_presence >>
        TestBiomass.decorate_test_biomass_presence >>
        TestBasic.decorate_test_compartments_presence) empty_store).

(** The store after the decorations of the checks that look the reaction
    up. *)
Definition lookup_store : Store :=
  snd ((TestBiomass.decorate_test_biomass_consistency >>
        TestBiomass.decorate_test_biomass_precursors_default_production >>
        TestBiomass.decorate_test_biomass_precursors_open_production >>
        TestBiomass.decorate_test_gam_in_biomass) empty_store).


End Examples.

Import Spec.

(** * Proofs *)

(** ** The monad *)

Lemma bind_ok {S A B} (c : M S A) (k : A -> M S B) s a s' :
  c s = (Ok a, s') -> Py.bind c k s = k a s'.
Proof. intros H. unfold Py.bind. by rewrite H. Qed.

Lemma bind_raise {S A B} (c : M S A) (k : A -> M S B) s e s' :
  c s = (Raise e, s') -> Py.bind c k s = (Raise e, s').
Proof. intros H. unfold Py.bind. by rewrite H. Qed.

(** ** [find_mistagged_reaction_compartment] *)

Lemma lookup_rxn_key (d : ReactionMap) (rxn : Reaction) :
  rxn ∈ map fst d -> exists v, lookup_rxn d rxn = Ok v.
Proof.
  induction d as [|[k v] d IH]; simpl.
  - intros H. by apply elem_of_nil in H.
  - intros H. destruct (decide (k = rxn)) as [->|Hne]; [by eexists|].
    apply elem_of_cons in H as [H|H]; [congruence|]. by apply IH.
Qed.

Lemma mistagged_step_spec (d : ReactionMap) (rxn : Reaction)
    (wrong : list Reaction) (l : Log) :
  rxn ∈ map fst d ->
  exists l',
    mistagged_step d rxn wrong l
    = (Ok (if flagged d rxn then wrong ++ [rxn] else wrong), l ++ l')
    /\ (lookup_rxn d rxn = Ok None ->
        (DEBUG, rxn_id rxn +:+ " did not match regexp") ∈ l').
Proof.
  intros Hin. destruct (lookup_rxn_key d rxn Hin) as [v Hv].
  unfold mistagged_step, flagged, lift_result, Py.bind, log, modify, ret.
  rewrite Hv.
  destruct (1 <? Z.of_nat (size (compartments rxn))) eqn:Hsz;
    destruct v as [mt|]; simpl.
  all: repeat match goal with
         | |- context [bool_decide ?P] => destruct (bool_decide P); simpl
         | |- context [existsb ?f ?xs] => destruct (existsb f xs); simpl
         end.
  all: try (eexists; split;
            [rewrite <- ?app_assoc; reflexivity
            | intros; first [discriminate
                            | rewrite ?elem_of_app, !elem_of_cons; tauto]]).
  all: exists []; rewrite app_nil_r; split; [done|discriminate].
Qed.

Lemma mistagged_loop_spec (d : ReactionMap) (rxns : list Reaction) :
  (forall rxn, rxn ∈ rxns -> rxn ∈ map fst d) ->
  forall (wrong : list Reaction) (l : Log),
  exists l',
    mistagged_loop d rxns wrong l
    = (Ok (wrong ++ filter (fun r => flagged d r = true) rxns), l ++ l')
    /\ (forall rxn, rxn ∈ rxns -> lookup_rxn d rxn = Ok None ->
        (DEBUG, rxn_id rxn +:+ " did not match regexp") ∈ l').
Proof.
  induction rxns as [|rxn rest IH]; intros Hkeys wrong l; simpl.
  - exists []. rewrite !app_nil_r. split; [done|].
    intros r Hr. by apply elem_of_nil in Hr.
  - destruct (mistagged_step_spec d rxn wrong l) as (l1 & Hstep & Hlog1).
    { apply Hkeys, elem_of_cons. by left. }
    destruct (IH (fun r Hr => Hkeys r (proj2 (elem_of_cons _ _ _) (or_intror Hr)))
                (if flagged d rxn then wrong ++ [rxn] else wrong)
                (l ++ l1)) as (l2 & Hloop & Hlog2).
    exists (l1 ++ l2). split.
    + unfold Py.bind. rewrite Hstep, Hloop. rewrite filter_cons.
      destruct (flagged d rxn) eqn:Hf.
      * rewrite decide_True by done. by rewrite <- !app_assoc.
      * rewrite decide_False by (by intros ?). by rewrite <- !app_assoc.
    + intros r Hr Hnone. apply elem_of_app.
      apply elem_of_cons in Hr as [->|Hr]; [left; auto|right; auto].
Qed.

Lemma find_mistagged_spec
    (build_reaction_pattern_map : Model -> ReactionMap)
    (find_transport_reactions : Model -> list Reaction)
    (model : Model) (reaction_match : option ReactionMap)
    (transport_reactions : option (list Reaction)) (l : Log) :
  let d := default (build_reaction_pattern_map model) reaction_match in
  let tr := default (find_transport_reactions model) transport_reactions in
  exists l',
    find_mistagged_reaction_compartment build_reaction_pattern_map
      find_transport_reactions model reaction_match transport_reactions l
    = (Ok (filter (fun r => flagged d r = true)
             (list_difference (keys d) (remove_dups tr))), l ++ l')
    /\ (forall rxn, rxn ∈ keys d -> rxn ∉ tr ->
        lookup_rxn d rxn = Ok None ->
        (DEBUG, rxn_id rxn +:+ " did not match regexp") ∈ l').
Proof.
  intros d tr. unfold find_mistagged_reaction_compartment.
  replace (match reaction_match with
           | Some d0 => d0 | None => build_reaction_pattern_map model end)
    with d by (by destruct reaction_match).
  replace (match transport_reactions with
           | Some l0 => l0 | None => find_transport_reactions model end)
    with tr by (by destruct transport_reactions).
  destruct (mistagged_loop_spec d
              (list_difference (keys d) (remove_dups tr))) with
    (wrong := @nil Reaction) (l := l) as (l' & Hrun & Hlog).
  { intros r Hr. apply list_elem_of_difference in Hr as [Hr _].
    unfold keys in Hr. rewrite elem_of_remove_dups in Hr. exact Hr. }
  exists l'. split; [exact Hrun|].
  intros r Hk Hnt Hnone. apply Hlog; [|done].
  apply list_elem_of_difference. split; [done|].
  by rewrite elem_of_remove_dups.
Qed.

(** C10: a reaction whose compartment set is exactly the cytosol is never
    in the list that [find_mistagged_reaction_compartment] returns,
    whatever its matched suffix names; the call returns normally. *)
Theorem cytosolic_never_mistagged
    (build_reaction_pattern_map : Model -> ReactionMap)
    (find_transport_reactions : Model -> list Reaction)
    (model : Model) (reaction_match : option ReactionMap)
    (transport_reactions : option (list Reaction)) (l : Log)
    (rxn : Reaction) :
  compartments rxn = {["c"]} ->
  exists wrong l',
    find_mistagged_reaction_compartment build_reaction_pattern_map
      find_transport_reactions model reaction_match transport_reactions l
    = (Ok wrong, l') /\ rxn ∉ wrong.
Proof.
  intros Hc.
  destruct (find_mistagged_spec build_reaction_pattern_map
              find_transport_reactions model reaction_match
              transport_reactions l) as (l' & Hrun & _).
  eexists _, _. split; [exact Hrun|].
  intros Hin. apply list_elem_of_filter in Hin as [Hf _].
  unfold flagged in Hf.
  destruct (lookup_rxn _ rxn) as [[mt|]|]; try discriminate.
  rewrite Hc in Hf. by rewrite bool_decide_eq_true_2 in Hf.
Qed.

Lemma cytosolic_never_mistagged_witness :
  compartments Examples.cytosolic = {["c"]}
  /\ exists wrong l',
      find_mistagged_reaction_compartment (fun _ => []) (fun _ => [])
        (Examples.mk_model [Examples.cytosolic] [])
        (Some [(Examples.cytosolic, Some {| group_suffix := "e" |})])
        (Some []) []
      = (Ok wrong, l') /\ Examples.cytosolic ∉ wrong.
Proof.
  assert (H : compartments Examples.cytosolic = {["c"]}).
  { unfold compartments; simpl. set_solver. }
  split; [exact H|].
  exact (cytosolic_never_mistagged (fun _ => []) (fun _ => [])
           (Examples.mk_model [Examples.cytosolic] [])
           (Some [(Examples.cytosolic, Some {| group_suffix := "e" |})])
           (Some []) [] Examples.cytosolic H).
Defined.

Lemma lookup_rxn_ok_key (d : ReactionMap) (rxn : Reaction) v :
  lookup_rxn d rxn = Ok v -> rxn ∈ map fst d.
Proof.
  induction d as [|[k w] d IH]; simpl; [discriminate|].
  destruct (decide (k = rxn)) as [->|Hne]; intros H.
  - apply elem_of_cons. by left.
  - apply elem_of_cons. right. by apply IH.
Qed.

(** C7, as the code has it: a reaction whose entry in the pattern map is
    null does not abort the call, is reported to the logger at debug level
    (when it is not a transport reaction, which the loop never sees), and
    is not in the returned list. *)
Theorem unmatched_reaction_skipped
    (build_reaction_pattern_map : Model -> ReactionMap)
    (find_transport_reactions : Model -> list Reaction)
    (model : Model) (reaction_match : option ReactionMap)
    (transport_reactions : option (list Reaction)) (l : Log)
    (rxn : Reaction) :
  lookup_rxn (default (build_reaction_pattern_map model) reaction_match) rxn
  = Ok None ->
  exists wrong l',
    find_mistagged_reaction_compartment build_reaction_pattern_map
      find_transport_reactions model reaction_match transport_reactions l
    = (Ok wrong, l ++ l')
    /\ (rxn ∉ wrong)
    /\ ((rxn ∉ default (find_transport_reactions model) transport_reactions)
        -> (DEBUG, rxn_id rxn +:+ " did not match regexp") ∈ l').
Proof.
  intros Hnone.
  destruct (find_mistagged_spec build_reaction_pattern_map
              find_transport_reactions model reaction_match
              transport_reactions l) as (l' & Hrun & Hlog).
  eexists _, l'. split; [exact Hrun|]. split.
  - intros Hin. apply list_elem_of_filter in Hin as [Hf _].
    unfold flagged in Hf. by rewrite Hnone in Hf.
  - intros Hnt. apply Hlog; [|done|done].
    unfold keys. apply elem_of_remove_dups.
    by apply lookup_rxn_ok_key in Hnone.
Qed.

Lemma unmatched_reaction_skipped_witness :
  lookup_rxn [(Examples.unmatched, None)] Examples.unmatched = Ok None
  /\ exists wrong l',
      find_mistagged_reaction_compartment (fun _ => []) (fun _ => [])
        (Examples.mk_model [Examples.unmatched] [])
        (Some [(Examples.unmatched, None)]) (Some []) []
      = (Ok wrong, [] ++ l')
      /\ (Examples.unmatched ∉ wrong)
      /\ ((Examples.unmatched ∉ @nil Reaction) ->
          (DEBUG, rxn_id Examples.unmatched +:+ " did not match regexp")
          ∈ l').
Proof.
  assert (H : lookup_rxn [(Examples.unmatched, None)] Examples.unmatched
              = Ok None).
  { vm_compute. reflexivity. }
  split; [exact H|].
  exact (unmatched_reaction_skipped (fun _ => []) (fun _ => [])
           (Examples.mk_model [Examples.unmatched] [])
           (Some [(Examples.unmatched, None)]) (Some []) []
           Examples.unmatched H).
Defined.

(** C7, as stated, fails: the unmatched reaction is the only entry of the
    pattern map, the call returns the empty list, and the reaction is in no
    offending set. *)
Lemma unmatched_reaction_not_offending :
  lookup_rxn [(Examples.unmatched, None)] Examples.unmatched = Ok None
  /\ find_mistagged_reaction_compartment (fun _ => []) (fun _ => [])
       (Examples.mk_model [Examples.unmatched] [])
       (Some [(Examples.unmatched, None)]) (Some []) []
     = (Ok [], [(DEBUG, "foo did not match regexp")])
  /\ Examples.unmatched ∉ @nil Reaction.
Proof.
  split; [|split].
  - vm_compute. reflexivity.
  - vm_compute. reflexivity.
  - apply not_elem_of_nil.
Qed.

(** ** [find_untagged_exchange_rxns] and [find_untagged_demand_rxns] *)

Lemma boundary_single_compartment (rxn : Reaction) :
  boundary rxn = true ->
  exists met, compartments rxn = {[compartment met]}.
Proof.
  unfold boundary, compartments. intros H.
  apply andb_true_iff in H as [Hlen _].
  apply Nat.eqb_eq in Hlen.
  destruct (rxn_metabolites rxn) as [|[m c] [|? ?]]; try discriminate.
  exists m. simpl. apply (right_id_L ∅ (∪)).
Qed.

(** C9: [find_untagged_exchange_rxns] returns exactly the exchange
    reactions (boundary reactions touching only the extracellular
    compartment) whose identifier does not begin with [EX_], and
    [find_untagged_demand_rxns] exactly the demand reactions (boundary
    reactions touching a single compartment that is not the extracellular
    one) whose identifier does not begin with [DM_]; both in the order of
    the model. *)
Theorem untagged_exchange_demand_exact (model : Model) :
  find_untagged_exchange_rxns model
  = filter (fun rxn => exchange_reaction rxn
                       /\ startswith (rxn_id rxn) "EX_" = false)
      (reactions model)
  /\ find_untagged_demand_rxns model
     = filter (fun rxn => demand_reaction_of rxn
                          /\ startswith (rxn_id rxn) "DM_" = false)
         (reactions model).
Proof.
  unfold find_untagged_exchange_rxns, find_untagged_demand_rxns, exchanges,
    exchange_reaction, demand_reaction_of.
  split; rewrite list_filter_filter; apply list_filter_iff; intros rxn.
  - split.
    + intros [[He Hp] Hb]. split; [split; [done|]|done].
      destruct (boundary_single_compartment rxn Hb) as [m Hm].
      rewrite Hm in He |- *. apply elem_of_singleton in He. by rewrite He.
    + intros [[Hb Hc] Hp]. split; [split; [|done]|done].
      rewrite Hc. by apply elem_of_singleton.
  - split.
    + intros [[He Hp] Hb]. split; [split; [done|split; [|done]]|done].
      destruct (boundary_single_compartment rxn Hb) as [m Hm].
      rewrite Hm. apply size_singleton.
    + intros [(Hb & _ & He) Hp]. done.
Qed.

(** ** The annotation store *)

Lemma setitem_ok d key v st :
  is_Some (heap st !! d) ->
  setitem d key v st = (Ok tt, set_entry d key v st).
Proof.
  intros [rec H]. unfold setitem, set_entry. rewrite H. do 3 f_equal.
  apply map_eq. intros i. destruct (decide (d = i)) as [->|].
  - by rewrite lookup_insert_eq, lookup_alter_eq, H.
  - by rewrite lookup_insert_ne, lookup_alter_ne.
Qed.

Lemma getitem_ok d key v st :
  entry d key st = Some v -> getitem d key st = (Ok v, st).
Proof.
  unfold entry, getitem. destruct (heap st !! d); [|done].
  simpl. by intros ->.
Qed.

Lemma entry_set_same d k v st :
  is_Some (heap st !! d) -> entry d k (set_entry d k v st) = Some v.
Proof.
  intros [rec H]. unfold entry, set_entry; simpl.
  rewrite lookup_alter_eq, H. simpl. apply lookup_insert_eq.
Qed.

Lemma entry_set_other d d' k k' v st :
  d <> d' -> entry d k (set_entry d' k' v st) = entry d k st.
Proof.
  intros H. unfold entry, set_entry; simpl. by rewrite lookup_alter_ne.
Qed.

Lemma entry_set_other_key d k k' v st :
  k <> k' -> entry d k (set_entry d k' v st) = entry d k st.
Proof.
  intros H. unfold entry, set_entry; simpl. rewrite lookup_alter_eq.
  destruct (heap st !! d); [|done]. simpl. by rewrite lookup_insert_ne.
Qed.

Lemma heap_set_entry d d' k v st :
  is_Some (heap st !! d) -> is_Some (heap (set_entry d' k v st) !! d).
Proof.
  intros H. unfold set_entry; simpl. rewrite lookup_alter.
  case_decide; subst; [by apply fmap_is_Some|done].
Qed.

Lemma annotated_set_entry func l d k v st :
  annotated_at func l st -> annotated_at func l (set_entry d k v st).
Proof. intros [Ha Hl]. split; [done|]. by apply heap_set_entry. Qed.

Lemma annotated_atb_true func l st :
  annotated_atb func l st = true -> annotated_at func l st.
Proof.
  unfold annotated_atb, annotated_at.
  destruct (attrs st !! func) as [l'|]; [|done].
  destruct (heap st !! l) as [rec|]; [|done].
  intros H. apply Pos.eqb_eq in H. subst. split; [done|by eexists].
Qed.

Lemma refers_to_true rec field d :
  refers_to rec field d = true -> rec !! field = Some (VRef d).
Proof.
  unfold refers_to. destruct (rec !! field) as [[]|]; try done.
  intros H. apply Pos.eqb_eq in H. by subst.
Qed.

Lemma decorated_atb_true func l dl ml st :
  decorated_atb func l dl ml st = true -> decorated_at func l dl ml st.
Proof.
  unfold decorated_atb, decorated_at.
  destruct (attrs st !! func) as [l'|]; [|done].
  destruct (heap st !! l) as [rec|]; [|done].
  destruct (heap st !! dl) as [d|]; [|done].
  destruct (heap st !! ml) as [m|]; [|done].
  rewrite !andb_true_iff, !negb_true_iff, !Pos.eqb_neq, Pos.eqb_eq.
  intros [[[[[-> Hd] Hm] N1] N2] N3].
  split; [done|]. split.
  - exists rec. split; [done|]. split; by apply refers_to_true.
  - repeat split; try done; by eexists.
Qed.

Lemma attached_field_entry func field l st :
  attrs st !! func = Some l ->
  attached_field func field st = entry l field st.
Proof.
  intros H. unfold attached_field, attached, entry. rewrite H. done.
Qed.

Lemma annotation_ok func l st :
  attrs st !! func = Some l -> annotation func st = (Ok l, st).
Proof. intros H. unfold annotation. by rewrite H. Qed.

Lemma len_item_ok d key ids st :
  entry d key st = Some (VList ids) -> len_item d key st = (Ok (len ids), st).
Proof.
  intros H. unfold len_item. by rewrite (bind_ok _ _ _ _ _ (getitem_ok _ _ _ _ H)).
Qed.

Lemma decorated_set_entry func l dl ml st d k v :
  decorated_at func l dl ml st -> d = dl \/ d = ml ->
  decorated_at func l dl ml (set_entry d k v st).
Proof.
  intros (Ha & (rec & Hl & Hd & Hm) & Hdl & Hml & N1 & N2 & N3) Hd'.
  assert (l <> d) by (destruct Hd'; congruence).
  unfold decorated_at. split; [done|]. split.
  - exists rec. unfold set_entry; simpl. by rewrite lookup_alter_ne.
  - repeat split; try done; by apply heap_set_entry.
Qed.

Lemma getitem_field func l dl ml st :
  decorated_at func l dl ml st ->
  getitem l "data" st = (Ok (VRef dl), st)
  /\ getitem l "message" st = (Ok (VRef ml), st).
Proof.
  intros (Ha & (rec & Hl & Hd & Hm) & _). unfold getitem.
  by rewrite Hl, Hd, Hm.
Qed.

Lemma setitem2_data func l dl ml st k v :
  decorated_at func l dl ml st ->
  setitem2 l "data" k v st = (Ok tt, set_entry dl k v st).
Proof.
  intros H. unfold setitem2, Py.bind.
  rewrite (proj1 (getitem_field _ _ _ _ _ H)). simpl.
  apply setitem_ok, H.
Qed.

Lemma setitem2_message func l dl ml st k v :
  decorated_at func l dl ml st ->
  setitem2 l "message" k v st = (Ok tt, set_entry ml k v st).
Proof.
  intros H. unfold setitem2, Py.bind.
  rewrite (proj2 (getitem_field _ _ _ _ _ H)). simpl.
  apply setitem_ok, H.
Qed.

Lemma getitem2_data func l dl ml st k v :
  decorated_at func l dl ml st -> entry dl k st = Some v ->
  getitem2 l "data" k st = (Ok v, st).
Proof.
  intros H He. unfold getitem2, Py.bind.
  rewrite (proj1 (getitem_field _ _ _ _ _ H)). simpl.
  by apply getitem_ok.
Qed.

Lemma getitem2_message func l dl ml st k v :
  decorated_at func l dl ml st -> entry ml k st = Some v ->
  getitem2 l "message" k st = (Ok v, st).
Proof.
  intros H He. unfold getitem2, Py.bind.
  rewrite (proj2 (getitem_field _ _ _ _ _ H)). simpl.
  by apply getitem_ok.
Qed.

Lemma on_store_eq {A} (c : M Store A) st m r st' :
  c st = (r, st') ->
  on_store c {| store := st; model := m |}
  = (r, {| store := st'; model := m |}).
Proof. intros H. unfold on_store. simpl. by rewrite H. Qed.

Lemma on_model_eq {A} (c : M Model A) st m r m' :
  c m = (r, m') ->
  on_model c {| store := st; model := m |}
  = (r, {| store := st; model := m' |}).
Proof. intros H. unfold on_model. simpl. by rewrite H. Qed.

(** One step of a check: the first command returns [a] and the state
    [s']. *)
Ltac step H := rewrite (bind_ok _ _ _ _ _ H).
Ltac step_store H := rewrite (bind_ok _ _ _ _ _ (on_store_eq _ _ _ _ _ H)).
Ltac step_model H := rewrite (bind_ok _ _ _ _ _ (on_model_eq _ _ _ _ _ H)).

(** Membership in a list given by its elements. *)
Ltac in_list :=
  repeat (apply elem_of_cons; first [left; reflexivity | right]).

(** ** The ratio checks of [test_basic.py] *)

Section RatioChecks.

Variable format : string -> list value -> string.
Variable fill : string -> string.
Variable truncate : value -> value.

Lemma ratio_check_run func ids denom template cond l st :
  annotated_at func l st ->
  exists st',
    ratio_check format fill truncate func ids denom template cond st
    = (ratio_outcome format fill truncate ids denom template cond, st')
    /\ annotated_at func l st'
    /\ entry l "data" st' = Some (VList ids)
    /\ match truediv (len ids) denom with
       | Raise _ =>
           entry l "metric" st' = entry l "metric" st
           /\ entry l "message" st' = entry l "message" st
       | Ok metric =>
           entry l "metric" st' = Some (VFloat metric)
           /\ entry l "message" st'
              = Some (ratio_message format fill truncate template ids metric)
       end.
Proof.
  intros Han. pose proof Han as [Ha Hl].
  unfold ratio_check, ratio_outcome.
  step (annotation_ok _ _ _ Ha).
  step (setitem_ok l "data" (VList ids) st Hl).
  set (st1 := set_entry l "data" (VList ids) st).
  assert (Hd1 : entry l "data" st1 = Some (VList ids))
    by (by apply entry_set_same).
  assert (Han1 : annotated_at func l st1) by (by apply annotated_set_entry).
  step (len_item_ok _ _ _ _ Hd1).
  destruct (truediv (len ids) denom) as [metric|e] eqn:Hdiv.
  2:{ exists st1. split; [done|]. split; [done|]. split; [done|].
      unfold st1. by rewrite !entry_set_other_key. }
  unfold lift_result at 1. unfold Py.bind at 1.
  step (setitem_ok l "metric" (VFloat metric) st1 (proj2 Han1)).
  set (st2 := set_entry l "metric" (VFloat metric) st1).
  assert (Hd2 : entry l "data" st2 = Some (VList ids)).
  { unfold st2. by rewrite entry_set_other_key. }
  assert (Hm2 : entry l "metric" st2 = Some (VFloat metric)).
  { apply entry_set_same, Han1. }
  assert (Han2 : annotated_at func l st2) by (by apply annotated_set_entry).
  step (len_item_ok _ _ _ _ Hd2).
  step (getitem_ok _ _ _ _ Hm2).
  step (getitem_ok _ _ _ _ Hd2).
  fold (ratio_message format fill truncate template ids metric).
  step (setitem_ok l "message"
          (ratio_message format fill truncate template ids metric) st2
          (proj2 Han2)).
  set (st3 := set_entry l "message" _ st2).
  assert (Hd3 : entry l "data" st3 = Some (VList ids)).
  { unfold st3. by rewrite entry_set_other_key. }
  assert (Hm3 : entry l "metric" st3 = Some (VFloat metric)).
  { unfold st3. by rewrite entry_set_other_key. }
  assert (Hg3 : entry l "message" st3
                = Some (ratio_message format fill truncate template ids
                          metric)).
  { apply entry_set_same, Han2. }
  step (len_item_ok _ _ _ _ Hd3).
  step (getitem_ok _ _ _ _ Hg3).
  exists st3. split.
  { unfold assert. by destruct (cond (len ids)). }
  split; [by apply annotated_set_entry|]. done.
Qed.

(** A ratio check raises the division fault exactly when its denominator
    is zero. *)
Lemma ratio_outcome_fault ids denom template cond :
  ratio_outcome format fill truncate ids denom template cond
  = Raise ZeroDivisionError <-> denom = 0.
Proof.
  unfold ratio_outcome, truediv. destruct (denom =? 0) eqn:Hz.
  - apply Z.eqb_eq in Hz. done.
  - apply Z.eqb_neq in Hz. destruct (cond (len ids)); split; try done.
Qed.

Lemma ratio_outcome_pass ids denom template cond :
  ratio_outcome format fill truncate ids denom template cond = Ok tt
  <-> denom <> 0 /\ cond (len ids) = true.
Proof.
  unfold ratio_outcome, truediv. destruct (denom =? 0) eqn:Hz.
  - apply Z.eqb_eq in Hz. split; [done|]. by intros [? _].
  - apply Z.eqb_neq in Hz. destruct (cond (len ids)); split; try done.
    by intros [_ ?].
Qed.

Lemma len_nil_iff {A} (l : list A) : len l = 0 <-> l = [].
Proof. unfold len. destruct l; simpl; split; try done; lia. Qed.

Lemma ratio_check_fault func ids denom template cond l st :
  annotated_at func l st ->
  fst (ratio_check format fill truncate func ids denom template cond st)
  = Raise ZeroDivisionError <-> denom = 0.
Proof.
  intros H.
  destruct (ratio_check_run func ids denom template cond l st H)
    as (st' & -> & _).
  apply ratio_outcome_fault.
Qed.

End RatioChecks.

Lemma coverage_check_run (format : string -> list value -> string)
    (fill : string -> string)
    (calculate_metabolic_coverage : Model -> result float)
    (model : Model) (st : Store) (l : loc) (x : float) :
  annotated_at "test_metabolic_coverage" l st ->
  calculate_metabolic_coverage model = Ok x ->
  coverage_report x
    (TestBasic.test_metabolic_coverage format fill
       calculate_metabolic_coverage model st).
Proof.
  intros [Ha Hl] Hx.
  set (msg := VStr (fill (format
          "The degree of metabolic coverage is {:.2}." [VFloat x]))).
  set (st1 := set_entry l "metric" (VFloat x) st).
  set (st2 := set_entry l "message" msg st1).
  assert (Hm1 : entry l "metric" st1 = Some (VFloat x))
    by (by apply entry_set_same).
  assert (Hl1 : is_Some (heap st1 !! l)) by (by apply heap_set_entry).
  assert (Hm2 : entry l "metric" st2 = Some (VFloat x)).
  { unfold st2. by rewrite entry_set_other_key. }
  assert (Hg2 : entry l "message" st2 = Some msg)
    by (by apply entry_set_same).
  assert (Hrun : TestBasic.test_metabolic_coverage format fill
                   calculate_metabolic_coverage model st
                 = ((if F64.leb F64.one x then Ok tt
                     else Raise (AssertionError (Some msg))), st2)).
  { unfold TestBasic.test_metabolic_coverage.
    step (annotation_ok _ _ _ Ha).
    unfold lift_result at 1. unfold Py.bind at 1. rewrite Hx.
    step (setitem_ok l "metric" (VFloat x) st Hl).
    step (getitem_ok _ _ _ _ Hm1).
    step (setitem_ok l "message" msg st1 Hl1).
    step (getitem_ok _ _ _ _ Hm2).
    step (getitem_ok _ _ _ _ Hg2).
    unfold assert. by destruct (F64.leb F64.one x). }
  rewrite Hrun. unfold coverage_report. simpl.
  assert (Ha2 : attrs st2 !! "test_metabolic_coverage" = Some l) by done.
  rewrite (attached_field_entry _ "metric" l st2 Ha2),
    (attached_field_entry _ "message" l st2 Ha2).
  split; [exact Hm2|]. eexists. split; [exact Hg2|done].
Qed.

(** The modelled coverage never faults: without genes it is the fallback,
    otherwise the quotient. *)
Lemma coverage_defined (fallback : float) (model : Model) :
  exists x,
    Basic.calculate_metabolic_coverage fallback model = Ok x
    /\ (genes model = [] -> x = fallback).
Proof.
  unfold Basic.calculate_metabolic_coverage, truediv.
  destruct (len (genes model) =? 0) eqn:Hz.
  - by exists fallback.
  - eexists. split; [done|]. intros Hg. rewrite Hg in Hz. done.
Qed.

Lemma faults_without_fallback_iff func (P Q : Prop) st run :
  (P <-> Q) ->
  faults_without_fallback func P st run ->
  faults_without_fallback func Q st run.
Proof. unfold faults_without_fallback. tauto. Qed.

Lemma ratio_check_no_fallback format fill truncate func ids denom template
    cond l st :
  annotated_at func l st ->
  faults_without_fallback func (denom = 0) st
    (ratio_check format fill truncate func ids denom template cond st).
Proof.
  intros Hann.
  destruct (ratio_check_run format fill truncate func ids denom template
              cond l st Hann) as (st' & Hrun & Hann' & _ & Hrest).
  rewrite Hrun. unfold faults_without_fallback. simpl.
  split; [apply ratio_outcome_fault|].
  intros ->. unfold truediv in Hrest. simpl in Hrest.
  rewrite (attached_field_entry func "metric" l st' (proj1 Hann')),
    (attached_field_entry func "message" l st' (proj1 Hann')),
    (attached_field_entry func "metric" l st (proj1 Hann)),
    (attached_field_entry func "message" l st (proj1 Hann)).
  exact Hrest.
Qed.

(** C3, as the code has it.  The check of the metabolic coverage does not
    divide: it stores what [calculate_metabolic_coverage] returns, and
    with that function as the specification describes it, no division
    fault arises on any model; on a model without genes the fallback is
    stored as the metric, a message is stored, and the check passes or
    raises its assertion error on the fallback.  The ratio checks of
    [test_basic.py] divide without a guard: each raises
    [ZeroDivisionError] exactly when the model has no metabolites (no
    reactions, for the ratios over the reactions), and then no fallback
    has been produced: the metric and the message of the record are what
    they were before the check. *)
Theorem division_fault_iff_empty
    (format : string -> list value -> string) (fill : string -> string)
    (truncate : value -> value)
    (check_metabolites_formula_presence : Model -> list Metabolite)
    (check_metabolites_charge_presence : Model -> list Metabolite)
    (check_gene_protein_reaction_rule_presence : Model -> list Reaction)
    (find_pure_metabolic_reactions : Model -> list Reaction)
    (find_transport_reactions : Model -> list Reaction)
    (find_unique_metabolites : Model -> list string)
    (fallback : float) (model : Model) (st : Store) :
  all_annotated dividing_checks st ->
  let coverage :=
    TestBasic.test_metabolic_coverage format fill
      (Basic.calculate_metabolic_coverage fallback) model st in
  fst coverage <> Raise ZeroDivisionError
  /\ (exists x, coverage_report x coverage)
  /\ (genes model = [] -> coverage_report fallback coverage)
  /\ faults_without_fallback "test_metabolites_formula_presence"
       (metabolites model = []) st
       (TestBasic.test_metabolites_formula_presence format fill truncate
          check_metabolites_formula_presence model st)
  /\ faults_without_fallback "test_metabolites_charge_presence"
       (metabolites model = []) st
       (TestBasic.test_metabolites_charge_presence format fill truncate
          check_metabolites_charge_presence model st)
  /\ faults_without_fallback "test_gene_protein_reaction_rule_presence"
       (reactions model = []) st
       (TestBasic.test_gene_protein_reaction_rule_presence format fill
          truncate check_gene_protein_reaction_rule_presence model st)
  /\ faults_without_fallback "test_find_pure_metabolic_reactions"
       (reactions model = []) st
       (TestBasic.test_find_pure_metabolic_reactions format fill truncate
          find_pure_metabolic_reactions model st)
  /\ faults_without_fallback "test_find_transport_reactions"
       (reactions model = []) st
       (TestBasic.test_find_transport_reactions format fill truncate
          find_transport_reactions model st)
  /\ faults_without_fallback "test_find_unique_metabolites"
       (metabolites model = []) st
       (TestBasic.test_find_unique_metabolites format fill truncate
          find_unique_metabolites model st).
Proof.
  intros Hall coverage.
  assert (Hl : forall func, func ∈ dividing_checks ->
                 exists l, annotated_at func l st) by exact Hall.
  destruct (Hl "test_metabolic_coverage") as [lc Hc]; [in_list|].
  destruct (coverage_defined fallback model) as (x & Hx & Hfb).
  pose proof (coverage_check_run format fill
                (Basic.calculate_metabolic_coverage fallback) model st lc x
                Hc Hx) as Hrep.
  fold coverage in Hrep.
  split.
  { destruct Hrep as (_ & text & _ & Hout). rewrite Hout.
    by destruct (F64.leb F64.one x). }
  split; [by exists x|].
  split; [intros Hg; by rewrite <- (Hfb Hg)|].
  repeat match goal with |- _ /\ _ => split end.
  all: match goal with
       | |- faults_without_fallback ?func _ _ _ =>
           destruct (Hl func) as [l Hann]; [in_list|];
           eapply faults_without_fallback_iff; [apply len_nil_iff|];
           exact (ratio_check_no_fallback format fill truncate func _ _ _ _
                    l st Hann)
       end.
Qed.

Lemma basic_store_annotated :
  all_annotated dividing_checks Examples.basic_store.
Proof.
  intros func Hin. unfold dividing_checks in Hin.
  repeat (apply elem_of_cons in Hin as [->|Hin]);
    [..|by apply elem_of_nil in Hin].
  - exists 2%positive. apply annotated_atb_true. vm_compute. reflexivity.
  - exists 3%positive. apply annotated_atb_true. vm_compute. reflexivity.
  - exists 4%positive. apply annotated_atb_true. vm_compute. reflexivity.
  - exists 6%positive. apply annotated_atb_true. vm_compute. reflexivity.
  - exists 7%positive. apply annotated_atb_true. vm_compute. reflexivity.
  - exists 8%positive. apply annotated_atb_true. vm_compute. reflexivity.
  - exists 5%positive. apply annotated_atb_true. vm_compute. reflexivity.
Qed.

Lemma division_fault_iff_empty_witness :
  let coverage :=
    TestBasic.test_metabolic_coverage Examples.format Examples.fill
      (Basic.calculate_metabolic_coverage F64.zero) Examples.five_reactions
      Examples.basic_store in
  all_annotated dividing_checks Examples.basic_store
  /\ genes Examples.five_reactions = []
  /\ fst coverage <> Raise ZeroDivisionError
  /\ coverage_report F64.zero coverage
  /\ faults_without_fallback "test_metabolites_formula_presence"
       (metabolites Examples.five_reactions = []) Examples.basic_store
       (TestBasic.test_metabolites_formula_presence Examples.format
          Examples.fill Examples.truncate
          Basic.check_metabolites_formula_presence Examples.five_reactions
          Examples.basic_store).
Proof.
  intros coverage.
  destruct (division_fault_iff_empty Examples.format Examples.fill
              Examples.truncate Basic.check_metabolites_formula_presence
              (fun _ => []) (fun _ => []) (fun _ => []) (fun _ => [])
              (fun _ => []) F64.zero Examples.five_reactions
              Examples.basic_store basic_store_annotated)
    as (Hnf & _ & Hfb & Hform & _).
  split; [exact basic_store_annotated|]. split; [reflexivity|].
  split; [exact Hnf|]. split; [exact (Hfb eq_refl)|exact Hform].
Defined.

(** Zero genes and five reactions: with an undefined coverage as the
    fallback the check raises no division fault; it stores the fallback
    and fails its assertion with the message. *)
Example zero_genes_coverage_fallback :
  genes Examples.five_reactions = []
  /\ length (reactions Examples.five_reactions) = 5%nat
  /\ fst (TestBasic.test_metabolic_coverage Examples.format Examples.fill
            (Basic.calculate_metabolic_coverage S754_nan)
            Examples.five_reactions Examples.basic_store)
     = Raise (AssertionError
                (Some (VStr (Examples.fill (Examples.format
                   "The degree of metabolic coverage is {:.2}."
                   [VFloat S754_nan]))))).
Proof. vm_compute. repeat split; reflexivity. Qed.

(** C3, as stated, fails: on a model with five reactions and no
    metabolites the formula check stores its data and then raises
    [ZeroDivisionError]; no metric and no message are stored. *)
Lemma zero_metabolites_division_fault :
  metabolites Examples.five_reactions = []
  /\ fst (TestBasic.test_metabolites_formula_presence Examples.format
            Examples.fill Examples.truncate
            Basic.check_metabolites_formula_presence
            Examples.five_reactions Examples.basic_store)
     = Raise ZeroDivisionError
  /\ (let st' := snd (TestBasic.test_metabolites_formula_presence
                        Examples.format Examples.fill Examples.truncate
                        Basic.check_metabolites_formula_presence
                        Examples.five_reactions Examples.basic_store) in
      attached "test_metabolites_formula_presence" st' ≫= (.!! "metric")
      = None
      /\ attached "test_metabolites_formula_presence" st' ≫= (.!! "message")
         = Some VNone).
Proof. vm_compute. repeat split; reflexivity. Qed.

(** ** Unique metabolites *)

(** Appending strings, and the part of an identifier before its suffix. *)

Lemma str_app_nil_l (s : string) : "" +:+ s = s.
Proof. reflexivity. Qed.

Lemma str_app_cons (c : Ascii.ascii) (s t : string) :
  String c s +:+ t = String c (s +:+ t).
Proof. reflexivity. Qed.

Lemma str_app_nil_r (s : string) : s +:+ "" = s.
Proof.
  induction s as [|c s IH]; [done|]. by rewrite str_app_cons, IH.
Qed.

Lemma str_app_assoc (s1 s2 s3 : string) :
  (s1 +:+ s2) +:+ s3 = s1 +:+ (s2 +:+ s3).
Proof.
  induction s1 as [|c s1 IH]; [done|]. by rewrite !str_app_cons, IH.
Qed.

Lemma str_app_nil_inv (s1 s2 : string) :
  s1 +:+ s2 = "" -> s1 = "" /\ s2 = "".
Proof. destruct s1; [done|discriminate]. Qed.

Lemma str_length_app (s t : string) :
  String.length (s +:+ t) = (String.length s + String.length t)%nat.
Proof.
  induction s as [|c s IH]; [done|]. rewrite str_app_cons. simpl.
  by rewrite IH.
Qed.

Lemma substring_all (t : string) :
  String.substring 0 (String.length t) t = t.
Proof. induction t as [|c t IH]; [done|]. simpl. by rewrite IH. Qed.

Lemma substring_app_head (s t : string) :
  String.substring 0 (String.length s) (s +:+ t) = s.
Proof.
  induction s as [|c s IH].
  - simpl. by destruct t.
  - rewrite str_app_cons. simpl. by rewrite IH.
Qed.

Lemma substring_app_tail (s t : string) :
  String.substring (String.length s) (String.length t) (s +:+ t) = t.
Proof.
  induction s as [|c s IH].
  - apply substring_all.
  - rewrite str_app_cons. simpl. exact IH.
Qed.

Lemma endswith_app (s t : string) : endswith (s +:+ t) t = true.
Proof.
  unfold endswith. rewrite str_length_app.
  apply andb_true_iff. split.
  - apply Nat.leb_le. lia.
  - replace (String.length s + String.length t - String.length t)%nat
      with (String.length s) by lia.
    rewrite substring_app_tail. apply String.eqb_refl.
Qed.

(** Stripping the suffix of its compartment from an identifier that ends
    in it leaves the name. *)
Lemma strip_compartment_name (suffix : string -> string) (met : Metabolite)
    (name : string) :
  met_id met = name +:+ suffix (compartment met) ->
  Basic.strip_compartment suffix met = name.
Proof.
  intros E. unfold Basic.strip_compartment. rewrite E.
  rewrite endswith_app, str_length_app.
  replace (String.length name + String.length (suffix (compartment met))
           - String.length (suffix (compartment met)))%nat
    with (String.length name) by lia.
  apply substring_app_head.
Qed.

Lemma remove_dups_length_le {A} `{EqDecision A} (l : list A) :
  (length (remove_dups l) <= length l)%nat.
Proof.
  induction l as [|x l IH]; simpl; [lia|].
  destruct (decide_rel elem_of x l); simpl; lia.
Qed.

Lemma remove_dups_length_lt {A} `{EqDecision A} (l : list A) :
  ~ NoDup l -> (length (remove_dups l) < length l)%nat.
Proof.
  induction l as [|x l IH]; simpl; intros Hnd.
  - destruct Hnd. constructor.
  - destruct (decide_rel elem_of x l) as [Hin|Hnin]; simpl.
    + pose proof (remove_dups_length_le l). lia.
    + assert (Hl : ~ NoDup l) by (intros ?; apply Hnd; by constructor).
      specialize (IH Hl). lia.
Qed.

Lemma several_compartments_fewer (suffix : string -> string)
    (model : Model) :
  in_several_compartments suffix model ->
  (length (Basic.find_unique_metabolites suffix model)
   < length (metabolites model))%nat.
Proof.
  intros (name & m1 & m2 & H1 & H2 & Hc & E1 & E2).
  apply list_elem_of_lookup in H1 as [i Hi].
  apply list_elem_of_lookup in H2 as [j Hj].
  assert (Hij : i <> j).
  { intros ->. rewrite Hi in Hj. injection Hj as ->. by apply Hc. }
  unfold Basic.find_unique_metabolites.
  rewrite <- (length_map (Basic.strip_compartment suffix)
                (metabolites model)).
  apply remove_dups_length_lt. intros Hnd. apply Hij.
  apply (proj1 (NoDup_alt _) Hnd i j name).
  - change (map (Basic.strip_compartment suffix) (metabolites model))
      with (Basic.strip_compartment suffix <$> metabolites model).
    rewrite list_lookup_fmap, Hi. simpl.
    by rewrite (strip_compartment_name suffix m1 name E1).
  - change (map (Basic.strip_compartment suffix) (metabolites model))
      with (Basic.strip_compartment suffix <$> metabolites model).
    rewrite list_lookup_fmap, Hj. simpl.
    by rewrite (strip_compartment_name suffix m2 name E2).
Qed.

Lemma ratio_check_pass format fill truncate func ids denom template cond
    l st :
  annotated_at func l st ->
  fst (ratio_check format fill truncate func ids denom template cond st)
  = Ok tt <-> denom <> 0 /\ cond (len ids) = true.
Proof.
  intros H.
  destruct (ratio_check_run format fill truncate func ids denom template
              cond l st H) as (st' & -> & _).
  apply ratio_outcome_pass.
Qed.

(** C8: in a model where some metabolite exists in more than one
    compartment (two metabolites in different compartments carry the same
    name, each with the suffix of its compartment) the identifiers with
    the compartment suffix stripped and deduplicated are strictly fewer
    than the metabolites, whatever the suffix of a compartment is; and the
    check of the unique metabolites passes exactly when this strict
    inequality holds, so it passes on every such model. *)
Theorem unique_metabolites_strictly_fewer
    (format : string -> list value -> string) (fill : string -> string)
    (truncate : value -> value) (suffix : string -> string)
    (model : Model) (st : Store) (l : loc) :
  annotated_at "test_find_unique_metabolites" l st ->
  let unique := Basic.find_unique_metabolites suffix model in
  let check :=
    TestBasic.test_find_unique_metabolites format fill truncate
      (Basic.find_unique_metabolites suffix) model st in
  (in_several_compartments suffix model ->
   (length unique < length (metabolites model))%nat)
  /\ (fst check = Ok tt
      <-> (length unique < length (metabolites model))%nat)
  /\ (in_several_compartments suffix model -> fst check = Ok tt).
Proof.
  intros Hann unique check.
  assert (Hpass : fst check = Ok tt
                  <-> (length unique < length (metabolites model))%nat).
  { unfold check, unique. etransitivity;
      [exact (ratio_check_pass format fill truncate
                "test_find_unique_metabolites" _ _ _ _ l st Hann)|].
    simpl. unfold len. rewrite Z.ltb_lt. lia. }
  split; [apply several_compartments_fewer|]. split; [exact Hpass|].
  intros Hs. apply Hpass. by apply several_compartments_fewer.
Qed.

Lemma atp_twice_several :
  in_several_compartments Examples.underscore_suffix Examples.atp_twice.
Proof.
  exists "atp", (Examples.met "atp_c" "c"), (Examples.met "atp_e" "e").
  split; [apply elem_of_cons; by left|].
  split; [apply elem_of_cons; right; apply elem_of_cons; by left|].
  split; [discriminate|]. split; reflexivity.
Qed.

Lemma unique_metabolites_strictly_fewer_witness :
  let unique :=
    Basic.find_unique_metabolites Examples.underscore_suffix
      Examples.atp_twice in
  let check :=
    TestBasic.test_find_unique_metabolites Examples.format Examples.fill
      Examples.truncate
      (Basic.find_unique_metabolites Examples.underscore_suffix)
      Examples.atp_twice Examples.basic_store in
  annotated_at "test_find_unique_metabolites" 8%positive
    Examples.basic_store
  /\ in_several_compartments Examples.underscore_suffix Examples.atp_twice
  /\ (length unique < length (metabolites Examples.atp_twice))%nat
  /\ fst check = Ok tt.
Proof.
  intros unique check.
  assert (H : annotated_at "test_find_unique_metabolites" 8%positive
                Examples.basic_store).
  { apply annotated_atb_true. vm_compute. reflexivity. }
  destruct (unique_metabolites_strictly_fewer Examples.format Examples.fill
              Examples.truncate Examples.underscore_suffix
              Examples.atp_twice Examples.basic_store 8%positive H)
    as (Hfewer & _ & Hpass).
  split; [exact H|]. split; [exact atp_twice_several|].
  split; [exact (Hfewer atp_twice_several)|exact (Hpass atp_twice_several)].
Defined.

(** ATP in two compartments: three metabolites, two unique identifiers,
    and the check passes. *)
Example atp_twice_unique :
  in_several_compartments Examples.underscore_suffix Examples.atp_twice
  /\ Basic.find_unique_metabolites Examples.underscore_suffix
       Examples.atp_twice = ["atp"; "adp"]
  /\ fst (TestBasic.test_find_unique_metabolites Examples.format
            Examples.fill Examples.truncate
            (Basic.find_unique_metabolites Examples.underscore_suffix)
            Examples.atp_twice Examples.basic_store) = Ok tt.
Proof.
  split; [exact atp_twice_several|].
  split; vm_compute; reflexivity.
Qed.

(** The same with the compartment in square brackets: [atp[c]] and
    [atp[e]] are one metabolite in two compartments. *)
Example atp_brackets_unique :
  in_several_compartments Examples.bracket_suffix Examples.atp_brackets
  /\ Basic.find_unique_metabolites Examples.bracket_suffix
       Examples.atp_brackets = ["atp"].
Proof.
  split; [|vm_compute; reflexivity].
  exists "atp".
  destruct (metabolites Examples.atp_brackets) as [|m1 [|m2 rest]] eqn:E;
    try discriminate E.
  injection E as <- <- <-.
  eexists _, _.
  split; [apply elem_of_cons; by left|].
  split; [apply elem_of_cons; right; apply elem_of_cons; by left|].
  split; [discriminate|]. split; reflexivity.
Qed.

(** Two copies of a metabolite in one compartment are not a metabolite in
    several compartments. *)
Example atp_copies_one_compartment (suffix : string -> string) :
  ~ in_several_compartments suffix Examples.atp_copies.
Proof.
  intros (name & m1 & m2 & H1 & H2 & Hc & _). apply Hc.
  assert (Hall : forall m, m ∈ metabolites Examples.atp_copies ->
                   compartment m = "c").
  { intros m Hm. unfold Examples.atp_copies in Hm. simpl in Hm.
    repeat (apply elem_of_cons in Hm as [->|Hm]); try done.
    by apply elem_of_nil in Hm. }
  by rewrite (Hall m1 H1), (Hall m2 H2).
Qed.

(** ** The biomass checks *)

Lemma attached_entry_data func l dl ml st key :
  decorated_at func l dl ml st ->
  attached_entry func "data" key st = entry dl key st.
Proof.
  intros (Ha & (rec & Hl & Hd & Hm) & _).
  unfold attached_entry, attached, entry. rewrite Ha. simpl.
  rewrite Hl. simpl. by rewrite Hd.
Qed.

Lemma attached_entry_message func l dl ml st key :
  decorated_at func l dl ml st ->
  attached_entry func "message" key st = entry ml key st.
Proof.
  intros (Ha & (rec & Hl & Hd & Hm) & _).
  unfold attached_entry, attached, entry. rewrite Ha. simpl.
  rewrite Hl. simpl. by rewrite Hm.
Qed.

Lemma float_item2_data func l dl ml st k x :
  decorated_at func l dl ml st -> entry dl k st = Some (VFloat x) ->
  TestBiomass.float_item2 l "data" k st = (Ok x, st).
Proof.
  intros H He. unfold TestBiomass.float_item2.
  by step (getitem2_data _ _ _ _ _ _ _ H He).
Qed.

Section BiomassChecks.

Variable format : string -> list value -> string.
Variable fill : string -> string.

(** The data and the message of a biomass check, stored under the
    identifier of the reaction. *)
Lemma store_data_message func l dl ml st rid (data msg : value) :
  decorated_at func l dl ml st ->
  let st' := set_entry ml rid msg (set_entry dl rid data st) in
  decorated_at func l dl ml st'
  /\ attrs st' = attrs st
  /\ entry dl rid st' = Some data
  /\ entry ml rid st' = Some msg
  /\ entry dl rid (set_entry dl rid data st) = Some data
  /\ decorated_at func l dl ml (set_entry dl rid data st).
Proof.
  intros Hd st'.
  pose proof (decorated_set_entry _ _ _ _ _ dl rid data Hd
                (or_introl eq_refl)) as Hd1.
  pose proof (decorated_set_entry _ _ _ _ _ ml rid msg Hd1
                (or_intror eq_refl)) as Hd2.
  split; [exact Hd2|]. split; [done|]. split.
  { unfold st'. rewrite entry_set_other by apply Hd.
    apply entry_set_same, Hd. }
  split; [apply entry_set_same, Hd1|].
  split; [apply entry_set_same, Hd|exact Hd1].
Qed.

Lemma growth_check_run (run_fba : string -> M Model float) func template
    (accept : float -> bool) rid st m l dl ml rate m' :
  decorated_at func l dl ml st ->
  run_fba rid m = (Ok rate, m') ->
  let msg := VStr (fill (format template [VStr rid; VFloat rate])) in
  let st' := set_entry ml rid msg (set_entry dl rid (VFloat rate) st) in
  (ann <~ on_store (annotation func);
   rate <~ on_model (run_fba rid);
   on_store (setitem2 ann "data" rid (VFloat rate)) >>
   data <~ on_store (getitem2 ann "data" rid);
   on_store (setitem2 ann "message" rid
     (VStr (fill (format template [VStr rid; data])))) >>
   x <~ on_store (TestBiomass.float_item2 ann "data" rid);
   msg <~ on_store (getitem2 ann "message" rid);
   assert (accept x) (Some msg)) {| store := st; model := m |}
  = ((if accept rate then Ok tt else Raise (AssertionError (Some msg))),
     {| store := st'; model := m' |}).
Proof.
  intros Hd Hr msg st'.
  destruct (store_data_message func l dl ml st rid (VFloat rate) msg Hd)
    as (Hd2 & _ & He2 & Hm2 & He1 & Hd1).
  step_store (annotation_ok _ _ _ (proj1 Hd)).
  step_model Hr.
  step_store (setitem2_data _ _ _ _ _ rid (VFloat rate) Hd).
  step_store (getitem2_data _ _ _ _ _ _ _ Hd1 He1).
  step_store (setitem2_message _ _ _ _ _ rid msg Hd1).
  step_store (float_item2_data _ _ _ _ _ _ _ Hd2 He2).
  step_store (getitem2_message _ _ _ _ _ _ _ Hd2 Hm2).
  unfold assert. by destruct (accept rate).
Qed.

End BiomassChecks.

(** C1: with the growth rate that the optimisation computes for a biomass
    reaction under the default medium, the check of the default production
    passes exactly when the rate is greater than 0, the check of fast
    growth exactly when the rate is at most 10.3972; both pass exactly when
    the rate lies in (0, 10.3972]. *)
Theorem growth_rate_checks
    (format : string -> list value -> string) (fill : string -> string)
    (run_fba : string -> M Model float) (reaction_id : string)
    (st : Store) (m m' : Model) (l1 dl1 ml1 l2 dl2 ml2 : loc)
    (rate : float) :
  decorated_at "test_biomass_default_production" l1 dl1 ml1 st ->
  decorated_at "test_fast_growth_default" l2 dl2 ml2 st ->
  run_fba reaction_id m = (Ok rate, m') ->
  let production :=
    fst (TestBiomass.test_biomass_default_production format fill run_fba
           reaction_id {| store := st; model := m |}) in
  let fast :=
    fst (TestBiomass.test_fast_growth_default format fill run_fba
           reaction_id {| store := st; model := m |}) in
  (production = Ok tt <-> F64.gtb rate F64.zero = true)
  /\ (fast = Ok tt <-> F64.leb rate F64.lit_10_3972 = true)
  /\ (production = Ok tt /\ fast = Ok tt
      <-> F64.ltb F64.zero rate = true
          /\ F64.leb rate F64.lit_10_3972 = true).
Proof.
  intros H1 H2 Hr production fast.
  assert (Hp : production = Ok tt <-> F64.gtb rate F64.zero = true).
  { unfold production, TestBiomass.test_biomass_default_production.
    rewrite (growth_check_run format fill run_fba _ _
               (fun x => F64.gtb x F64.zero) _ _ _ _ _ _ _ _ H1 Hr).
    simpl. by destruct (F64.gtb rate F64.zero). }
  assert (Hf : fast = Ok tt <-> F64.leb rate F64.lit_10_3972 = true).
  { unfold fast, TestBiomass.test_fast_growth_default.
    rewrite (growth_check_run format fill run_fba _ _
               (fun x => F64.leb x F64.lit_10_3972) _ _ _ _ _ _ _ _ H2 Hr).
    simpl. by destruct (F64.leb rate F64.lit_10_3972). }
  split; [exact Hp|]. split; [exact Hf|].
  rewrite Hp, Hf. reflexivity.
Qed.

Lemma biomass_store_decorated :
  decorated_at "test_biomass_consistency" 3%positive 1%positive 2%positive Examples.biomass_store
  /\ decorated_at "test_biomass_default_production" 6%positive 4%positive 5%positive
       Examples.biomass_store
  /\ decorated_at "test_biomass_precursors_default_production" 9%positive 7%positive 8%positive
       Examples.biomass_store
  /\ decorated_at "test_biomass_precursors_open_production" 12%positive 10%positive 11%positive
       Examples.biomass_store
  /\ decorated_at "test_fast_growth_default" 15%positive 13%positive 14%positive
       Examples.biomass_store.
Proof.
  repeat match goal with |- _ /\ _ => split end.
  all: apply decorated_atb_true; vm_compute; reflexivity.
Qed.

Lemma growth_rate_checks_witness :
  let production :=
    fst (TestBiomass.test_biomass_default_production Examples.format
           Examples.fill Examples.run_fba_one "BIOMASS"
           {| store := Examples.biomass_store;
              model := Examples.heavy_model |}) in
  let fast :=
    fst (TestBiomass.test_fast_growth_default Examples.format Examples.fill
           Examples.run_fba_one "BIOMASS"
           {| store := Examples.biomass_store;
              model := Examples.heavy_model |}) in
  (production = Ok tt <-> F64.gtb F64.one F64.zero = true)
  /\ (fast = Ok tt <-> F64.leb F64.one F64.lit_10_3972 = true)
  /\ (production = Ok tt /\ fast = Ok tt
      <-> F64.ltb F64.zero F64.one = true
          /\ F64.leb F64.one F64.lit_10_3972 = true).
Proof.
  exact (growth_rate_checks Examples.format Examples.fill
           Examples.run_fba_one "BIOMASS" Examples.biomass_store
           Examples.heavy_model Examples.heavy_model 6%positive 4%positive
           5%positive 15%positive 13%positive 14%positive F64.one
           (proj1 (proj2 biomass_store_decorated))
           (proj2 (proj2 (proj2 (proj2 biomass_store_decorated))))
           eq_refl).
Defined.

Lemma consistency_run (format : string -> list value -> string)
    (fill : string -> string) (sum_biomass_weight : Reaction -> float)
    (model : Model) (rid : string) (st : Store) (l dl ml : loc)
    (rxn : Reaction) :
  decorated_at "test_biomass_consistency" l dl ml st ->
  TestBiomass.get_reaction model rid = Ok rxn ->
  exists text,
    let x := sum_biomass_weight rxn in
    let st' := set_entry ml rid (VStr text)
                 (set_entry dl rid (VFloat x) st) in
    TestBiomass.test_biomass_consistency format fill sum_biomass_weight
      model rid st
    = ((if Numpy.isclose x F64.one Numpy.default_rtol F64.lit_1e_3
        then Ok tt else Raise (AssertionError (Some (VStr text)))), st').
Proof.
  intros Hd Hr. eexists. intros x st'.
  unfold TestBiomass.test_biomass_consistency.
  step (annotation_ok _ _ _ (proj1 Hd)).
  unfold lift_result at 1. unfold Py.bind at 1. rewrite Hr.
  fold x.
  pose proof (decorated_set_entry _ _ _ _ _ dl rid (VFloat x) Hd
                (or_introl eq_refl)) as Hd1.
  assert (He1 : entry dl rid (set_entry dl rid (VFloat x) st)
                = Some (VFloat x)) by apply entry_set_same, Hd.
  step (setitem2_data _ _ _ _ _ rid (VFloat x) Hd).
  step (getitem2_data _ _ _ _ _ _ _ Hd1 He1).
  match goal with
  | |- context [VStr (fill ?s)] => set (text := fill s)
  end.
  destruct (store_data_message _ l dl ml st rid (VFloat x) (VStr text) Hd)
    as (Hd2 & _ & He2 & Hm2 & _ & _).
  step (setitem2_message _ _ _ _ _ rid (VStr text) Hd1).
  step (float_item2_data _ _ _ _ _ _ _ Hd2 He2).
  step (getitem2_message _ _ _ _ _ _ _ Hd2 Hm2).
  unfold assert. subst st' text.
  by destruct (Numpy.isclose x F64.one Numpy.default_rtol F64.lit_1e_3).
Qed.

(** The check of the biomass consistency passes exactly when the mass sum
    is close to 1.0 in the sense of [numpy.isclose] with the relative
    tolerance left at its default. *)
Lemma consistency_passes_iff_isclose
    (format : string -> list value -> string) (fill : string -> string)
    (sum_biomass_weight : Reaction -> float) (model : Model) (rid : string)
    (st : Store) (l dl ml : loc) (rxn : Reaction) :
  decorated_at "test_biomass_consistency" l dl ml st ->
  TestBiomass.get_reaction model rid = Ok rxn ->
  fst (TestBiomass.test_biomass_consistency format fill sum_biomass_weight
         model rid st) = Ok tt
  <-> Numpy.isclose (sum_biomass_weight rxn) F64.one Numpy.default_rtol
        F64.lit_1e_3 = true.
Proof.
  intros Hd Hr.
  destruct (consistency_run format fill sum_biomass_weight model rid st
              l dl ml rxn Hd Hr) as (text & Hrun).
  simpl in Hrun. rewrite Hrun. simpl.
  by destruct (Numpy.isclose _ _ _ _).
Qed.

(** C2, at the failing input: the single precursor has the mass sum
    1.001005, which is further than 1e-3 from 1.0 (in binary64 arithmetic
    and in exact arithmetic), and the check passes. *)
Theorem consistency_accepts_beyond_margin :
  let x := Biomass.sum_biomass_weight Examples.heavy_biomass in
  TestBiomass.get_reaction Examples.heavy_model "BIOMASS"
  = Ok Examples.heavy_biomass
  /\ x = Examples.lit_1_001005
  /\ F64.leb (F64.abs (F64.sub x F64.one)) F64.lit_1e_3 = false
  /\ (1 + (1 # 1000) < F64.to_Q x)%Q
  /\ fst (TestBiomass.test_biomass_consistency Examples.format Examples.fill
            Biomass.sum_biomass_weight Examples.heavy_model "BIOMASS"
            Examples.biomass_store) = Ok tt.
Proof. vm_compute. repeat split; reflexivity. Qed.

(** ** The record of a check after the check *)

Lemma model_id_run (model : Model) (st : Store) (l : loc) :
  annotated_at "test_model_id_presence" l st ->
  TestBasic.test_model_id_presence model st
  = match model_id model with
    | None => (Raise (AssertionError None), st)
    | Some v =>
        ((if truthy v then Ok tt else Raise (AssertionError None)),
         set_entry l "data" v st)
    end.
Proof.
  intros [Ha Hl]. unfold TestBasic.test_model_id_presence.
  step (annotation_ok _ _ _ Ha).
  destruct (model_id model) as [v|].
  - rewrite bool_decide_eq_true_2 by (by eexists).
    unfold assert at 1. unfold ret at 1. unfold Py.bind at 1.
    step (setitem_ok l "data" v st Hl).
    unfold assert. simpl. by destruct (truthy v).
  - rewrite bool_decide_eq_false_2 by (by intros [? ?]). done.
Qed.

(** C5, as the code has it: the record attached to a check is updated
    where it is, never replaced.  In [test_model_id_presence] the data
    field, and in [test_biomass_consistency] the data and message entries
    of the reaction, are stored before the final assertion runs, so after
    the check, whether the assertion passed or raised, they are read back
    from the record that is still attached.  [test_model_id_presence]
    stores no message: its message field is what it was before the
    check. *)
Theorem annotation_record_survives
    (format : string -> list value -> string) (fill : string -> string)
    (sum_biomass_weight : Reaction -> float) (model : Model)
    (reaction_id : string) (st : Store) (l l' dl ml : loc) (v : value)
    (rxn : Reaction) :
  annotated_at "test_model_id_presence" l st ->
  decorated_at "test_biomass_consistency" l' dl ml st ->
  model_id model = Some v ->
  TestBiomass.get_reaction model reaction_id = Ok rxn ->
  let run1 := TestBasic.test_model_id_presence model st in
  let run2 := TestBiomass.test_biomass_consistency format fill
                sum_biomass_weight model reaction_id st in
  (fst run1 = Ok tt \/ fst run1 = Raise (AssertionError None))
  /\ attrs (snd run1) = attrs st
  /\ attached_field "test_model_id_presence" "data" (snd run1) = Some v
  /\ attached_field "test_model_id_presence" "message" (snd run1)
     = attached_field "test_model_id_presence" "message" st
  /\ attrs (snd run2) = attrs st
  /\ decorated_at "test_biomass_consistency" l' dl ml (snd run2)
  /\ exists text,
       (fst run2 = Ok tt
        \/ fst run2 = Raise (AssertionError (Some (VStr text))))
       /\ attached_entry "test_biomass_consistency" "data" reaction_id
            (snd run2) = Some (VFloat (sum_biomass_weight rxn))
       /\ attached_entry "test_biomass_consistency" "message" reaction_id
            (snd run2) = Some (VStr text).
Proof.
  intros Han Hd Hid Hr run1 run2.
  assert (H1 : run1 = ((if truthy v then Ok tt
                        else Raise (AssertionError None)),
                       set_entry l "data" v st)).
  { unfold run1. rewrite (model_id_run model st l Han). by rewrite Hid. }
  destruct (consistency_run format fill sum_biomass_weight model reaction_id
              st l' dl ml rxn Hd Hr) as (text & H2).
  simpl in H2. fold run2 in H2. rewrite H1, H2. simpl.
  destruct (store_data_message _ l' dl ml st reaction_id
              (VFloat (sum_biomass_weight rxn)) (VStr text) Hd)
    as (Hd2 & Hat & He2 & Hm2 & _ & _).
  split; [destruct (truthy v); auto|].
  split; [done|].
  split.
  { rewrite (attached_field_entry _ _ l) by apply Han.
    apply entry_set_same, Han. }
  split.
  { rewrite !(attached_field_entry _ _ l) by apply Han.
    by apply entry_set_other_key. }
  split; [done|]. split; [exact Hd2|].
  exists text. split.
  { destruct (Numpy.isclose _ _ _ _); auto. }
  split.
  - by rewrite (attached_entry_data _ _ _ _ _ _ Hd2).
  - by rewrite (attached_entry_message _ _ _ _ _ _ Hd2).
Qed.

Lemma annotation_record_survives_witness :
  let st := snd (TestBiomass.decorate_test_biomass_consistency
                   Examples.basic_store) in
  let run1 := TestBasic.test_model_id_presence Examples.heavy_model st in
  let run2 := TestBiomass.test_biomass_consistency Examples.format
                Examples.fill Biomass.sum_biomass_weight
                Examples.heavy_model "BIOMASS" st in
  (fst run1 = Ok tt \/ fst run1 = Raise (AssertionError None))
  /\ attrs (snd run1) = attrs st
  /\ attached_field "test_model_id_presence" "data" (snd run1)
     = Some (VStr "example")
  /\ attached_field "test_model_id_presence" "message" (snd run1)
     = attached_field "test_model_id_presence" "message" st
  /\ attrs (snd run2) = attrs st
  /\ decorated_at "test_biomass_consistency" 11%positive 9%positive
       10%positive (snd run2)
  /\ exists text,
       (fst run2 = Ok tt
        \/ fst run2 = Raise (AssertionError (Some (VStr text))))
       /\ attached_entry "test_biomass_consistency" "data" "BIOMASS"
            (snd run2)
          = Some (VFloat (Biomass.sum_biomass_weight Examples.heavy_biomass))
       /\ attached_entry "test_biomass_consistency" "message" "BIOMASS"
            (snd run2) = Some (VStr text).
Proof.
  intros st.
  assert (H1 : annotated_at "test_model_id_presence" 1%positive st).
  { apply annotated_atb_true. vm_compute. reflexivity. }
  assert (H2 : decorated_at "test_biomass_consistency" 11%positive
                 9%positive 10%positive st).
  { apply decorated_atb_true. vm_compute. reflexivity. }
  exact (annotation_record_survives Examples.format Examples.fill
           Biomass.sum_biomass_weight Examples.heavy_model "BIOMASS" st
           1%positive 11%positive 9%positive 10%positive (VStr "example")
           Examples.heavy_biomass H1 H2 eq_refl eq_refl).
Defined.

(** C5, as stated, fails: after [test_model_id_presence] has passed on a
    model with an identifier, the data field of its record is populated
    and the message field still holds the placeholder. *)
Lemma model_id_message_not_populated :
  let run := TestBasic.test_model_id_presence Examples.heavy_model
               Examples.basic_store in
  fst run = Ok tt
  /\ attached_field "test_model_id_presence" "data" (snd run)
     = Some (VStr "example")
  /\ attached_field "test_model_id_presence" "message" (snd run)
     = Some VNone
  /\ ((fun rec => populated rec "data")
        <$> attached "test_model_id_presence" (snd run)) = Some true
  /\ ((fun rec => populated rec "message")
        <$> attached "test_model_id_presence" (snd run)) = Some false.
Proof. vm_compute. repeat split; reflexivity. Qed.

(** ** The context manager of the model *)

Lemma set_contexts_same (m : Model) : set_contexts (contexts m) m = m.
Proof. by destruct m. Qed.

Lemma with_bounds_same (r : Reaction) :
  with_bounds (lower_bound r) (upper_bound r) r = r.
Proof. by destruct r. Qed.

Lemma alter_alter_back (rs : list Reaction) (i : nat) (r : Reaction) lb ub :
  rs !! i = Some r ->
  alter (with_bounds (lower_bound r) (upper_bound r)) i
    (alter (with_bounds lb ub) i rs) = rs.
Proof.
  intros H. apply list_eq. intros j.
  destruct (decide (i = j)) as [<-|Hne].
  - rewrite !list_lookup_alter_eq, H. simpl. f_equal. by destruct r.
  - by rewrite !list_lookup_alter_ne.
Qed.

Lemma scoped_enter (m : Model) : scoped m (enter m).
Proof. exists []. split; [done|]. by destruct m. Qed.

Lemma scoped_exit (m0 m : Model) : scoped m0 m -> exit m = m0.
Proof. intros (us & Hc & Hu). unfold exit. by rewrite Hc. Qed.

(** A recorded change that its undo action reverts keeps the scope. *)
Lemma scoped_record (m0 m m' : Model) (u : Undo) :
  scoped m0 m ->
  contexts m' = contexts m ->
  (forall cs, apply_undo (set_contexts cs m') u = set_contexts cs m) ->
  scoped m0 (record u m').
Proof.
  intros (us & Hc & Hu) Hcm Hundo.
  exists (u :: us). unfold record. rewrite Hcm, Hc. split; [by destruct m'|].
  simpl.
  replace (set_contexts (contexts m0)
             (set_contexts ((u :: us) :: contexts m0) m'))
    with (set_contexts (contexts m0) m') by (by destruct m').
  by rewrite Hundo.
Qed.

Lemma tracked_set_bounds ref lb ub : tracked (set_bounds ref lb ub).
Proof.
  intros m0 m Hs. unfold set_bounds.
  destruct (reactions m !! ref) as [r|] eqn:Hr; [|done].
  destruct (F64.gtb lb ub); [done|]. simpl.
  apply (scoped_record m0 m); [done|by destruct m|].
  intros cs. unfold apply_undo, set_reactions, set_contexts; simpl.
  by rewrite (alter_alter_back _ _ _ _ _ Hr).
Qed.

Lemma tracked_add_demand met : tracked (add_demand met).
Proof.
  intros m0 m Hs. unfold add_demand. simpl.
  apply (scoped_record m0 m); [done|by destruct m|].
  intros cs. unfold apply_undo, set_reactions, set_contexts; simpl.
  by rewrite take_app_length.
Qed.

Lemma tracked_set_objective ref : tracked (set_objective ref).
Proof.
  intros m0 m Hs. unfold set_objective. simpl.
  apply (scoped_record m0 m); [done|by destruct m|].
  intros cs. by destruct m.
Qed.

Lemma tracked_bind {A B} (c : M Model A) (k : A -> M Model B) :
  tracked c -> (forall a, tracked (k a)) -> tracked (Py.bind c k).
Proof.
  intros Hc Hk m0 m Hs. unfold Py.bind.
  specialize (Hc m0 m Hs). destruct (c m) as [[a|e] m1]; simpl in *.
  - by apply Hk.
  - done.
Qed.

Lemma tracked_pure {A} (c : M Model A) :
  (forall m, snd (c m) = m) -> tracked c.
Proof. intros H m0 m Hs. by rewrite H. Qed.

Lemma tracked_for_each {A} (xs : list A) (body : A -> M Model unit) :
  (forall x, tracked (body x)) -> tracked (for_each xs body).
Proof.
  intros Hb. induction xs as [|x xs IH]; simpl.
  - by apply tracked_pure.
  - apply tracked_bind; [apply Hb|by intros _].
Qed.

(** Leaving the block restores the model, however the body ends. *)
Lemma with_model_restores {A} (body : M Model A) (m : Model) :
  tracked body -> snd (with_model body m) = m.
Proof.
  intros Hb. unfold with_model.
  specialize (Hb m (enter m) (scoped_enter m)).
  destruct (body (enter m)) as [r m']. simpl in *.
  by apply scoped_exit.
Qed.

Lemma with_model_tracked {A} (body : M Model A) :
  tracked body -> tracked (with_model body).
Proof. intros Hb. apply tracked_pure. intros m. by apply with_model_restores. Qed.

(** The search for blocked precursors works in scopes of its own. *)
Lemma blocked_step_restores slim precursor blocked m :
  snd (Biomass.blocked_step slim precursor blocked m) = m.
Proof.
  unfold Biomass.blocked_step. unfold Py.bind at 1.
  match goal with
  | |- context [with_model ?b m] =>
      assert (H : snd (with_model b m) = m)
  end.
  { apply with_model_restores.
    apply tracked_bind; [apply tracked_add_demand|]. intros dm.
    apply tracked_bind; [apply tracked_set_objective|]. intros _.
    by apply tracked_pure. }
  destruct (with_model _ m) as [[v|e] m1]; simpl in H; subst m1.
  - by destruct (F64.gtb v F64.zero).
  - done.
Qed.

Lemma blocked_loop_restores slim precursors blocked m :
  snd (Biomass.blocked_loop slim precursors blocked m) = m.
Proof.
  revert blocked m. induction precursors as [|p rest IH]; intros blocked m.
  - done.
  - simpl. unfold Py.bind.
    pose proof (blocked_step_restores slim p blocked m) as H.
    destruct (Biomass.blocked_step slim p blocked m) as [[b|e] m1];
      simpl in *; subst; [apply IH|done].
Qed.

Lemma find_blocked_restores slim reaction m :
  snd (Biomass.find_blocked_biomass_precursors slim reaction m) = m.
Proof.
  unfold Biomass.find_blocked_biomass_precursors, Py.bind, deref.
  destruct (reactions m !! reaction); [|done].
  apply blocked_loop_restores.
Qed.

Lemma find_blocked_tracked slim reaction :
  tracked (Biomass.find_blocked_biomass_precursors slim reaction).
Proof. apply tracked_pure. intros m. apply find_blocked_restores. Qed.

(** *** Checks on the mutable model *)

Lemma tracked_w_on_model {A} (c : M Model A) :
  tracked c -> tracked_w (on_model c).
Proof.
  intros Hc m0 w Hs. unfold on_model.
  specialize (Hc m0 (model w) Hs). by destruct (c (model w)).
Qed.

Lemma tracked_w_on_store {A} (c : M Store A) : tracked_w (on_store c).
Proof.
  intros m0 w Hs. unfold on_store. by destruct (c (store w)).
Qed.

Lemma tracked_w_bind {A B} (c : M World A) (k : A -> M World B) :
  tracked_w c -> (forall a, tracked_w (k a)) -> tracked_w (Py.bind c k).
Proof.
  intros Hc Hk m0 w Hs. unfold Py.bind.
  specialize (Hc m0 w Hs). destruct (c w) as [[a|e] w1]; simpl in *.
  - by apply Hk.
  - done.
Qed.

Lemma keeps_model_on_store {A} (c : M Store A) : keeps_model (on_store c).
Proof. intros w. unfold on_store. by destruct (c (store w)). Qed.

Lemma keeps_model_bind {A B} (c : M World A) (k : A -> M World B) :
  keeps_model c -> (forall a, keeps_model (k a)) ->
  keeps_model (Py.bind c k).
Proof.
  intros Hc Hk w. unfold Py.bind.
  specialize (Hc w). destruct (c w) as [[a|e] w1]; simpl in *.
  - by rewrite Hk.
  - done.
Qed.

Lemma keeps_model_assert cond msg : keeps_model (@assert World cond msg).
Proof. intros w. unfold assert. by destruct cond. Qed.

Lemma keeps_model_with_model_w {A} (body : M World A) :
  tracked_w body -> keeps_model (with_model_w body).
Proof.
  intros Hb w. unfold with_model_w.
  specialize (Hb (model w) {| store := store w; model := enter (model w) |}
                (scoped_enter (model w))).
  destruct (body _) as [r w']. simpl in *. by apply scoped_exit.
Qed.

Lemma tracked_open_exchanges : tracked TestBiomass.open_exchanges.
Proof.
  unfold TestBiomass.open_exchanges.
  apply tracked_bind; [by apply tracked_pure|]. intros m.
  apply tracked_for_each. intros ref. apply tracked_set_bounds.
Qed.

Lemma tracked_get_by_id rid : tracked (get_by_id rid).
Proof.
  apply tracked_pure. intros m. unfold get_by_id.
  by destruct (index_of_id rid 0 (reactions m)).
Qed.

(** C4: the check of the blocked precursors in complete medium leaves the
    model as it found it, whether the check returns, fails its final
    assertion or raises anything else: in particular every exchange
    reaction has the lower and the upper bound it had before. *)
Theorem complete_medium_bounds_restored
    (format : string -> list value -> string) (fill : string -> string)
    (find_blocked_biomass_precursors : nat -> M Model (list Metabolite))
    (reaction_id : string) (w : World) :
  (forall reaction, tracked (find_blocked_biomass_precursors reaction)) ->
  let w' :=
    snd (TestBiomass.test_biomass_precursors_open_production format fill
           find_blocked_biomass_precursors reaction_id w) in
  model w' = model w
  /\ forall ref rxn,
       ref ∈ exchange_refs (model w) ->
       reactions (model w) !! ref = Some rxn ->
       exists rxn',
         reactions (model w') !! ref = Some rxn'
         /\ lower_bound rxn' = lower_bound rxn
         /\ upper_bound rxn' = upper_bound rxn.
Proof.
  intros Hfb w'.
  assert (Hm : model w' = model w).
  { unfold w', TestBiomass.test_biomass_precursors_open_production.
    apply keeps_model_bind; [apply keeps_model_on_store|]. intros ann.
    apply keeps_model_bind.
    { apply keeps_model_with_model_w.
      apply tracked_w_bind.
      { apply tracked_w_on_model, tracked_open_exchanges. }
      intros _. apply tracked_w_bind.
      { apply tracked_w_on_model, tracked_get_by_id. }
      intros reaction. apply tracked_w_bind.
      { apply tracked_w_on_model, Hfb. }
      intros blocked. apply tracked_w_on_store. }
    intros _.
    repeat (apply keeps_model_bind; [apply keeps_model_on_store|]; intros ?).
    apply keeps_model_assert. }
  split; [exact Hm|].
  intros ref rxn _ Hr. exists rxn. by rewrite Hm.
Qed.

(** ** Blocked precursors in the two media *)

Lemma widen_metabolites (r : Reaction) :
  rxn_metabolites (FBA.widen r) = rxn_metabolites r.
Proof. unfold FBA.widen. by destruct (boundary r). Qed.

Lemma net_production_widen (rs tail : list Reaction) (i : nat) v met :
  FBA.net_production (FBA.complete_medium rs ++ tail) i v met
  = FBA.net_production (rs ++ tail) i v met.
Proof.
  revert i. induction rs as [|r rs IH]; intros i; simpl; [done|].
  unfold FBA.coefficient. by rewrite widen_metabolites, IH.
Qed.

Lemma metabolite_ids_widen (rs tail : list Reaction) :
  FBA.metabolite_ids (FBA.complete_medium rs ++ tail)
  = FBA.metabolite_ids (rs ++ tail).
Proof.
  unfold FBA.metabolite_ids. induction rs as [|r rs IH]; simpl; [done|].
  by rewrite widen_metabolites, IH.
Qed.

Lemma within_bounds_widen (r : Reaction) (x : Q) :
  implb (boundary r) (FBA.bounds_within_1000 r) = true ->
  FBA.within_bounds r x -> FBA.within_bounds (FBA.widen r) x.
Proof.
  unfold FBA.widen. destruct (boundary r); simpl; [|done].
  unfold FBA.bounds_within_1000, FBA.within_bounds.
  rewrite !andb_true_iff, !Qle_bool_iff.
  intros [[[Hfl Hfu] Hl] Hu] [Hlo Hup]. simpl.
  split.
  - unfold FBA.lower_ok in *.
    destruct (lower_bound r); try done; eapply Qle_trans; eassumption.
  - unfold FBA.upper_ok in *.
    destruct (upper_bound r); try done; eapply Qle_trans; eassumption.
Qed.

(** Every flux distribution of the default medium is one of the complete
    medium when the default bounds of the exchanges lie within
    (-1000, 1000). *)
Lemma feasible_complete_medium (rs tail : list Reaction) (v : FBA.flux) :
  FBA.exchanges_within_1000 rs = true ->
  FBA.feasible (rs ++ tail) v ->
  FBA.feasible (FBA.complete_medium rs ++ tail) v.
Proof.
  intros Hw [Hb Hs]. split.
  - intros i r Hi.
    destruct (decide (i < length rs)%nat) as [Hlt|Hge].
    + rewrite lookup_app_l in Hi
        by (unfold FBA.complete_medium; by rewrite length_map).
      unfold FBA.complete_medium in Hi.
      change (map FBA.widen rs) with (FBA.widen <$> rs) in Hi.
      rewrite list_lookup_fmap in Hi.
      destruct (rs !! i) as [r0|] eqn:Hr0; [|done].
      simpl in Hi. injection Hi as <-.
      apply within_bounds_widen.
      * unfold FBA.exchanges_within_1000 in Hw.
        rewrite forallb_forall in Hw. apply Hw.
        apply list_elem_of_In. by eapply list_elem_of_lookup_2.
      * apply Hb. by rewrite lookup_app_l.
    + apply Hb.
      rewrite lookup_app_r in Hi
        by (unfold FBA.complete_medium; rewrite length_map; lia).
      unfold FBA.complete_medium in Hi. rewrite length_map in Hi.
      rewrite lookup_app_r by lia. done.
  - unfold FBA.steady_state in *. rewrite metabolite_ids_widen.
    eapply Forall_impl; [exact Hs|].
    intros met Hm. simpl in Hm. by rewrite net_production_widen.
Qed.

Lemma producible_complete_medium (rs : list Reaction) (met : Metabolite) :
  FBA.exchanges_within_1000 rs = true ->
  FBA.producible rs met -> FBA.producible (FBA.complete_medium rs) met.
Proof.
  intros Hw (v & Hf & Hpos). exists v. split.
  - by apply feasible_complete_medium.
  - unfold FBA.complete_medium. by rewrite length_map.
Qed.

Lemma blocked_complete_medium (rs : list Reaction) (biomass : Reaction)
    (met : Metabolite) :
  FBA.exchanges_within_1000 rs = true ->
  FBA.blocked_precursor (FBA.complete_medium rs) biomass met ->
  FBA.blocked_precursor rs biomass met.
Proof.
  intros Hw [Hin Hnp]. split; [done|].
  intros Hp. apply Hnp. by apply producible_complete_medium.
Qed.

(** Evaluate the coefficients and the exact values of the floats in the
    hypotheses. *)
Ltac eval_floats :=
  repeat match goal with
    | H : context [FBA.coefficient ?r ?m] |- _ =>
        let q := eval vm_compute in (FBA.coefficient r m) in
        change (FBA.coefficient r m) with q in H
    | H : context [F64.to_Q ?x] |- _ =>
        let q := eval vm_compute in (F64.to_Q x) in
        change (F64.to_Q x) with q in H
    | H : context [Pos.pow ?a ?b] |- _ =>
        let q := eval vm_compute in (Pos.pow a b) in
        change (Pos.pow a b) with q in H
    end.

Lemma forced_uptake_default_producible :
  FBA.producible Examples.forced_uptake_reactions Examples.b_c.
Proof.
  exists (Examples.flux_of [-2000; 1000; 1000; 1000; 0; 1000]%Q).
  split; [split|].
  - intros i r Hi.
    do 6 (destruct i as [|i]; [injection Hi as <-; vm_compute; split; discriminate|]).
    discriminate.
  - unfold FBA.steady_state. simpl FBA.metabolite_ids.
    repeat constructor; vm_compute; reflexivity.
  - vm_compute. reflexivity.
Qed.

Lemma forced_uptake_complete_blocked :
  ~ FBA.producible (FBA.complete_medium Examples.forced_uptake_reactions)
      Examples.b_c.
Proof.
  intros (v & [Hb Hs] & Hpos).
  pose proof (Hb 0%nat _ eq_refl) as [L0 U0].
  pose proof (Hb 1%nat _ eq_refl) as [L1 U1].
  pose proof (Hb 2%nat _ eq_refl) as [L2 U2].
  pose proof (Hb 3%nat _ eq_refl) as [L3 U3].
  pose proof (Hb 4%nat _ eq_refl) as [L4 U4].
  pose proof (Hb 5%nat _ eq_refl) as [L5 U5].
  unfold FBA.steady_state in Hs. simpl FBA.metabolite_ids in Hs.
  inversion Hs as [|? ? Ha Hs1]; subst. clear Hs.
  inversion Hs1 as [|? ? Hc Hs2]; subst. clear Hs1.
  inversion Hs2 as [|? ? _ Hs3]; subst. clear Hs2.
  inversion Hs3 as [|? ? _ Hs4]; subst. clear Hs3.
  inversion Hs4 as [|? ? _ Hs5]; subst. clear Hs4.
  inversion Hs5 as [|? ? Hbb _]; subst. clear Hs5.
  unfold FBA.net_production in Ha, Hc, Hbb.
  unfold FBA.within_bounds, FBA.lower_ok, FBA.upper_ok in *. simpl in *.
  eval_floats.
  lra.
Qed.

(** *** What [find_blocked_biomass_precursors] returns *)

Lemma blocked_step_spec slim precursor blocked m :
  Biomass.blocked_step slim precursor blocked m
  = (Ok (if F64.gtb (slim (probe m precursor)) F64.zero then blocked
         else blocked ++ [precursor]), m).
Proof.
  pose proof (blocked_step_restores slim precursor blocked m) as Hm.
  unfold Biomass.blocked_step in *. unfold Py.bind at 1 in Hm.
  unfold Py.bind at 1.
  assert (Hv : fst (with_model
                      (dm_rxn <~ add_demand precursor;
                       set_objective dm_rxn >> Biomass.optimize slim) m)
               = Ok (slim (probe m precursor))).
  { unfold with_model, probe, Py.bind, add_demand, set_objective,
      Biomass.optimize. simpl. reflexivity. }
  destruct (with_model _ m) as [r m1]. simpl in Hv. subst r.
  destruct (F64.gtb _ F64.zero); simpl in *; by subst.
Qed.

Lemma blocked_loop_spec slim precursors blocked m :
  Biomass.blocked_loop slim precursors blocked m
  = (Ok (blocked
         ++ filter (fun p => F64.gtb (slim (probe m p)) F64.zero = false)
              precursors), m).
Proof.
  revert blocked. induction precursors as [|p rest IH]; intros blocked.
  - simpl. by rewrite app_nil_r.
  - simpl. step (blocked_step_spec slim p blocked m). rewrite IH.
    rewrite filter_cons.
    destruct (F64.gtb (slim (probe m p)) F64.zero).
    + by rewrite decide_False.
    + rewrite decide_True by done. by rewrite <- app_assoc.
Qed.

Lemma find_blocked_spec slim reaction m rxn :
  reactions m !! reaction = Some rxn ->
  Biomass.find_blocked_biomass_precursors slim reaction m
  = (Ok (filter (fun p => F64.gtb (slim (probe m p)) F64.zero = false)
           (reactants rxn)), m).
Proof.
  intros H. unfold Biomass.find_blocked_biomass_precursors.
  assert (Hd : deref reaction m = (Ok rxn, m)).
  { unfold deref. by rewrite H. }
  step Hd. apply blocked_loop_spec.
Qed.

(** With an exact optimisation the function returns the blocked
    precursors. *)
Lemma find_blocked_decides slim reaction m rxn :
  reactions m !! reaction = Some rxn ->
  solver_exact slim m rxn ->
  exists blocked,
    Biomass.find_blocked_biomass_precursors slim reaction m = (Ok blocked, m)
    /\ forall met,
         met ∈ blocked <-> FBA.blocked_precursor (reactions m) rxn met.
Proof.
  intros Hr Hex. eexists. split; [by apply find_blocked_spec|].
  intros met. rewrite list_elem_of_filter. unfold FBA.blocked_precursor.
  split.
  - intros [Hg Hin]. split; [done|]. rewrite <- (Hex met Hin).
    by rewrite Hg.
  - intros [Hin Hnp]. split; [|done]. rewrite <- (Hex met Hin) in Hnp.
    by destruct (F64.gtb _ F64.zero).
Qed.

(** *** The complete medium *)

Lemma boundary_with_bounds lb ub r :
  boundary (with_bounds lb ub r) = boundary r.
Proof. done. Qed.

Lemma open_loop_spec (pre rest : list Reaction) (m : Model) :
  reactions m = pre ++ rest ->
  exists m',
    for_each (boundary_refs (length pre) rest)
      (fun exchange => set_bounds exchange F64.lit_m1000 F64.lit_1000) m
    = (Ok tt, m')
    /\ reactions m' = pre ++ FBA.complete_medium rest.
Proof.
  revert pre m. induction rest as [|r rest IH]; intros pre m Hm; simpl.
  - by exists m.
  - assert (Hnext : forall m1,
              reactions m1 = (pre ++ [FBA.widen r]) ++ rest ->
              exists m',
                for_each (boundary_refs (S (length pre)) rest)
                  (fun exchange =>
                     set_bounds exchange F64.lit_m1000 F64.lit_1000) m1
                = (Ok tt, m')
                /\ reactions m' = pre ++ FBA.widen r :: FBA.complete_medium rest).
    { intros m1 H1. destruct (IH (pre ++ [FBA.widen r]) m1 H1) as (m' & Hrun & Hrs).
      rewrite length_app in Hrun. simpl in Hrun.
      rewrite Nat.add_1_r in Hrun. exists m'. split; [done|].
      by rewrite Hrs, <- app_assoc. }
    unfold FBA.widen in *. destruct (boundary r) eqn:Hb.
    + simpl.
      assert (Hl : reactions m !! length pre = Some r).
      { rewrite Hm. by rewrite list_lookup_middle. }
      unfold Py.bind, set_bounds at 1. rewrite Hl.
      change (F64.gtb F64.lit_m1000 F64.lit_1000) with false. cbv iota.
      apply Hnext.
      assert (Hrs : forall m2 u, reactions (record u m2) = reactions m2).
      { intros m2 u. unfold record. by destruct (contexts m2). }
      rewrite Hrs. simpl. rewrite Hm.
      rewrite <- app_assoc. simpl.
      by rewrite (alter_app_r_alt _ pre (r :: rest) (length pre)),
        Nat.sub_diag by lia.
    + apply Hnext. rewrite Hm. by rewrite <- app_assoc.
Qed.

(** Inside the block the bounds of the exchanges are (-1000, 1000) and
    nothing else has changed. *)
Lemma open_exchanges_spec (m : Model) :
  TestBiomass.open_exchanges (enter m) = (Ok tt, in_complete_medium m)
  /\ reactions (in_complete_medium m) = FBA.complete_medium (reactions m).
Proof.
  destruct (open_loop_spec [] (reactions m) (enter m)) as (m' & Hrun & Hrs);
    [by destruct m|].
  simpl in Hrun, Hrs.
  assert (H : TestBiomass.open_exchanges (enter m) = (Ok tt, m')).
  { unfold TestBiomass.open_exchanges, Py.bind, get.
    change (exchange_refs (enter m)) with (boundary_refs 0 (reactions m)).
    exact Hrun. }
  unfold in_complete_medium. by rewrite H.
Qed.

(** C6, under the conditions that make it hold: when the default bounds
    of every exchange reaction lie within (-1000, 1000) and the
    optimisation is exact on the probes, the blocked precursors that
    [find_blocked_biomass_precursors] returns in complete medium are among
    those it returns in the default medium. *)
Theorem complete_medium_blocked_subset
    (slim_optimize : Model -> float) (m : Model) (reaction : nat)
    (biomass : Reaction) :
  reactions m !! reaction = Some biomass ->
  FBA.exchanges_within_1000 (reactions m) = true ->
  solver_exact slim_optimize m biomass ->
  solver_exact slim_optimize (in_complete_medium m) (FBA.widen biomass) ->
  exists blocked_default blocked_complete,
    fst (Biomass.find_blocked_biomass_precursors slim_optimize reaction m)
    = Ok blocked_default
    /\ fst (Biomass.find_blocked_biomass_precursors slim_optimize reaction
              (in_complete_medium m))
       = Ok blocked_complete
    /\ blocked_complete ⊆ blocked_default.
Proof.
  intros Hr Hw Hd Hc.
  destruct (open_exchanges_spec m) as [_ Hrs].
  assert (Hrc : reactions (in_complete_medium m) !! reaction
                = Some (FBA.widen biomass)).
  { rewrite Hrs. unfold FBA.complete_medium.
    change (map FBA.widen (reactions m)) with (FBA.widen <$> reactions m).
    by rewrite list_lookup_fmap, Hr. }
  destruct (find_blocked_decides slim_optimize reaction m biomass Hr Hd)
    as (bd & Hbd & Hind).
  destruct (find_blocked_decides slim_optimize reaction
              (in_complete_medium m) (FBA.widen biomass) Hrc Hc)
    as (bc & Hbc & Hinc).
  exists bd, bc. rewrite Hbd, Hbc. split; [done|]. split; [done|].
  intros met Hmet. apply Hind. apply Hinc in Hmet.
  rewrite Hrs in Hmet. destruct Hmet as [Hin Hnp]. split.
  - unfold reactants in *. by rewrite widen_metabolites in Hin.
  - intros Hp. apply Hnp. by apply producible_complete_medium.
Qed.

(** *** The two example models *)

Lemma modest_a_producible :
  FBA.producible Examples.modest_reactions Examples.a_e.
Proof.
  exists (Examples.flux_of [-1; 0; 1]%Q).
  split; [split|].
  - intros i r Hi.
    do 3 (destruct i as [|i];
          [injection Hi as <-; vm_compute; split; discriminate|]).
    discriminate.
  - unfold FBA.steady_state. simpl FBA.metabolite_ids.
    repeat constructor; vm_compute; reflexivity.
  - vm_compute. reflexivity.
Qed.

Lemma modest_z_blocked (rs : list Reaction) :
  rs = Examples.modest_reactions
  \/ rs = FBA.complete_medium Examples.modest_reactions ->
  ~ FBA.producible rs Examples.z_c.
Proof.
  intros Hrs (v & [Hb Hs] & Hpos).
  assert (L1 : (0 <= v 1%nat)%Q).
  { destruct Hrs as [-> | ->];
      pose proof (Hb 1%nat _ eq_refl) as [L1 _];
      unfold FBA.lower_ok in L1; simpl in L1; exact L1. }
  assert (Hz : (-1 * v 1%nat + (-1 * v 2%nat) == 0)%Q).
  { destruct Hrs as [-> | ->];
      unfold FBA.steady_state in Hs; simpl FBA.metabolite_ids in Hs;
      inversion Hs as [|? ? _ Hs1]; subst; clear Hs;
      inversion Hs1 as [|? ? _ Hs2]; subst; clear Hs1;
      inversion Hs2 as [|? ? Hz _]; subst; clear Hs2;
      unfold FBA.net_production in Hz; simpl in Hz; eval_floats;
      simpl in Hpos; lra. }
  assert (Hp : (0 < v 2%nat)%Q).
  { destruct Hrs as [-> | ->]; exact Hpos. }
  lra.
Qed.

Lemma modest_solver_exact (m : Model) (biomass : Reaction) :
  (m = Examples.modest /\ biomass = Examples.modest_biomass)
  \/ (m = in_complete_medium Examples.modest
      /\ biomass = FBA.widen Examples.modest_biomass) ->
  solver_exact Examples.modest_solver m biomass.
Proof.
  intros Hm met Hin.
  assert (Hmet : met = Examples.a_e \/ met = Examples.z_c).
  { assert (Hr : reactants biomass = [Examples.a_e; Examples.z_c]).
    { destruct Hm as [[_ ->]|[_ ->]]; vm_compute; reflexivity. }
    rewrite Hr in Hin. apply elem_of_cons in Hin as [->|Hin]; [by left|].
    apply elem_of_cons in Hin as [->|Hin]; [by right|].
    by apply elem_of_nil in Hin. }
  assert (Hrs : reactions m = Examples.modest_reactions
                \/ reactions m
                   = FBA.complete_medium Examples.modest_reactions).
  { destruct Hm as [[-> _]|[-> _]]; [by left|right].
    apply open_exchanges_spec. }
  destruct Hmet as [-> | ->].
  - split; intros _.
    + destruct Hrs as [-> | ->]; [apply modest_a_producible|].
      apply producible_complete_medium; [vm_compute; reflexivity|].
      apply modest_a_producible.
    + destruct Hm as [[-> _]|[-> _]]; vm_compute; reflexivity.
  - split.
    + intros Hg. destruct Hm as [[-> _]|[-> _]]; vm_compute in Hg;
        discriminate.
    + intros Hp. by apply (modest_z_blocked _ Hrs) in Hp.
Qed.

Lemma complete_medium_blocked_subset_witness :
  exists blocked_default blocked_complete,
    fst (Biomass.find_blocked_biomass_precursors Examples.modest_solver
           1%nat Examples.modest)
    = Ok blocked_default
    /\ fst (Biomass.find_blocked_biomass_precursors Examples.modest_solver
              1%nat (in_complete_medium Examples.modest))
       = Ok blocked_complete
    /\ blocked_complete ⊆ blocked_default.
Proof.
  apply (complete_medium_blocked_subset Examples.modest_solver
           Examples.modest 1%nat Examples.modest_biomass).
  - reflexivity.
  - vm_compute. reflexivity.
  - apply modest_solver_exact. by left.
  - apply modest_solver_exact. by right.
Defined.

(** On the modest model one precursor is blocked, in both media. *)
Example modest_blocked :
  fst (Biomass.find_blocked_biomass_precursors Examples.modest_solver
         1%nat Examples.modest) = Ok [Examples.z_c]
  /\ fst (Biomass.find_blocked_biomass_precursors Examples.modest_solver
            1%nat (in_complete_medium Examples.modest)) = Ok [Examples.z_c].
Proof. vm_compute. split; reflexivity. Qed.

Lemma forced_uptake_solver_exact :
  solver_exact Examples.forced_uptake_solver Examples.forced_uptake
    Examples.forced_uptake_biomass
  /\ solver_exact Examples.forced_uptake_solver
       (in_complete_medium Examples.forced_uptake)
       (FBA.widen Examples.forced_uptake_biomass).
Proof.
  split; intros met Hin.
  - assert (Hr : reactants Examples.forced_uptake_biomass = [Examples.b_c])
      by (vm_compute; reflexivity).
    rewrite Hr in Hin. apply elem_of_cons in Hin as [->|Hin];
      [|by apply elem_of_nil in Hin].
    split; intros _; [apply forced_uptake_default_producible|].
    vm_compute. reflexivity.
  - assert (Hr : reactants (FBA.widen Examples.forced_uptake_biomass)
                 = [Examples.b_c]) by (vm_compute; reflexivity).
    rewrite Hr in Hin. apply elem_of_cons in Hin as [->|Hin];
      [|by apply elem_of_nil in Hin].
    split.
    + intros Hg. vm_compute in Hg. discriminate.
    + intros Hp. rewrite (proj2 (open_exchanges_spec _)) in Hp.
      by apply forced_uptake_complete_blocked in Hp.
Qed.

(** C6, as stated, fails: with an optimisation that is exact on every
    probe, the precursor [b] is returned as blocked in complete medium and
    not in the default medium. *)
Lemma complete_medium_blocks_more :
  solver_exact Examples.forced_uptake_solver Examples.forced_uptake
    Examples.forced_uptake_biomass
  /\ solver_exact Examples.forced_uptake_solver
       (in_complete_medium Examples.forced_uptake)
       (FBA.widen Examples.forced_uptake_biomass)
  /\ fst (Biomass.find_blocked_biomass_precursors
            Examples.forced_uptake_solver 4%nat Examples.forced_uptake)
     = Ok []
  /\ fst (Biomass.find_blocked_biomass_precursors
            Examples.forced_uptake_solver 4%nat
            (in_complete_medium Examples.forced_uptake))
     = Ok [Examples.b_c]
  /\ ~ ([Examples.b_c] ⊆ @nil Metabolite).
Proof.
  split; [apply forced_uptake_solver_exact|].
  split; [apply forced_uptake_solver_exact|].
  split; [vm_compute; reflexivity|].
  split; [vm_compute; reflexivity|].
  intros H. specialize (H Examples.b_c).
  apply (not_elem_of_nil Examples.b_c), H, elem_of_cons. by left.
Qed.

Lemma complete_medium_bounds_restored_witness :
  (forall reaction,
     tracked (Biomass.find_blocked_biomass_precursors
                Examples.forced_uptake_solver reaction))
  /\ let w := {| store := Examples.biomass_store;
                 model := Examples.forced_uptake |} in
     let w' :=
       snd (TestBiomass.test_biomass_precursors_open_production
              Examples.format Examples.fill
              (Biomass.find_blocked_biomass_precursors
                 Examples.forced_uptake_solver) "BIOMASS" w) in
     model w' = model w
     /\ forall ref rxn,
          ref ∈ exchange_refs (model w) ->
          reactions (model w) !! ref = Some rxn ->
          exists rxn',
            reactions (model w') !! ref = Some rxn'
            /\ lower_bound rxn' = lower_bound rxn
            /\ upper_bound rxn' = upper_bound rxn.
Proof.
  split; [intros reaction; apply find_blocked_tracked|].
  exact (complete_medium_bounds_restored Examples.format Examples.fill
           (Biomass.find_blocked_biomass_precursors
              Examples.forced_uptake_solver) "BIOMASS"
           {| store := Examples.biomass_store;
              model := Examples.forced_uptake |}
           (fun reaction => find_blocked_tracked _ reaction)).
Defined.

(** The two checks of the blocked precursors on the model with the forced
    uptake: the default medium has no blocked precursor and the check
    passes; in complete medium [b_c] is blocked, the final assertion
    raises, the identifier is in the record, and the model is as it was. *)
Example forced_uptake_checks :
  let w := {| store := Examples.biomass_store;
              model := Examples.forced_uptake |} in
  let find_blocked :=
    Biomass.find_blocked_biomass_precursors Examples.forced_uptake_solver in
  let default :=
    TestBiomass.test_biomass_precursors_default_production Examples.format
      Examples.fill find_blocked "BIOMASS" w in
  let complete :=
    TestBiomass.test_biomass_precursors_open_production Examples.format
      Examples.fill find_blocked "BIOMASS" w in
  fst default = Ok tt
  /\ attached_entry "test_biomass_precursors_default_production" "data"
       "BIOMASS" (store (snd default)) = Some (VList [])
  /\ (exists msg, fst complete = Raise (AssertionError (Some msg)))
  /\ attached_entry "test_biomass_precursors_open_production" "data"
       "BIOMASS" (store (snd complete)) = Some (VList ["b_c"])
  /\ model (snd complete) = Examples.forced_uptake
  /\ exchange_refs Examples.forced_uptake = [0%nat; 1%nat].
Proof.
  vm_compute. repeat split; try reflexivity. eexists. reflexivity.
Qed.

(** ** Comparisons at the edges *)

(** A NaN growth rate, which the optimisation returns for an infeasible
    problem, passes neither of the two growth checks; the rate 10.3972
    itself passes the second. *)
Example nan_fails_growth_checks :
  F64.gtb S754_nan F64.zero = false
  /\ F64.leb S754_nan F64.lit_10_3972 = false
  /\ F64.gtb F64.zero F64.zero = false
  /\ F64.leb F64.lit_10_3972 F64.lit_10_3972 = true.
Proof. repeat split; reflexivity. Qed.

(** The mass sums 1.0 and 1.0005 are accepted, 1.002 is rejected. *)
Example isclose_values :
  Numpy.isclose F64.one F64.one Numpy.default_rtol F64.lit_1e_3 = true
  /\ Numpy.isclose (S754_finite false 4505851427184181 (-52)) F64.one
       Numpy.default_rtol F64.lit_1e_3 = true
  /\ Numpy.isclose (S754_finite false 4512606826625237 (-52)) F64.one
       Numpy.default_rtol F64.lit_1e_3 = false
  /\ Numpy.isclose S754_nan F64.one Numpy.default_rtol F64.lit_1e_3 = false.
Proof. vm_compute. repeat split; reflexivity. Qed.

(** ** Regular expressions *)

Lemma lang_nullable (r : Re.regex) : Re.nullable r = true <-> Re.lang r "".
Proof.
  induction r as [| |p|r1 IH1 r2 IH2|r1 IH1 r2 IH2|r IH]; simpl.
  - split; [done|]. inversion 1.
  - split; [constructor|done].
  - split; [done|]. inversion 1.
  - rewrite andb_true_iff, IH1, IH2. split.
    + intros [H1 H2]. apply (Re.lang_cat r1 r2 "" "" H1 H2).
    + inversion 1 as [| |? ? s1 s2 H1 H2 E1 E2| | | |]; subst.
      apply str_app_nil_inv in E2 as [-> ->]. done.
  - rewrite orb_true_iff, IH1, IH2. split.
    + intros [H|H]; [by apply Re.lang_alt_l|by apply Re.lang_alt_r].
    + inversion 1; subst; auto.
  - split; [constructor|done].
Qed.

Lemma lang_star_cons_inv (r : Re.regex) (c : Ascii.ascii) (s : string) :
  Re.lang (Re.Star r) (String c s) ->
  exists s1 s2,
    s = s1 +:+ s2 /\ Re.lang r (String c s1) /\ Re.lang (Re.Star r) s2.
Proof.
  intros H. remember (Re.Star r) as r' eqn:Hr.
  remember (String c s) as t eqn:Ht.
  revert s Ht Hr.
  induction H as [| | | | | |r0 s1 s2 H1 _ H2 IH2];
    intros s0 Ht Hr; try discriminate.
  injection Hr as ->. destruct s1 as [|c1 s1].
  - rewrite str_app_nil_l in Ht. by apply IH2.
  - rewrite str_app_cons in Ht. injection Ht as -> <-. by exists s1, s2.
Qed.

Lemma lang_deriv (r : Re.regex) (c : Ascii.ascii) (s : string) :
  Re.lang (Re.deriv c r) s <-> Re.lang r (String c s).
Proof.
  revert s. induction r as [| |p|r1 IH1 r2 IH2|r1 IH1 r2 IH2|r IH];
    intros s; simpl.
  - split; inversion 1.
  - split; inversion 1.
  - destruct (p c) eqn:Hp; split.
    + inversion 1; subst. by constructor.
    + inversion 1; subst. constructor.
    + inversion 1.
    + inversion 1; subst. congruence.
  - assert (Hcat : Re.lang (Re.Cat (Re.deriv c r1) r2) s ->
                   Re.lang (Re.Cat r1 r2) (String c s)).
    { inversion 1 as [| |? ? s1 s2 H1 H2| | | |]; subst.
      apply IH1 in H1. apply (Re.lang_cat r1 r2 (String c s1) s2 H1 H2). }
    assert (Hinv : Re.lang (Re.Cat r1 r2) (String c s) ->
                   Re.lang (Re.Cat (Re.deriv c r1) r2) s
                   \/ (Re.lang r1 "" /\ Re.lang r2 (String c s))).
    { inversion 1 as [| |? ? s1 s2 H1 H2 E1 E2| | | |]; subst.
      destruct s1 as [|c1 s1]; rewrite ?str_app_cons, ?str_app_nil_l in E2.
      - right. by subst.
      - injection E2 as -> <-. left. constructor; [by apply IH1|done]. }
    destruct (Re.nullable r1) eqn:Hn; split.
    + inversion 1; subst; [by apply Hcat|].
      apply lang_nullable in Hn.
      apply (Re.lang_cat r1 r2 "" (String c s) Hn). by apply IH2.
    + intros H. apply Hinv in H as [H|[_ H]].
      * by apply Re.lang_alt_l.
      * apply Re.lang_alt_r. by apply IH2.
    + apply Hcat.
    + intros H. apply Hinv in H as [H|[H _]]; [done|].
      apply lang_nullable in H. congruence.
  - split.
    + inversion 1; subst.
      * apply Re.lang_alt_l. by apply IH1.
      * apply Re.lang_alt_r. by apply IH2.
    + inversion 1; subst.
      * apply Re.lang_alt_l. by apply IH1.
      * apply Re.lang_alt_r. by apply IH2.
  - split.
    + inversion 1 as [| |? ? s1 s2 H1 H2| | | |]; subst.
      apply IH in H1.
      apply (Re.lang_star_app r (String c s1) s2 H1 H2).
    + intros H. apply lang_star_cons_inv in H as (s1 & s2 & -> & H1 & H2).
      constructor; [by apply IH|done].
Qed.

(** [re.match] finds a match exactly when the pattern matches a prefix of
    the string in full. *)
Lemma re_match_prefix (r : Re.regex) (s : string) :
  Re.re_match r s = true
  <-> exists p q, s = p +:+ q /\ Re.lang r p.
Proof.
  revert r. induction s as [|c s IH]; intros r; simpl.
  - rewrite orb_false_r, lang_nullable. split.
    + intros H. by exists "", "".
    + intros (p & q & E & H). symmetry in E.
      apply str_app_nil_inv in E as [-> _]. done.
  - rewrite orb_true_iff, lang_nullable, IH. split.
    + intros [H|(p & q & -> & H)].
      * by exists "", (String c s).
      * exists (String c p), q. split; [done|]. by apply lang_deriv.
    + intros (p & q & E & H). destruct p as [|c1 p]; [by left|].
      rewrite ?str_app_cons, ?str_app_nil_l in E. injection E as <- ->. right. exists p, q.
      split; [done|]. by apply lang_deriv.
Qed.

(** ** The patterns of [syntax.py] *)

Lemma lang_cat_inv r1 r2 s :
  Re.lang (Re.Cat r1 r2) s
  <-> exists s1 s2, s = s1 +:+ s2 /\ Re.lang r1 s1 /\ Re.lang r2 s2.
Proof.
  split.
  - inversion 1; subst. eauto.
  - intros (s1 & s2 & -> & H1 & H2). by constructor.
Qed.

Lemma lang_alt_inv r1 r2 s :
  Re.lang (Re.Alt r1 r2) s <-> Re.lang r1 s \/ Re.lang r2 s.
Proof.
  split.
  - inversion 1; subst; auto.
  - intros [H|H]; [by apply Re.lang_alt_l|by apply Re.lang_alt_r].
Qed.

Lemma lang_chr_inv p s :
  Re.lang (Re.Chr p) s <-> exists c, s = String c "" /\ p c = true.
Proof.
  split.
  - inversion 1; subst. eauto.
  - intros (c & -> & H). by constructor.
Qed.

Lemma lang_eps_inv s : Re.lang Re.Eps s <-> s = "".
Proof. split; [by inversion 1|intros ->; constructor]. Qed.

Lemma lang_lit (t s : string) : Re.lang (Re.Lit t) s <-> s = t.
Proof.
  revert s. induction t as [|c t IH]; intros s; simpl.
  - apply lang_eps_inv.
  - rewrite lang_cat_inv. split.
    + intros (s1 & s2 & -> & H1 & H2). apply lang_chr_inv in H1 as (c' & -> & Hc).
      apply Ascii.eqb_eq in Hc as <-. apply IH in H2 as ->. done.
    + intros ->. exists (String c ""), t. split; [done|]. split.
      * constructor. apply Ascii.eqb_refl.
      * by apply IH.
Qed.

Lemma all_in_app p s1 s2 :
  Re.all_in p (s1 +:+ s2) = Re.all_in p s1 && Re.all_in p s2.
Proof.
  induction s1 as [|c s1 IH]; [done|].
  rewrite str_app_cons. simpl. by rewrite IH, andb_assoc.
Qed.

Lemma all_in_impl (p q : Ascii.ascii -> bool) s :
  (forall c, p c = true -> q c = true) ->
  Re.all_in p s = true -> Re.all_in q s = true.
Proof.
  intros Hpq. induction s as [|c s IH]; [done|]. simpl.
  rewrite !andb_true_iff. intros [H1 H2]. auto.
Qed.

Lemma lang_star_chr p s :
  Re.lang (Re.Star (Re.Chr p)) s <-> Re.all_in p s = true.
Proof.
  split.
  - intros H. remember (Re.Star (Re.Chr p)) as r eqn:Hr.
    induction H as [| | | | | |r0 s1 s2 H1 _ H2 IH2]; try discriminate.
    + done.
    + injection Hr as ->. apply lang_chr_inv in H1 as (c & -> & Hc).
      rewrite str_app_cons, str_app_nil_l. simpl. rewrite Hc. by apply IH2.
  - induction s as [|c s IH]; simpl.
    + intros _. constructor.
    + rewrite andb_true_iff. intros [Hc Hs].
      apply (Re.lang_star_app (Re.Chr p) (String c "") s);
        [by constructor|by apply IH].
Qed.

Lemma lang_plus_chr p s :
  Re.lang (Re.Plus (Re.Chr p)) s
  <-> exists c s', s = String c s' /\ p c = true /\ Re.all_in p s' = true.
Proof.
  unfold Re.Plus. rewrite lang_cat_inv. split.
  - intros (s1 & s2 & -> & H1 & H2). apply lang_chr_inv in H1 as (c & -> & Hc).
    apply lang_star_chr in H2. exists c, s2. done.
  - intros (c & s' & -> & Hc & Hs). exists (String c ""), s'.
    split; [done|]. split; [by constructor|by apply lang_star_chr].
Qed.

Lemma upper_digit_word c : Re.is_upper_digit c = true -> Re.is_word c = true.
Proof.
  unfold Re.is_upper_digit, Re.is_word.
  destruct (Re.is_upper c), (Re.is_digit c), (Re.is_lower c); simpl; done.
Qed.

(** The tag patterns match exactly the identifiers that carry the tag. *)
Lemma tagged_match_iff (tag id : string) :
  Re.re_match (SyntaxTags.tagged tag) id = true <-> SyntaxTags.has_tag tag id.
Proof.
  rewrite re_match_prefix. unfold SyntaxTags.tagged, SyntaxTags.has_tag.
  split.
  - intros (p & q & -> & H).
    apply lang_cat_inv in H as (u & v & -> & Hu & Hv).
    apply lang_plus_chr in Hu as (c & u' & -> & Hc & Hu').
    apply lang_cat_inv in Hv as (w & x & -> & Hw & Hx).
    apply lang_star_chr in Hw.
    apply lang_cat_inv in Hx as (l & w2 & -> & Hl & _).
    apply lang_lit in Hl as ->.
    exists c, (u' +:+ w), (w2 +:+ q). split.
    + rewrite !str_app_cons. f_equal. by rewrite !str_app_assoc.
    + split; [done|]. rewrite all_in_app, Hw, andb_true_r.
      eapply all_in_impl; [apply upper_digit_word|done].
  - intros (c & w & rest & -> & Hc & Hw).
    exists (String c (w +:+ tag)), rest. split.
    + by rewrite !str_app_cons, str_app_assoc.
    + apply lang_cat_inv. exists (String c ""), (w +:+ tag).
      split; [done|]. split.
      * apply lang_plus_chr. by exists c, "".
      * apply lang_cat_inv. exists w, tag. split; [done|].
        split; [by apply lang_star_chr|].
        apply lang_cat_inv. exists tag, "".
        split; [by rewrite str_app_nil_r|].
        split; [by apply lang_lit|constructor].
Qed.

Lemma root_token_lang (s : string) :
  Re.lang SyntaxTags.root_token s
  <-> (exists c, s = String c "" /\ SyntaxTags.single_token c = true)
      \/ s = "ACP".
Proof.
  unfold SyntaxTags.root_token, SyntaxTags.single_token.
  rewrite !lang_alt_inv, !lang_lit, lang_chr_inv. split.
  - intros [(c & -> & Hc)|[->|[->|[->|[->|[->|[->| ->]]]]]]];
      try (left; eexists; split; [reflexivity|]; by rewrite ?Hc); by right.
  - intros [(c & -> & Hc)| ->].
    + rewrite !orb_true_iff in Hc.
      destruct Hc as [[[[[[Hc|Hc]|Hc]|Hc]|Hc]|Hc]|Hc];
        try (apply Ascii.eqb_eq in Hc as ->); eauto 10.
    + eauto 10.
Qed.

Lemma root_ok_token (t s : string) :
  Re.lang SyntaxTags.root_token t ->
  SyntaxTags.root_ok (t +:+ s) = SyntaxTags.root_ok s.
Proof.
  intros H. apply root_token_lang in H as [(c & -> & Hc)| ->].
  - rewrite str_app_cons, str_app_nil_l. simpl. by rewrite Hc.
  - reflexivity.
Qed.

Lemma root_ok_star (s : string) :
  Re.lang (Re.Star SyntaxTags.root_token) s -> SyntaxTags.root_ok s = true.
Proof.
  intros H. remember (Re.Star SyntaxTags.root_token) as r eqn:Hr.
  induction H as [| | | | | |r0 s1 s2 H1 _ H2 IH2]; try discriminate.
  - done.
  - injection Hr as ->. rewrite root_ok_token by done. by apply IH2.
Qed.

Lemma star_root_ok (s : string) :
  SyntaxTags.root_ok s = true -> Re.lang (Re.Star SyntaxTags.root_token) s.
Proof.
  assert (H : forall n s, (String.length s <= n)%nat ->
                SyntaxTags.root_ok s = true ->
                Re.lang (Re.Star SyntaxTags.root_token) s).
  { clear s. induction n as [|n IH]; intros s Hn Hok.
    - destruct s; [constructor|simpl in Hn; lia].
    - destruct s as [|c s]; [constructor|]. simpl in Hn, Hok.
      destruct (SyntaxTags.single_token c) eqn:Hc.
      + apply (Re.lang_star_app _ (String c "") s).
        * apply root_token_lang. left. eauto.
        * apply IH; [lia|done].
      + destruct c as [[] [] [] [] [] [] [] []]; try discriminate.
        destruct s as [|c1 s]; [discriminate|].
        destruct c1 as [[] [] [] [] [] [] [] []]; try discriminate.
        destruct s as [|c2 s]; [discriminate|].
        destruct c2 as [[] [] [] [] [] [] [] []]; try discriminate.
        apply (Re.lang_star_app _ "ACP" s).
        * apply root_token_lang. by right.
        * apply IH; [simpl in Hn; lia|done]. }
  intros Hok. by apply (H (String.length s)).
Qed.

Lemma root_token_nonempty (t : string) :
  Re.lang SyntaxTags.root_token t -> t <> "".
Proof.
  intros H. apply root_token_lang in H as [(c & -> & _)| ->]; discriminate.
Qed.

(** The pattern of the metabolite identifiers matches exactly the
    identifiers in lower-case form. *)
Lemma comp_pattern_match_iff (id : string) :
  Re.re_match SyntaxTags.comp_pattern id = true
  <-> SyntaxTags.lower_case_id id.
Proof.
  rewrite re_match_prefix.
  unfold SyntaxTags.comp_pattern, SyntaxTags.lower_case_id. split.
  - intros (p & q & -> & H).
    apply lang_cat_inv in H as (u & v & -> & Hu & Hv).
    apply lang_cat_inv in Hv as (l & x & -> & Hl & Hx).
    apply lang_lit in Hl as ->.
    apply lang_plus_chr in Hx as (c & x' & -> & Hc & _).
    apply lang_cat_inv in Hu as (t1 & t2 & -> & Ht1 & Ht2).
    exists (t1 +:+ t2), c, (x' +:+ q). split.
    + by rewrite !str_app_assoc.
    + split.
      * intros E. apply str_app_nil_inv in E as [E _].
        by apply root_token_nonempty in Ht1.
      * split; [|done]. apply root_ok_star. by constructor.
  - intros (root & c & rest & -> & Hne & Hok & Hc).
    exists (root +:+ String "_" (String c "")), rest. split.
    + by rewrite str_app_assoc.
    + apply lang_cat_inv. exists root, (String "_" (String c "")).
      split; [done|]. split.
      * apply star_root_ok in Hok. destruct root as [|c0 root]; [done|].
        apply lang_star_cons_inv in Hok as (s1 & s2 & -> & H1 & H2).
        apply lang_cat_inv. exists (String c0 s1), s2. done.
      * apply lang_cat_inv. exists "_", (String c ""). split; [done|].
        split; [by apply lang_lit|]. apply lang_plus_chr. by exists c, "".
Qed.

(** ** The tag checks of [syntax.py] *)

Lemma not_true_iff_false_b (b : bool) : b = false <-> ~ b = true.
Proof. destruct b; split; done. Qed.

(** X4: [find_reaction_tag_transporter] reports exactly the transport
    reactions that do not convert ATP to ADP and whose identifier does not
    carry the tag [t]; it reports none of them twice. *)
Theorem reaction_tag_transporter_report
    (find_transport_reactions find_atp_adp_converting_reactions
       : Model -> list Reaction)
    (model : Model) :
  NoDup (SyntaxTags.find_reaction_tag_transporter find_transport_reactions
           find_atp_adp_converting_reactions model)
  /\ forall rxn,
       rxn ∈ SyntaxTags.find_reaction_tag_transporter
               find_transport_reactions find_atp_adp_converting_reactions
               model
       <-> rxn ∈ find_transport_reactions model
           /\ (rxn ∉ find_atp_adp_converting_reactions model)
           /\ ~ SyntaxTags.has_tag "t" (rxn_id rxn).
Proof.
  unfold SyntaxTags.find_reaction_tag_transporter. split.
  - apply NoDup_filter, NoDup_list_difference, NoDup_remove_dups.
  - intros rxn.
    rewrite list_elem_of_filter, list_elem_of_difference,
      !elem_of_remove_dups, not_true_iff_false_b.
    unfold SyntaxTags.transport_tag. rewrite tagged_match_iff. tauto.
Qed.

(** X5: [find_abc_tag_transporter] reports exactly the transport reactions
    that convert ATP to ADP and whose identifier does not carry the tag
    [abc]; it reports none of them twice. *)
Theorem abc_tag_transporter_report
    (find_transport_reactions find_atp_adp_converting_reactions
       : Model -> list Reaction)
    (model : Model) :
  NoDup (SyntaxTags.find_abc_tag_transporter find_transport_reactions
           find_atp_adp_converting_reactions model)
  /\ forall rxn,
       rxn ∈ SyntaxTags.find_abc_tag_transporter find_transport_reactions
               find_atp_adp_converting_reactions model
       <-> rxn ∈ find_transport_reactions model
           /\ rxn ∈ find_atp_adp_converting_reactions model
           /\ ~ SyntaxTags.has_tag "abc" (rxn_id rxn).
Proof.
  unfold SyntaxTags.find_abc_tag_transporter. split.
  - apply NoDup_filter, NoDup_list_intersection, NoDup_remove_dups.
  - intros rxn.
    rewrite list_elem_of_filter, list_elem_of_intersection,
      !elem_of_remove_dups, not_true_iff_false_b.
    unfold SyntaxTags.abc_tag. rewrite tagged_match_iff. tauto.
Qed.

(** X6: No reaction is reported by both tag checks, and a transport reaction
    is reported by neither exactly when its identifier carries the tag of
    its class: [abc] when it converts ATP to ADP, [t] otherwise. *)
Theorem tag_reports_partition
    (find_transport_reactions find_atp_adp_converting_reactions
       : Model -> list Reaction)
    (model : Model) (rxn : Reaction) :
  let untagged :=
    SyntaxTags.find_reaction_tag_transporter find_transport_reactions
      find_atp_adp_converting_reactions model in
  let untagged_abc :=
    SyntaxTags.find_abc_tag_transporter find_transport_reactions
      find_atp_adp_converting_reactions model in
  ~ (rxn ∈ untagged /\ rxn ∈ untagged_abc)
  /\ (rxn ∈ find_transport_reactions model ->
      ((rxn ∉ untagged) /\ (rxn ∉ untagged_abc)
       <-> Re.re_match
             (if bool_decide
                   (rxn ∈ find_atp_adp_converting_reactions model)
              then SyntaxTags.abc_tag else SyntaxTags.transport_tag)
             (rxn_id rxn) = true)).
Proof.
  intros untagged untagged_abc.
  unfold untagged, untagged_abc, SyntaxTags.find_reaction_tag_transporter,
    SyntaxTags.find_abc_tag_transporter.
  rewrite !list_elem_of_filter, list_elem_of_difference,
    list_elem_of_intersection, !elem_of_remove_dups.
  split; [tauto|]. intros Ht.
  destruct (bool_decide_reflect
              (rxn ∈ find_atp_adp_converting_reactions model)) as [Ha|Ha].
  - destruct (Re.re_match SyntaxTags.abc_tag (rxn_id rxn));
      intuition congruence.
  - destruct (Re.re_match SyntaxTags.transport_tag (rxn_id rxn));
      intuition congruence.
Qed.

Lemma tag_reports_partition_witness :
  let find_transport := fun _ : Model => [Examples.unmatched] in
  let find_atp_adp := fun _ : Model => @nil Reaction in
  let untagged :=
    SyntaxTags.find_reaction_tag_transporter find_transport find_atp_adp
      Examples.five_reactions in
  let untagged_abc :=
    SyntaxTags.find_abc_tag_transporter find_transport find_atp_adp
      Examples.five_reactions in
  Examples.unmatched ∈ find_transport Examples.five_reactions
  /\ ~ (Examples.unmatched ∈ untagged /\ Examples.unmatched ∈ untagged_abc)
  /\ (Examples.unmatched ∈ find_transport Examples.five_reactions ->
      ((Examples.unmatched ∉ untagged) /\ (Examples.unmatched ∉ untagged_abc)
       <-> Re.re_match
             (if bool_decide
                   (Examples.unmatched ∈ find_atp_adp Examples.five_reactions)
              then SyntaxTags.abc_tag else SyntaxTags.transport_tag)
             (rxn_id Examples.unmatched) = true)).
Proof.
  intros find_transport find_atp_adp untagged untagged_abc.
  split; [apply elem_of_cons; by left|].
  exact (tag_reports_partition find_transport find_atp_adp
           Examples.five_reactions Examples.unmatched).
Defined.

(** ** The identifiers of the metabolites *)

Lemma upper_case_mets_iff (model : Model) (met : Metabolite) :
  met ∈ SyntaxTags.find_upper_case_mets model
  <-> met ∈ metabolites model /\ ~ SyntaxTags.lower_case_id (met_id met).
Proof.
  unfold SyntaxTags.find_upper_case_mets.
  rewrite list_elem_of_filter, not_true_iff_false_b, comp_pattern_match_iff.
  tauto.
Qed.

(** X7: [find_upper_case_mets] reports, in the order of the model, exactly the
    metabolites whose identifier is not in lower-case form: a non-empty
    root of lower-case letters, digits, Z, E, L, D, S, R and ACP, then an
    underscore and a word character. *)
Theorem upper_case_mets_report (model : Model) :
  SyntaxTags.find_upper_case_mets model `sublist_of` metabolites model
  /\ forall met,
       met ∈ SyntaxTags.find_upper_case_mets model
       <-> met ∈ metabolites model
           /\ ~ SyntaxTags.lower_case_id (met_id met).
Proof.
  split; [apply sublist_filter|]. intros met. apply upper_case_mets_iff.
Qed.

(** X8: A metabolite whose identifier has no underscore is always reported. *)
Theorem no_underscore_reported (model : Model) (met : Metabolite) :
  met ∈ metabolites model ->
  Re.all_in SyntaxTags.not_underscore (met_id met) = true ->
  met ∈ SyntaxTags.find_upper_case_mets model.
Proof.
  intros Hin Hno. apply upper_case_mets_iff. split; [done|].
  intros (root & c & rest & E & _). rewrite E, all_in_app in Hno.
  apply andb_true_iff in Hno as [_ Hno]. simpl in Hno. done.
Qed.

Lemma no_underscore_reported_witness :
  let nad := Examples.met "nad" "c" in
  let model := Examples.mk_model [] [nad] in
  nad ∈ metabolites model
  /\ Re.all_in SyntaxTags.not_underscore (met_id nad) = true
  /\ nad ∈ SyntaxTags.find_upper_case_mets model.
Proof.
  intros nad model.
  assert (H1 : nad ∈ metabolites model) by (apply elem_of_cons; by left).
  split; [exact H1|]. split; [reflexivity|].
  exact (no_underscore_reported model nad H1 eq_refl).
Defined.

Lemma lower_digit_root_ok (root : string) :
  Re.all_in Re.is_lower_digit root = true -> SyntaxTags.root_ok root = true.
Proof.
  induction root as [|c root IH]; [done|]. simpl.
  rewrite andb_true_iff. intros [Hc Hr].
  unfold SyntaxTags.single_token. rewrite Hc. simpl. by apply IH.
Qed.

(** X9: Only the part before the first underscore is examined: a metabolite
    whose identifier begins with lower-case letters and digits, an
    underscore and a word character is never reported, whatever follows
    (upper-case letters included). *)
Theorem upper_case_after_underscore_unreported (model : Model)
    (met : Metabolite) (root rest : string) (c : Ascii.ascii) :
  met_id met = root +:+ String "_" (String c rest) ->
  root <> "" ->
  Re.all_in Re.is_lower_digit root = true ->
  Re.is_word c = true ->
  met ∉ SyntaxTags.find_upper_case_mets model.
Proof.
  intros E Hne Hroot Hc Hin. apply upper_case_mets_iff in Hin as [_ Hn].
  apply Hn. exists root, c, rest.
  split; [done|]. split; [done|]. split; [|done].
  by apply lower_digit_root_ok.
Qed.

Lemma upper_case_after_underscore_unreported_witness :
  let h2o := Examples.met "h2o_FOO" "c" in
  let model := Examples.mk_model [] [h2o] in
  met_id h2o = "h2o" +:+ String "_" (String "F" "OO")
  /\ "h2o" <> ""
  /\ Re.all_in Re.is_lower_digit "h2o" = true
  /\ Re.is_word "F" = true
  /\ h2o ∉ SyntaxTags.find_upper_case_mets model.
Proof.
  intros h2o model.
  assert (H2 : "h2o" <> "") by discriminate.
  split; [reflexivity|]. split; [exact H2|].
  split; [reflexivity|]. split; [reflexivity|].
  exact (upper_case_after_underscore_unreported model h2o "h2o" "OO" "F"
           eq_refl H2 eq_refl eq_refl).
Defined.

(** ** More on [find_mistagged_reaction_compartment] *)

Lemma flagged_iff (d : ReactionMap) (rxn : Reaction) :
  flagged d rxn = true
  <-> exists mt,
        lookup_rxn d rxn = Ok (Some mt)
        /\ compartments rxn <> {["c"]}
        /\ forall comp,
             comp ∈ compartments rxn ->
             str_in comp (group_suffix mt) = false.
Proof.
  unfold flagged. destruct (lookup_rxn d rxn) as [[mt|]|e].
  - rewrite andb_true_iff, !negb_true_iff, bool_decide_eq_false. split.
    + intros [Hc Hex]. exists mt. split; [done|]. split; [congruence|].
      intros comp Hcomp. apply not_true_iff_false_b. intros Hs.
      apply not_true_iff_false_b in Hex. apply Hex.
      apply existsb_exists. exists comp. split; [|done].
      apply list_elem_of_In. by apply elem_of_elements.
    + intros (mt' & E & Hc & Hall). injection E as <-.
      split; [congruence|]. apply not_true_iff_false_b. intros Hex.
      apply existsb_exists in Hex as (comp & Hin & Hs).
      apply list_elem_of_In, elem_of_elements in Hin.
      rewrite (Hall comp Hin) in Hs. done.
  - split; [done|]. by intros (mt & E & _).
  - split; [done|]. by intros (mt & E & _).
Qed.

(** X1: [find_mistagged_reaction_compartment] returns, each once, exactly the
    reactions of the pattern map that are no transport reactions, whose
    identifier matched the pattern, that are not purely cytosolic, and
    none of whose compartments occurs in the matched suffix. *)
Theorem mistagged_report
    (build_reaction_pattern_map : Model -> ReactionMap)
    (find_transport_reactions : Model -> list Reaction)
    (model : Model) (reaction_match : option ReactionMap)
    (transport_reactions : option (list Reaction)) (l : Log) :
  let d := default (build_reaction_pattern_map model) reaction_match in
  let tr := default (find_transport_reactions model) transport_reactions in
  exists wrong l',
    find_mistagged_reaction_compartment build_reaction_pattern_map
      find_transport_reactions model reaction_match transport_reactions l
    = (Ok wrong, l ++ l')
    /\ NoDup wrong
    /\ forall rxn,
         rxn ∈ wrong
         <-> (rxn ∉ tr)
             /\ exists mt,
                  lookup_rxn d rxn = Ok (Some mt)
                  /\ compartments rxn <> {["c"]}
                  /\ forall comp,
                       comp ∈ compartments rxn ->
                       str_in comp (group_suffix mt) = false.
Proof.
  intros d tr.
  destruct (find_mistagged_spec build_reaction_pattern_map
              find_transport_reactions model reaction_match
              transport_reactions l) as (l' & Hrun & _).
  eexists _, l'. split; [exact Hrun|]. fold d tr. split.
  - apply NoDup_filter, NoDup_list_difference.
    unfold keys. apply NoDup_remove_dups.
  - intros rxn.
    rewrite list_elem_of_filter, list_elem_of_difference,
      elem_of_remove_dups, flagged_iff.
    unfold keys. rewrite elem_of_remove_dups. split.
    + intros [Hf [_ Hnt]]. done.
    + intros [Hnt Hf]. split; [done|]. split; [|done].
      destruct Hf as (mt & E & _). by apply lookup_rxn_ok_key in E.
Qed.

Lemma mistagged_step_warns (d : ReactionMap) (rxn : Reaction)
    (wrong : list Reaction) (l : Log) :
  rxn ∈ map fst d ->
  (1 < size (compartments rxn))%nat ->
  (WARNING, rxn_id rxn +:+ " spans different compartments.")
  ∈ snd (mistagged_step d rxn wrong l).
Proof.
  intros Hin Hsz. destruct (lookup_rxn_key d rxn Hin) as [v Hv].
  unfold mistagged_step, lift_result, Py.bind, log, modify, ret.
  rewrite Hv.
  assert (Hb : (1 <? Z.of_nat (size (compartments rxn))) = true)
    by (apply Z.ltb_lt; lia).
  rewrite Hb. destruct v as [mt|]; simpl.
  - repeat match goal with
           | |- context [bool_decide ?P] => destruct (bool_decide P); simpl
           | |- context [existsb ?f ?xs] => destruct (existsb f xs); simpl
           end;
      rewrite ?elem_of_app, !elem_of_cons; tauto.
  - rewrite ?elem_of_app, !elem_of_cons; tauto.
Qed.

Lemma mistagged_loop_log (d : ReactionMap) (rxns : list Reaction) :
  (forall rxn, rxn ∈ rxns -> rxn ∈ map fst d) ->
  forall (wrong : list Reaction) (l : Log) (rec : Level * string),
    rec ∈ l -> rec ∈ snd (mistagged_loop d rxns wrong l).
Proof.
  intros Hk wrong l rec Hrec.
  destruct (mistagged_loop_spec d rxns Hk wrong l) as (l' & -> & _).
  simpl. apply elem_of_app. by left.
Qed.

Lemma mistagged_loop_warns (d : ReactionMap) (rxns : list Reaction) :
  (forall rxn, rxn ∈ rxns -> rxn ∈ map fst d) ->
  forall (wrong : list Reaction) (l : Log) (rxn : Reaction),
    rxn ∈ rxns ->
    (1 < size (compartments rxn))%nat ->
    (WARNING, rxn_id rxn +:+ " spans different compartments.")
    ∈ snd (mistagged_loop d rxns wrong l).
Proof.
  induction rxns as [|r rest IH]; intros Hk wrong l rxn Hin Hsz.
  - by apply elem_of_nil in Hin.
  - assert (Hk' : forall x, x ∈ rest -> x ∈ map fst d).
    { intros x Hx. apply Hk, elem_of_cons. by right. }
    assert (Hr : r ∈ map fst d) by (apply Hk, elem_of_cons; by left).
    simpl. unfold Py.bind.
    destruct (mistagged_step_spec d r wrong l Hr) as (l1 & Hstep & _).
    apply elem_of_cons in Hin as [->|Hin].
    + pose proof (mistagged_step_warns d r wrong l Hr Hsz) as Hw.
      rewrite Hstep in Hw |- *. simpl in Hw.
      by apply mistagged_loop_log.
    + rewrite Hstep. by apply IH.
Qed.

(** X2: Every reaction that the loop examines (an entry of the pattern map
    that is no transport reaction) and that spans more than one
    compartment is reported to the logger as a warning, whether or not it
    is returned. *)
Theorem multi_compartment_warning
    (build_reaction_pattern_map : Model -> ReactionMap)
    (find_transport_reactions : Model -> list Reaction)
    (model : Model) (reaction_match : option ReactionMap)
    (transport_reactions : option (list Reaction)) (l : Log)
    (rxn : Reaction) :
  rxn ∈ map fst (default (build_reaction_pattern_map model) reaction_match) ->
  (rxn ∉ default (find_transport_reactions model) transport_reactions) ->
  (1 < size (compartments rxn))%nat ->
  (WARNING, rxn_id rxn +:+ " spans different compartments.")
  ∈ snd (find_mistagged_reaction_compartment build_reaction_pattern_map
           find_transport_reactions model reaction_match
           transport_reactions l).
Proof.
  intros Hk Hnt Hsz. unfold find_mistagged_reaction_compartment.
  replace (match reaction_match with
           | Some d0 => d0 | None => build_reaction_pattern_map model end)
    with (default (build_reaction_pattern_map model) reaction_match)
    by (by destruct reaction_match).
  replace (match transport_reactions with
           | Some l0 => l0 | None => find_transport_reactions model end)
    with (default (find_transport_reactions model) transport_reactions)
    by (by destruct transport_reactions).
  apply mistagged_loop_warns; [|
    apply list_elem_of_difference; split;
      [unfold keys; by apply elem_of_remove_dups
      |by rewrite elem_of_remove_dups]|done].
  intros r Hr. apply list_elem_of_difference in Hr as [Hr _].
  unfold keys in Hr. by rewrite elem_of_remove_dups in Hr.
Qed.

Lemma multi_compartment_warning_witness :
  let spanning :=
    Examples.rxn "PGI_c"
      [(Examples.met "g6p_c" "c", Examples.minus_one);
       (Examples.met "f6p_p" "p", F64.one)] F64.zero F64.lit_1000 in
  let d : ReactionMap := [(spanning, Some {| group_suffix := "c" |})] in
  spanning ∈ map fst (default [] (Some d))
  /\ (spanning ∉ default [] (Some (@nil Reaction)))
  /\ (1 < size (compartments spanning))%nat
  /\ (WARNING, rxn_id spanning +:+ " spans different compartments.")
     ∈ snd (find_mistagged_reaction_compartment (fun _ => [])
              (fun _ => []) Examples.five_reactions (Some d) (Some []) []).
Proof.
  intros spanning d.
  assert (H1 : spanning ∈ map fst (default [] (Some d)))
    by (apply elem_of_cons; by left).
  assert (H2 : spanning ∉ default [] (Some (@nil Reaction)))
    by apply not_elem_of_nil.
  assert (H3 : (1 < size (compartments spanning))%nat).
  { vm_compute. lia. }
  split; [exact H1|]. split; [exact H2|]. split; [exact H3|].
  exact (multi_compartment_warning (fun _ => []) (fun _ => [])
           Examples.five_reactions (Some d) (Some []) [] spanning H1 H2 H3).
Defined.

(** ** More on the untagged boundary reactions *)

(** X10: No reaction is reported both as an untagged demand and as an untagged
    exchange reaction, and a boundary reaction is reported as neither
    exactly when its identifier begins with the prefix of its class: [EX_]
    when it touches the extracellular compartment, [DM_] otherwise. *)
Theorem untagged_boundary_partition (model : Model) (rxn : Reaction) :
  ~ (rxn ∈ find_untagged_demand_rxns model
     /\ rxn ∈ find_untagged_exchange_rxns model)
  /\ (rxn ∈ exchanges model ->
      ((rxn ∉ find_untagged_demand_rxns model)
       /\ (rxn ∉ find_untagged_exchange_rxns model)
       <-> startswith (rxn_id rxn)
             (if bool_decide ("e" ∈ compartments rxn) then "EX_" else "DM_")
           = true)).
Proof.
  unfold find_untagged_demand_rxns, find_untagged_exchange_rxns.
  rewrite !list_elem_of_filter. split; [tauto|]. intros Hex.
  destruct (bool_decide_reflect ("e" ∈ compartments rxn)) as [He|He].
  - destruct (startswith (rxn_id rxn) "EX_"); intuition congruence.
  - destruct (startswith (rxn_id rxn) "DM_"); intuition congruence.
Qed.

Lemma untagged_boundary_partition_witness :
  let ex := Examples.rxn "DM_a" [(Examples.a_e, Examples.minus_one)]
              F64.zero F64.lit_1000 in
  let model := Examples.mk_model [ex] [Examples.a_e] in
  ex ∈ exchanges model
  /\ ex ∈ find_untagged_exchange_rxns model
  /\ ~ (ex ∈ find_untagged_demand_rxns model
        /\ ex ∈ find_untagged_exchange_rxns model)
  /\ (ex ∈ exchanges model ->
      ((ex ∉ find_untagged_demand_rxns model)
       /\ (ex ∉ find_untagged_exchange_rxns model)
       <-> startswith (rxn_id ex)
             (if bool_decide ("e" ∈ compartments ex) then "EX_" else "DM_")
           = true)).
Proof.
  intros ex model.
  assert (H1 : ex ∈ exchanges model).
  { unfold exchanges. apply list_elem_of_filter. split; [reflexivity|].
    apply elem_of_cons. by left. }
  split; [exact H1|]. split.
  - unfold find_untagged_exchange_rxns. apply list_elem_of_filter.
    split; [|exact H1]. split; [|reflexivity].
    unfold compartments. simpl. apply elem_of_union_l.
    by apply elem_of_singleton.
  - exact (untagged_boundary_partition model ex).
Defined.

(** ** The suffix checks *)

(** X3: In the module as it is written both suffix checks raise [NameError]
    for every model and every suffix: the name
    [find_demand_and_exchange_reactions] is not bound; and with that name
    bound they still cannot return, because [SUFFIX_MAP] is not bound
    either. *)
Theorem suffix_checks_raise_name_error
    (find_transport_reactions : Model -> list Reaction)
    (ns : SyntaxSuffix.Namespace) (model : Model) (suffix : string) :
  let written := SyntaxSuffix.syntax_module in
  SyntaxSuffix.find_rxn_id_compartment_suffix find_transport_reactions
    written model suffix
  = SyntaxSuffix.NameError "find_demand_and_exchange_reactions"
  /\ SyntaxSuffix.find_rxn_id_suffix_compartment find_transport_reactions
       written model suffix
     = SyntaxSuffix.NameError "find_demand_and_exchange_reactions"
  /\ (SyntaxSuffix.ns_SUFFIX_MAP ns = None ->
      (forall rxns,
         SyntaxSuffix.find_rxn_id_compartment_suffix
           find_transport_reactions ns model suffix
         <> SyntaxSuffix.Returned rxns)
      /\ (forall rxns,
            SyntaxSuffix.find_rxn_id_suffix_compartment
              find_transport_reactions ns model suffix
            <> SyntaxSuffix.Returned rxns)).
Proof.
  intros written. split; [reflexivity|]. split; [reflexivity|].
  intros Hmap.
  unfold SyntaxSuffix.find_rxn_id_compartment_suffix,
    SyntaxSuffix.find_rxn_id_suffix_compartment.
  rewrite Hmap.
  destruct (SyntaxSuffix.ns_find_demand_and_exchange_reactions ns);
    split; intros rxns; discriminate.
Qed.

Lemma suffix_checks_raise_name_error_witness :
  let ns := {| SyntaxSuffix.ns_find_demand_and_exchange_reactions :=
                 Some (fun _ : Model => @nil Reaction);
               SyntaxSuffix.ns_SUFFIX_MAP := None |} in
  SyntaxSuffix.ns_SUFFIX_MAP ns = None
  /\ (forall rxns,
        SyntaxSuffix.find_rxn_id_compartment_suffix (fun _ => []) ns
          Examples.five_reactions "c"
        <> SyntaxSuffix.Returned rxns)
  /\ (forall rxns,
        SyntaxSuffix.find_rxn_id_suffix_compartment (fun _ => []) ns
          Examples.five_reactions "c"
        <> SyntaxSuffix.Returned rxns).
Proof.
  intros ns. split; [reflexivity|].
  exact (proj2 (proj2 (suffix_checks_raise_name_error (fun _ => []) ns
                         Examples.five_reactions "c")) eq_refl).
Defined.

(** ** The records of the ratio checks *)

Section RatioRecords.

Variable format : string -> list value -> string.
Variable fill : string -> string.
Variable truncate : value -> value.

Lemma set_entry_same d k v st :
  entry d k st = Some v -> set_entry d k v st = st.
Proof.
  unfold entry, set_entry. intros H. destruct st as [a h n]; simpl in *.
  f_equal. apply map_eq. intros i. destruct (decide (d = i)) as [->|Hne].
  - rewrite lookup_alter_eq. destruct (h !! i) as [rec|] eqn:Hi; [|done].
    simpl in *. by rewrite insert_id.
  - by rewrite lookup_alter_ne.
Qed.

Lemma ratio_check_exec func ids denom template cond l st :
  annotated_at func l st ->
  ratio_check format fill truncate func ids denom template cond st
  = (ratio_outcome format fill truncate ids denom template cond,
     Records.ratio_store format fill truncate l ids denom template st).
Proof.
  intros Han. pose proof Han as [Ha Hl].
  unfold ratio_check, ratio_outcome, Records.ratio_store.
  step (annotation_ok _ _ _ Ha).
  step (setitem_ok l "data" (VList ids) st Hl).
  set (st1 := set_entry l "data" (VList ids) st).
  assert (Hd1 : entry l "data" st1 = Some (VList ids))
    by (by apply entry_set_same).
  assert (Han1 : annotated_at func l st1) by (by apply annotated_set_entry).
  step (len_item_ok _ _ _ _ Hd1).
  destruct (truediv (len ids) denom) as [metric|e] eqn:Hdiv; [|done].
  unfold lift_result at 1. unfold Py.bind at 1.
  step (setitem_ok l "metric" (VFloat metric) st1 (proj2 Han1)).
  set (st2 := set_entry l "metric" (VFloat metric) st1).
  assert (Hd2 : entry l "data" st2 = Some (VList ids)).
  { unfold st2. by rewrite entry_set_other_key. }
  assert (Hm2 : entry l "metric" st2 = Some (VFloat metric)).
  { apply entry_set_same, Han1. }
  assert (Han2 : annotated_at func l st2) by (by apply annotated_set_entry).
  step (len_item_ok _ _ _ _ Hd2).
  step (getitem_ok _ _ _ _ Hm2).
  step (getitem_ok _ _ _ _ Hd2).
  fold (ratio_message format fill truncate template ids metric).
  step (setitem_ok l "message"
          (ratio_message format fill truncate template ids metric) st2
          (proj2 Han2)).
  set (st3 := set_entry l "message" _ st2).
  assert (Hd3 : entry l "data" st3 = Some (VList ids)).
  { unfold st3. by rewrite entry_set_other_key. }
  assert (Hg3 : entry l "message" st3
                = Some (ratio_message format fill truncate template ids
                          metric)).
  { apply entry_set_same, Han2. }
  step (len_item_ok _ _ _ _ Hd3).
  step (getitem_ok _ _ _ _ Hg3).
  unfold assert. by destruct (cond (len ids)).
Qed.

Lemma ratio_check_report func ids denom template cond l st :
  annotated_at func l st ->
  Records.ratio_report l st
    (ratio_check format fill truncate func ids denom template cond st).
Proof.
  intros Han. rewrite (ratio_check_exec _ _ _ _ _ _ _ Han).
  pose proof Han as [Ha Hl].
  unfold Records.ratio_report, ratio_outcome, Records.ratio_store,
    ratio_message. simpl.
  destruct (truediv (len ids) denom) as [metric|e] eqn:Hdiv.
  - assert (Hl2 : is_Some
                    (heap (set_entry l "metric" (VFloat metric)
                             (set_entry l "data" (VList ids) st)) !! l))
      by (by do 2 apply heap_set_entry).
    split.
    { exists ids. rewrite !entry_set_other_key by done.
      by apply entry_set_same. }
    destruct (cond (len ids)).
    + eexists. by apply entry_set_same.
    + split; [symmetry; by apply entry_set_same|by eexists].
  - split.
    { exists ids. by apply entry_set_same. }
    unfold truediv in Hdiv. destruct (denom =? 0); [|done].
    injection Hdiv as <-. by rewrite !entry_set_other_key.
Qed.

Lemma same_elsewhere_set_entry l keys k v st st' :
  k ∈ keys -> Records.same_elsewhere l keys st st' ->
  Records.same_elsewhere l keys st (set_entry l k v st').
Proof.
  intros Hk (Ha & Hn & Hh & He). unfold Records.same_elsewhere.
  split; [done|]. split; [done|]. split.
  - intros l' Hne. unfold set_entry; simpl.
    rewrite lookup_alter_ne by done. by apply Hh.
  - intros k' Hk'. rewrite entry_set_other_key; [by apply He|].
    by intros ->.
Qed.

Lemma same_elsewhere_refl l keys st : Records.same_elsewhere l keys st st.
Proof. by unfold Records.same_elsewhere. Qed.

Lemma ratio_check_frame func ids denom template cond l st :
  annotated_at func l st ->
  Records.same_elsewhere l ["data"; "metric"; "message"] st
    (snd (ratio_check format fill truncate func ids denom template cond
            st)).
Proof.
  intros Han. rewrite (ratio_check_exec _ _ _ _ _ _ _ Han). simpl.
  unfold Records.ratio_store.
  destruct (truediv (len ids) denom);
    repeat (apply same_elsewhere_set_entry; [in_list|]);
    apply same_elsewhere_refl.
Qed.

Lemma ratio_store_annotated func ids denom template l st :
  annotated_at func l st ->
  annotated_at func l
    (Records.ratio_store format fill truncate l ids denom template st).
Proof.
  intros H. unfold Records.ratio_store.
  destruct (truediv (len ids) denom);
    repeat apply annotated_set_entry; exact H.
Qed.

Lemma ratio_store_twice ids denom template l st :
  is_Some (heap st !! l) ->
  Records.ratio_store format fill truncate l ids denom template
    (Records.ratio_store format fill truncate l ids denom template st)
  = Records.ratio_store format fill truncate l ids denom template st.
Proof.
  intros Hl. unfold Records.ratio_store.
  destruct (truediv (len ids) denom) as [metric|e].
  - assert (H1 : is_Some (heap (set_entry l "data" (VList ids) st) !! l))
      by (by apply heap_set_entry).
    assert (H2 : is_Some
                   (heap (set_entry l "metric" (VFloat metric)
                            (set_entry l "data" (VList ids) st)) !! l))
      by (by apply heap_set_entry).
    rewrite (set_entry_same l "data").
    2:{ rewrite !entry_set_other_key by done. by apply entry_set_same. }
    rewrite (set_entry_same l "metric").
    2:{ rewrite entry_set_other_key by done. by apply entry_set_same. }
    apply set_entry_same. by apply entry_set_same.
  - apply set_entry_same. by apply entry_set_same.
Qed.

Lemma ratio_check_again func ids denom template cond l st :
  annotated_at func l st ->
  let run := ratio_check format fill truncate func ids denom template cond in
  run (snd (run st)) = run st.
Proof.
  intros Han run. unfold run.
  rewrite (ratio_check_exec _ _ _ _ _ _ _ Han). simpl.
  rewrite (ratio_check_exec _ _ _ _ _ _ _
             (ratio_store_annotated func ids denom template l st Han)).
  f_equal. apply ratio_store_twice, Han.
Qed.

End RatioRecords.

(** Each of the six checks is the shared shape at its own name. *)
Ltac each_ratio_check H :=
  unfold Records.ratio_checks in H;
  repeat (apply elem_of_cons in H as [H|H]);
  [injection H as -> ->..|by apply elem_of_nil in H].

(** X14: The six ratio checks of [test_basic.py] end in one of three ways and
    always leave their data: they return, and the message is stored; or
    they raise the assertion error, which carries the very message that is
    stored in the record; or they raise the division fault, and then
    neither metric nor message has been written.  They raise nothing
    else. *)
Theorem ratio_checks_report
    (format : string -> list value -> string) (fill : string -> string)
    (truncate : value -> value)
    (check_metabolites_formula_presence : Model -> list Metabolite)
    (check_metabolites_charge_presence : Model -> list Metabolite)
    (check_gene_protein_reaction_rule_presence : Model -> list Reaction)
    (find_pure_metabolic_reactions : Model -> list Reaction)
    (find_transport_reactions : Model -> list Reaction)
    (find_unique_metabolites : Model -> list string)
    (name : string) (check : Model -> M Store unit)
    (model : Model) (st : Store) (l : loc) :
  (name, check)
    ∈ Records.ratio_checks format fill truncate
        check_metabolites_formula_presence
        check_metabolites_charge_presence
        check_gene_protein_reaction_rule_presence
        find_pure_metabolic_reactions find_transport_reactions
        find_unique_metabolites ->
  annotated_at name l st ->
  Records.ratio_report l st (check model st).
Proof.
  intros Hin Hann. each_ratio_check Hin.
  all: exact (ratio_check_report format fill truncate _ _ _ _ _ l st Hann).
Qed.

Lemma basic_store_formula_annotated :
  annotated_at "test_metabolites_formula_presence" 2%positive
    Examples.basic_store.
Proof. apply annotated_atb_true. vm_compute. reflexivity. Qed.

Lemma ratio_checks_report_witness :
  Records.ratio_report 2%positive Examples.basic_store
    (TestBasic.test_metabolites_formula_presence Examples.format
       Examples.fill Examples.truncate
       Basic.check_metabolites_formula_presence Examples.atp_twice
       Examples.basic_store).
Proof.
  apply (ratio_checks_report Examples.format Examples.fill Examples.truncate
           Basic.check_metabolites_formula_presence (fun _ => [])
           (fun _ => []) (fun _ => []) (fun _ => [])
           (Basic.find_unique_metabolites Examples.underscore_suffix)
           "test_metabolites_formula_presence").
  - unfold Records.ratio_checks. in_list.
  - exact basic_store_formula_annotated.
Defined.

(** X15: A ratio check writes nothing but the data, the metric and the message
    of its own record: the records of the other checks, the title and the
    type of its own record and the attributes of the functions are what
    they were. *)
Theorem ratio_checks_frame
    (format : string -> list value -> string) (fill : string -> string)
    (truncate : value -> value)
    (check_metabolites_formula_presence : Model -> list Metabolite)
    (check_metabolites_charge_presence : Model -> list Metabolite)
    (check_gene_protein_reaction_rule_presence : Model -> list Reaction)
    (find_pure_metabolic_reactions : Model -> list Reaction)
    (find_transport_reactions : Model -> list Reaction)
    (find_unique_metabolites : Model -> list string)
    (name : string) (check : Model -> M Store unit)
    (model : Model) (st : Store) (l : loc) :
  (name, check)
    ∈ Records.ratio_checks format fill truncate
        check_metabolites_formula_presence
        check_metabolites_charge_presence
        check_gene_protein_reaction_rule_presence
        find_pure_metabolic_reactions find_transport_reactions
        find_unique_metabolites ->
  annotated_at name l st ->
  Records.same_elsewhere l ["data"; "metric"; "message"] st
    (snd (check model st)).
Proof.
  intros Hin Hann. each_ratio_check Hin.
  all: exact (ratio_check_frame format fill truncate _ _ _ _ _ l st Hann).
Qed.

Lemma ratio_checks_frame_witness :
  Records.same_elsewhere 2%positive ["data"; "metric"; "message"]
    Examples.basic_store
    (snd (TestBasic.test_metabolites_formula_presence Examples.format
            Examples.fill Examples.truncate
            Basic.check_metabolites_formula_presence Examples.atp_twice
            Examples.basic_store)).
Proof.
  apply (ratio_checks_frame Examples.format Examples.fill Examples.truncate
           Basic.check_metabolites_formula_presence (fun _ => [])
           (fun _ => []) (fun _ => []) (fun _ => [])
           (Basic.find_unique_metabolites Examples.underscore_suffix)
           "test_metabolites_formula_presence").
  - unfold Records.ratio_checks. in_list.
  - exact basic_store_formula_annotated.
Defined.

(** X16: Running a ratio check again on the store it left changes nothing: the
    second run ends as the first did and leaves the same store. *)
Theorem ratio_checks_idempotent
    (format : string -> list value -> string) (fill : string -> string)
    (truncate : value -> value)
    (check_metabolites_formula_presence : Model -> list Metabolite)
    (check_metabolites_charge_presence : Model -> list Metabolite)
    (check_gene_protein_reaction_rule_presence : Model -> list Reaction)
    (find_pure_metabolic_reactions : Model -> list Reaction)
    (find_transport_reactions : Model -> list Reaction)
    (find_unique_metabolites : Model -> list string)
    (name : string) (check : Model -> M Store unit)
    (model : Model) (st : Store) (l : loc) :
  (name, check)
    ∈ Records.ratio_checks format fill truncate
        check_metabolites_formula_presence
        check_metabolites_charge_presence
        check_gene_protein_reaction_rule_presence
        find_pure_metabolic_reactions find_transport_reactions
        find_unique_metabolites ->
  annotated_at name l st ->
  check model (snd (check model st)) = check model st.
Proof.
  intros Hin Hann. each_ratio_check Hin.
  all: exact (ratio_check_again format fill truncate _ _ _ _ _ l st Hann).
Qed.

Lemma ratio_checks_idempotent_witness :
  let check :=
    TestBasic.test_metabolites_formula_presence Examples.format
      Examples.fill Examples.truncate
      Basic.check_metabolites_formula_presence Examples.atp_twice in
  check (snd (check Examples.basic_store)) = check Examples.basic_store.
Proof.
  apply (ratio_checks_idempotent Examples.format Examples.fill
           Examples.truncate Basic.check_metabolites_formula_presence
           (fun _ => []) (fun _ => []) (fun _ => []) (fun _ => [])
           (Basic.find_unique_metabolites Examples.underscore_suffix)
           "test_metabolites_formula_presence" _ _ _ 2%positive).
  - unfold Records.ratio_checks. in_list.
  - exact basic_store_formula_annotated.
Defined.

(** ** The checks that count *)

Lemma count_check_exec func ids message cond l st :
  annotated_at func l st ->
  Records.count_check func ids message cond st
  = ((if cond (len ids) then Ok tt
      else Raise (AssertionError (Some (message (len ids))))),
     set_entry l "message" (message (len ids))
       (set_entry l "data" (VList ids) st)).
Proof.
  intros Han. pose proof Han as [Ha Hl]. unfold Records.count_check.
  step (annotation_ok _ _ _ Ha).
  step (setitem_ok l "data" (VList ids) st Hl).
  set (st1 := set_entry l "data" (VList ids) st).
  assert (Hd1 : entry l "data" st1 = Some (VList ids))
    by (by apply entry_set_same).
  assert (Hl1 : is_Some (heap st1 !! l)) by (by apply heap_set_entry).
  step (len_item_ok _ _ _ _ Hd1).
  step (setitem_ok l "message" (message (len ids)) st1 Hl1).
  set (st2 := set_entry l "message" _ st1).
  assert (Hd2 : entry l "data" st2 = Some (VList ids)).
  { unfold st2. by rewrite entry_set_other_key. }
  assert (Hg2 : entry l "message" st2 = Some (message (len ids))).
  { by apply entry_set_same. }
  step (len_item_ok _ _ _ _ Hd2).
  step (getitem_ok _ _ _ _ Hg2).
  unfold assert. by destruct (cond (len ids)).
Qed.

Lemma listing_check_exec func ids message cond l st :
  annotated_at func l st ->
  Records.listing_check func ids message cond st
  = ((if cond (len ids) then Ok tt
      else Raise (AssertionError (Some (message (len ids) (VList ids))))),
     set_entry l "message" (message (len ids) (VList ids))
       (set_entry l "data" (VList ids) st)).
Proof.
  intros Han. pose proof Han as [Ha Hl]. unfold Records.listing_check.
  step (annotation_ok _ _ _ Ha).
  step (setitem_ok l "data" (VList ids) st Hl).
  set (st1 := set_entry l "data" (VList ids) st).
  assert (Hd1 : entry l "data" st1 = Some (VList ids))
    by (by apply entry_set_same).
  assert (Hl1 : is_Some (heap st1 !! l)) by (by apply heap_set_entry).
  step (len_item_ok _ _ _ _ Hd1).
  step (getitem_ok _ _ _ _ Hd1).
  step (setitem_ok l "message" (message (len ids) (VList ids)) st1 Hl1).
  set (st2 := set_entry l "message" _ st1).
  assert (Hd2 : entry l "data" st2 = Some (VList ids)).
  { unfold st2. by rewrite entry_set_other_key. }
  assert (Hg2 : entry l "message" st2
                = Some (message (len ids) (VList ids))).
  { by apply entry_set_same. }
  step (len_item_ok _ _ _ _ Hd2).
  step (getitem_ok _ _ _ _ Hg2).
  unfold assert. by destruct (cond (len ids)).
Qed.

Lemma count_report_stored func ids ok text l st :
  annotated_at func l st ->
  Records.count_report func ids ok
    ((if ok then Ok tt else Raise (AssertionError (Some (VStr text)))),
     set_entry l "message" (VStr text) (set_entry l "data" (VList ids) st)).
Proof.
  intros [Ha Hl]. unfold Records.count_report. simpl.
  rewrite !(attached_field_entry func _ l) by done.
  split.
  - rewrite entry_set_other_key by done. by apply entry_set_same.
  - exists text. split; [|done].
    apply entry_set_same. by apply heap_set_entry.
Qed.

Lemma count_check_report func ids (text : Z -> string) cond l st :
  annotated_at func l st ->
  Records.count_report func ids (cond (len ids))
    (Records.count_check func ids (fun n => VStr (text n)) cond st).
Proof.
  intros Han. rewrite (count_check_exec _ _ _ _ _ _ Han).
  by apply count_report_stored.
Qed.

Lemma listing_check_report func ids (text : Z -> value -> string) cond l
    st :
  annotated_at func l st ->
  Records.count_report func ids (cond (len ids))
    (Records.listing_check func ids (fun n data => VStr (text n data)) cond
       st).
Proof.
  intros Han. rewrite (listing_check_exec _ _ _ _ _ _ Han).
  by apply count_report_stored.
Qed.

Lemma one_le_len {A} (f : A -> string) (l : list A) :
  (1 <=? len (get_ids f l)) = nonempty l.
Proof.
  unfold len, get_ids. destruct l; simpl; [done|].
  apply Z.leb_le. lia.
Qed.

(** X11: The four checks of [test_basic.py] that expect at least one gene,
    reaction, metabolite or transport reaction store the identifiers and a
    message and pass exactly when there is at least one.  On a model
    without the entity they do not fault: they raise the assertion error
    that carries the stored message. *)
Theorem presence_checks_report
    (format : string -> list value -> string) (fill : string -> string)
    (find_transport_reactions : Model -> list Reaction)
    (model : Model) (st : Store) :
  all_annotated Records.counting_checks st ->
  Records.count_report "test_genes_presence"
    (get_ids gene_id (genes model)) (nonempty (genes model))
    (TestBasic.test_genes_presence format model st)
  /\ Records.count_report "test_reactions_presence"
       (get_ids rxn_id (reactions model)) (nonempty (reactions model))
       (TestBasic.test_reactions_presence format model st)
  /\ Records.count_report "test_metabolites_presence"
       (get_ids met_id (metabolites model)) (nonempty (metabolites model))
       (TestBasic.test_metabolites_presence format model st)
  /\ Records.count_report "test_transport_reaction_presence"
       (get_ids rxn_id (find_transport_reactions model))
       (nonempty (find_transport_reactions model))
       (TestBasic.test_transport_reaction_presence format fill
          find_transport_reactions model st).
Proof.
  intros Hall.
  repeat match goal with |- _ /\ _ => split end.
  all: match goal with
       | |- Records.count_report ?func (get_ids ?f ?xs) _ _ =>
           destruct (Hall func) as [l Hann];
           [unfold Records.counting_checks; in_list|];
           rewrite <- (one_le_len f xs);
           exact (count_check_report func _ _ (fun n => 1 <=? n) l st Hann)
       end.
Qed.

Lemma counting_store_annotated :
  all_annotated Records.counting_checks Examples.counting_store.
Proof.
  intros func Hin. unfold Records.counting_checks in Hin.
  repeat (apply elem_of_cons in Hin as [->|Hin]);
    [..|by apply elem_of_nil in Hin].
  - exists 1%positive. apply annotated_atb_true. vm_compute. reflexivity.
  - exists 2%positive. apply annotated_atb_true. vm_compute. reflexivity.
  - exists 3%positive. apply annotated_atb_true. vm_compute. reflexivity.
  - exists 4%positive. apply annotated_atb_true. vm_compute. reflexivity.
Qed.

Lemma presence_checks_report_witness :
  all_annotated Records.counting_checks Examples.counting_store
  /\ Records.count_report "test_genes_presence" [] false
       (TestBasic.test_genes_presence Examples.format
          Examples.five_reactions Examples.counting_store).
Proof.
  split; [exact counting_store_annotated|].
  exact (proj1 (presence_checks_report Examples.format Examples.fill
                  (fun _ => []) Examples.five_reactions
                  Examples.counting_store counting_store_annotated)).
Defined.

(** X12: [test_ngam_presence] stores the identifiers of the reactions that
    [find_ngam] returns and passes exactly when there is one of them: with
    none, and with two or more, it raises the assertion error that carries
    the stored message. *)
Theorem ngam_check_report
    (format : string -> list value -> string) (fill : string -> string)
    (truncate : value -> value) (find_ngam : Model -> list Reaction)
    (model : Model) (st : Store) (l : loc) :
  annotated_at "test_ngam_presence" l st ->
  Records.count_report "test_ngam_presence"
    (get_ids rxn_id (find_ngam model))
    (Nat.eqb (length (find_ngam model)) 1)
    (TestBasic.test_ngam_presence format fill truncate find_ngam model st).
Proof.
  intros Hann.
  replace (Nat.eqb (length (find_ngam model)) 1)
    with (len (get_ids rxn_id (find_ngam model)) =? 1).
  - exact (listing_check_report "test_ngam_presence" _ _ (fun n => n =? 1)
             l st Hann).
  - unfold len, get_ids. rewrite length_map.
    destruct (Nat.eqb_spec (length (find_ngam model)) 1) as [->|Hne];
      [done|].
    apply Z.eqb_neq. lia.
Qed.

Lemma ngam_check_report_witness :
  Records.count_report "test_ngam_presence" ["R1"; "R2"; "R3"; "R4"; "R5"]
    false
    (TestBasic.test_ngam_presence Examples.format Examples.fill
       Examples.truncate reactions Examples.five_reactions
       Examples.counting_store).
Proof.
  apply (ngam_check_report Examples.format Examples.fill Examples.truncate
           reactions Examples.five_reactions Examples.counting_store
           5%positive).
  apply annotated_atb_true. vm_compute. reflexivity.
Defined.

(** X24: [test_compartments_presence] stores the compartments of the
    metabolites of the model, each once, and passes exactly when the
    metabolites lie in at least three different compartments; otherwise it
    raises the assertion error that carries the stored message. *)
Theorem compartments_check_report
    (format : string -> list value -> string) (fill : string -> string)
    (truncate : value -> value) (list_of_set : gset string -> list string)
    (model : Model) (st : Store) (l : loc) :
  annotated_at "test_compartments_presence" l st ->
  list_of_set (TestBasic.get_metabolite_compartments model)
  ≡ₚ elements (TestBasic.get_metabolite_compartments model) ->
  Records.count_report "test_compartments_presence"
    (list_of_set (TestBasic.get_metabolite_compartments model))
    (bool_decide
       (3 <= size (TestBasic.get_metabolite_compartments model))%nat)
    (TestBasic.test_compartments_presence format fill truncate list_of_set
       model st)
  /\ forall comp,
       comp ∈ list_of_set (TestBasic.get_metabolite_compartments model)
       <-> exists met, met ∈ metabolites model /\ compartment met = comp.
Proof.
  intros Hann Hperm. split.
  - replace (bool_decide
               (3 <= size (TestBasic.get_metabolite_compartments model))%nat)
      with (3 <=? len (list_of_set
                         (TestBasic.get_metabolite_compartments model))).
    + exact (listing_check_report "test_compartments_presence" _ _
               (fun n => 3 <=? n) l st Hann).
    + unfold len. rewrite Hperm.
      change (length (elements (TestBasic.get_metabolite_compartments model)))
        with (size (TestBasic.get_metabolite_compartments model)).
      case_bool_decide as Hsz.
      * apply Z.leb_le. lia.
      * apply Z.leb_gt. lia.
  - intros comp. rewrite Hperm, elem_of_elements.
    unfold TestBasic.get_metabolite_compartments.
    rewrite elem_of_list_to_set, list_elem_of_fmap. split.
    + intros (met & -> & Hin). by exists met.
    + intros (met & Hin & <-). by exists met.
Qed.

Lemma compartments_check_report_witness :
  Records.count_report "test_compartments_presence"
    (elements (TestBasic.get_metabolite_compartments Examples.atp_twice))
    false
    (TestBasic.test_compartments_presence Examples.format Examples.fill
       Examples.truncate elements Examples.atp_twice
       Examples.counting_store).
Proof.
  apply (compartments_check_report Examples.format Examples.fill
           Examples.truncate elements Examples.atp_twice
           Examples.counting_store 7%positive).
  - apply annotated_atb_true. vm_compute. reflexivity.
  - reflexivity.
Defined.

(** X17: [test_biomass_presence] stores the identifiers of the biomass
    reactions it was given and passes exactly when there is at least one;
    with none it raises the assertion error that carries the stored
    message. *)
Theorem biomass_presence_report
    (format : string -> list value -> string) (fill : string -> string)
    (truncate : value -> value) (BIOMASS_IDS : list string)
    (st : Store) (l : loc) :
  annotated_at "test_biomass_presence" l st ->
  Records.count_report "test_biomass_presence" BIOMASS_IDS
    (nonempty BIOMASS_IDS)
    (TestBiomass.test_biomass_presence format fill truncate BIOMASS_IDS st).
Proof.
  intros Hann.
  replace (nonempty BIOMASS_IDS) with (0 <? len BIOMASS_IDS).
  - exact (listing_check_report "test_biomass_presence" _ _
             (fun n => 0 <? n) l st Hann).
  - unfold len. destruct BIOMASS_IDS; simpl; [done|].
    apply Z.ltb_lt. lia.
Qed.

Lemma biomass_presence_report_witness :
  Records.count_report "test_biomass_presence" [] false
    (TestBiomass.test_biomass_presence Examples.format Examples.fill
       Examples.truncate [] Examples.counting_store).
Proof.
  apply (biomass_presence_report Examples.format Examples.fill
           Examples.truncate [] Examples.counting_store 6%positive).
  apply annotated_atb_true. vm_compute. reflexivity.
Defined.

(** ** The biomass checks and the reaction they are given *)

Lemma with_model_w_run {A} (body : M World A) st m r st' m' :
  body {| store := st; model := enter m |}
  = (r, {| store := st'; model := m' |}) ->
  scoped m m' ->
  with_model_w body {| store := st; model := m |}
  = (r, {| store := st'; model := m |}).
Proof.
  intros Hb Hs. unfold with_model_w. simpl. rewrite Hb. simpl.
  by rewrite (scoped_exit _ _ Hs).
Qed.

Lemma scoped_complete_medium (m : Model) : scoped m (in_complete_medium m).
Proof. apply tracked_open_exchanges, scoped_enter. Qed.

Lemma index_of_id_complete_medium rid i rs :
  index_of_id rid i (FBA.complete_medium rs) = index_of_id rid i rs.
Proof.
  revert i. induction rs as [|r rs IH]; intros i; simpl; [done|].
  replace (rxn_id (FBA.widen r)) with (rxn_id r)
    by (unfold FBA.widen; by destruct (boundary r)).
  by rewrite IH.
Qed.

Lemma get_by_id_complete_medium rid m :
  get_by_id rid (in_complete_medium m)
  = match index_of_id rid 0 (reactions m) with
    | Some i => (Ok i, in_complete_medium m)
    | None => (Raise (KeyError rid), in_complete_medium m)
    end.
Proof.
  unfold get_by_id. rewrite (proj2 (open_exchanges_spec m)).
  by rewrite index_of_id_complete_medium.
Qed.

Lemma get_reaction_unknown m rid :
  index_of_id rid 0 (reactions m) = None ->
  TestBiomass.get_reaction m rid = Raise (KeyError rid).
Proof.
  intros H. unfold TestBiomass.get_reaction, get_by_id. by rewrite H.
Qed.

(** X19: A biomass check that is given an identifier which no reaction of the
    model carries raises the [KeyError] of the lookup; nothing has been
    written to its record by then, and the model is as it was, also where
    the lookup happens inside the block that has already widened the
    bounds of the exchanges. *)
Theorem unknown_reaction_key_error
    (format : string -> list value -> string) (fill : string -> string)
    (sum_biomass_weight : Reaction -> float)
    (find_blocked_biomass_precursors : nat -> M Model (list Metabolite))
    (gam_in_biomass : Reaction -> bool)
    (reaction_id : string) (st : Store) (m : Model) :
  index_of_id reaction_id 0 (reactions m) = None ->
  all_annotated Records.lookup_checks st ->
  let w := {| store := st; model := m |} in
  TestBiomass.test_biomass_consistency format fill sum_biomass_weight m
    reaction_id st = (Raise (KeyError reaction_id), st)
  /\ TestBiomass.test_biomass_precursors_default_production format fill
       find_blocked_biomass_precursors reaction_id w
     = (Raise (KeyError reaction_id), w)
  /\ TestBiomass.test_biomass_precursors_open_production format fill
       find_blocked_biomass_precursors reaction_id w
     = (Raise (KeyError reaction_id), w)
  /\ TestBiomass.test_gam_in_biomass format fill gam_in_biomass
       reaction_id w
     = (Raise (KeyError reaction_id), w).
Proof.
  intros Hid Hall w.
  assert (Hget : get_by_id reaction_id m = (Raise (KeyError reaction_id), m)).
  { unfold get_by_id. by rewrite Hid. }
  repeat match goal with |- _ /\ _ => split end.
  - destruct (Hall "test_biomass_consistency") as [l [Ha _]].
    { unfold Records.lookup_checks. in_list. }
    unfold TestBiomass.test_biomass_consistency.
    step (annotation_ok _ _ _ Ha).
    unfold lift_result, Py.bind.
    by rewrite (get_reaction_unknown _ _ Hid).
  - destruct (Hall "test_biomass_precursors_default_production")
      as [l [Ha _]].
    { unfold Records.lookup_checks. in_list. }
    unfold TestBiomass.test_biomass_precursors_default_production, w.
    step_store (annotation_ok _ _ _ Ha).
    by rewrite (bind_raise _ _ _ _ _ (on_model_eq _ st _ _ _ Hget)).
  - destruct (Hall "test_biomass_precursors_open_production")
      as [l [Ha _]].
    { unfold Records.lookup_checks. in_list. }
    unfold TestBiomass.test_biomass_precursors_open_production, w.
    step_store (annotation_ok _ _ _ Ha).
    apply bind_raise.
    apply (with_model_w_run _ st m _ st (in_complete_medium m));
      [|apply scoped_complete_medium].
    step_model (proj1 (open_exchanges_spec m)).
    apply bind_raise. apply on_model_eq.
    rewrite get_by_id_complete_medium. by rewrite Hid.
  - destruct (Hall "test_gam_in_biomass") as [l [Ha _]].
    { unfold Records.lookup_checks. in_list. }
    unfold TestBiomass.test_gam_in_biomass, w.
    step_store (annotation_ok _ _ _ Ha).
    by rewrite (bind_raise _ _ _ _ _ (on_model_eq _ st _ _ _ Hget)).
Qed.

Lemma lookup_store_annotated :
  all_annotated Records.lookup_checks Examples.lookup_store.
Proof.
  intros func Hin. unfold Records.lookup_checks in Hin.
  repeat (apply elem_of_cons in Hin as [->|Hin]);
    [..|by apply elem_of_nil in Hin].
  - exists 3%positive. apply annotated_atb_true. vm_compute. reflexivity.
  - exists 6%positive. apply annotated_atb_true. vm_compute. reflexivity.
  - exists 9%positive. apply annotated_atb_true. vm_compute. reflexivity.
  - exists 12%positive. apply annotated_atb_true. vm_compute. reflexivity.
Qed.

Lemma unknown_reaction_key_error_witness :
  let w := {| store := Examples.lookup_store; model := Examples.modest |} in
  index_of_id "GROWTH" 0 (reactions Examples.modest) = None
  /\ TestBiomass.test_biomass_precursors_open_production Examples.format
       Examples.fill
       (Biomass.find_blocked_biomass_precursors Examples.modest_solver)
       "GROWTH" w
     = (Raise (KeyError "GROWTH"), w).
Proof.
  intros w. split; [reflexivity|].
  exact (proj1 (proj2 (proj2
           (unknown_reaction_key_error Examples.format Examples.fill
              Biomass.sum_biomass_weight
              (Biomass.find_blocked_biomass_precursors
                 Examples.modest_solver)
              (fun _ => true) "GROWTH" Examples.lookup_store
              Examples.modest eq_refl lookup_store_annotated)))).
Defined.

Lemma get_reaction_known m rid ref rxn :
  index_of_id rid 0 (reactions m) = Some ref ->
  reactions m !! ref = Some rxn ->
  TestBiomass.get_reaction m rid = Ok rxn.
Proof.
  intros Hi Hr. unfold TestBiomass.get_reaction, get_by_id.
  by rewrite Hi, Hr.
Qed.

(** X18: The results of [test_biomass_consistency] are kept by reaction: after
    the check has run for two biomass reactions in turn, the record holds
    the mass sum and a message under each of the two identifiers, whether
    or not the first run passed. *)
Theorem consistency_results_by_reaction
    (format : string -> list value -> string) (fill : string -> string)
    (sum_biomass_weight : Reaction -> float) (model : Model)
    (rid1 rid2 : string) (rxn1 rxn2 : Reaction)
    (st : Store) (l dl ml : loc) :
  decorated_at "test_biomass_consistency" l dl ml st ->
  TestBiomass.get_reaction model rid1 = Ok rxn1 ->
  TestBiomass.get_reaction model rid2 = Ok rxn2 ->
  rid1 <> rid2 ->
  let check :=
    TestBiomass.test_biomass_consistency format fill sum_biomass_weight
      model in
  let st2 := snd (check rid2 (snd (check rid1 st))) in
  attached_entry "test_biomass_consistency" "data" rid1 st2
  = Some (VFloat (sum_biomass_weight rxn1))
  /\ attached_entry "test_biomass_consistency" "data" rid2 st2
     = Some (VFloat (sum_biomass_weight rxn2))
  /\ is_Some (attached_entry "test_biomass_consistency" "message" rid1 st2)
  /\ is_Some (attached_entry "test_biomass_consistency" "message" rid2 st2).
Proof.
  intros Hd H1 H2 Hne check st2. unfold st2, check.
  destruct (consistency_run format fill sum_biomass_weight model rid1 st
              l dl ml rxn1 Hd H1) as (text1 & Hrun1).
  simpl in Hrun1. rewrite Hrun1. simpl.
  destruct (store_data_message _ l dl ml st rid1
              (VFloat (sum_biomass_weight rxn1)) (VStr text1) Hd)
    as (Hd1 & _ & He1 & Hm1 & _ & _).
  simpl in Hd1, He1, Hm1.
  set (st1 := set_entry ml rid1 (VStr text1)
                (set_entry dl rid1 (VFloat (sum_biomass_weight rxn1)) st))
    in *.
  destruct (consistency_run format fill sum_biomass_weight model rid2 st1
              l dl ml rxn2 Hd1 H2) as (text2 & Hrun2).
  simpl in Hrun2. rewrite Hrun2. simpl.
  destruct (store_data_message _ l dl ml st1 rid2
              (VFloat (sum_biomass_weight rxn2)) (VStr text2) Hd1)
    as (Hd2 & _ & He2 & Hm2 & _ & _).
  simpl in Hd2, He2, Hm2.
  assert (Hdm : dl <> ml) by apply Hd.
  rewrite !(attached_entry_data _ _ _ _ _ _ Hd2),
    !(attached_entry_message _ _ _ _ _ _ Hd2).
  split.
  { rewrite entry_set_other by done.
    by rewrite entry_set_other_key. }
  split; [done|]. split.
  - rewrite entry_set_other_key by done.
    rewrite entry_set_other by done. by rewrite Hm1.
  - by rewrite Hm2.
Qed.

Lemma forced_uptake_reactions_known :
  TestBiomass.get_reaction Examples.forced_uptake "R"
  = Ok (Examples.rxn "R"
          [(Examples.a_e, Examples.minus_one); (Examples.b_c, F64.one)]
          F64.zero Examples.lit_5000)
  /\ TestBiomass.get_reaction Examples.forced_uptake "BIOMASS"
     = Ok Examples.forced_uptake_biomass.
Proof. split; reflexivity. Qed.

Lemma consistency_results_by_reaction_witness :
  let check :=
    TestBiomass.test_biomass_consistency Examples.format Examples.fill
      Biomass.sum_biomass_weight Examples.forced_uptake in
  let st2 := snd (check "BIOMASS" (snd (check "R" Examples.biomass_store))) in
  attached_entry "test_biomass_consistency" "data" "R" st2
  = Some (VFloat (Biomass.sum_biomass_weight
                    (Examples.rxn "R"
                       [(Examples.a_e, Examples.minus_one);
                        (Examples.b_c, F64.one)]
                       F64.zero Examples.lit_5000)))
  /\ attached_entry "test_biomass_consistency" "data" "BIOMASS" st2
     = Some (VFloat (Biomass.sum_biomass_weight
                       Examples.forced_uptake_biomass))
  /\ is_Some (attached_entry "test_biomass_consistency" "message" "R" st2)
  /\ is_Some
       (attached_entry "test_biomass_consistency" "message" "BIOMASS" st2).
Proof.
  apply (consistency_results_by_reaction Examples.format Examples.fill
           Biomass.sum_biomass_weight Examples.forced_uptake "R" "BIOMASS"
           _ _ Examples.biomass_store 3%positive 1%positive 2%positive
           (proj1 biomass_store_decorated) (proj1 forced_uptake_reactions_known)
           (proj2 forced_uptake_reactions_known)).
  discriminate.
Defined.

(** ** Opening the exchanges *)

Lemma open_exchanges_run (m : Model) :
  exists m',
    TestBiomass.open_exchanges m = (Ok tt, m')
    /\ reactions m' = FBA.complete_medium (reactions m).
Proof.
  destruct (open_loop_spec [] (reactions m) m eq_refl) as (m' & Hrun & Hrs).
  exists m'. split; [|exact Hrs].
  unfold TestBiomass.open_exchanges, Py.bind, get. exact Hrun.
Qed.

Lemma widen_widen (r : Reaction) : FBA.widen (FBA.widen r) = FBA.widen r.
Proof.
  unfold FBA.widen. destruct (boundary r) eqn:Hb; [|by rewrite Hb].
  by rewrite boundary_with_bounds, Hb.
Qed.

(** X21: [open_exchanges], the loop of the check in complete medium, never
    raises, on any model: it sets the bounds of every boundary reaction to
    (-1000, 1000) and leaves every other reaction, and the number and the
    order of the reactions, as they were.  Opening the exchanges a second
    time changes no reaction. *)
Theorem open_exchanges_widens (m : Model) :
  exists m',
    TestBiomass.open_exchanges m = (Ok tt, m')
    /\ reactions m'
       = map (fun rxn =>
                if boundary rxn
                then with_bounds F64.lit_m1000 F64.lit_1000 rxn
                else rxn) (reactions m)
    /\ fst (TestBiomass.open_exchanges m') = Ok tt
    /\ reactions (snd (TestBiomass.open_exchanges m')) = reactions m'.
Proof.
  destruct (open_exchanges_run m) as (m' & Hrun & Hrs).
  exists m'. split; [exact Hrun|]. split; [exact Hrs|].
  destruct (open_exchanges_run m') as (m'' & Hrun' & Hrs').
  rewrite Hrun'. simpl. split; [done|].
  rewrite Hrs', Hrs. unfold FBA.complete_medium.
  rewrite map_map. apply map_ext. intros r. apply widen_widen.
Qed.

(** ** The checks of the blocked precursors *)

Lemma len_item2_data func l dl ml st k ids :
  decorated_at func l dl ml st -> entry dl k st = Some (VList ids) ->
  len_item2 l "data" k st = (Ok (len ids), st).
Proof.
  intros H He. unfold len_item2.
  by step (getitem2_data _ _ _ _ _ _ _ H He).
Qed.

Section Precursors.

Variable format : string -> list value -> string.
Variable fill : string -> string.

(** What a check of the blocked precursors does once the identifiers are
    in its record. *)
Lemma precursors_tail func template rid ids l dl ml st m :
  decorated_at func l dl ml st ->
  entry dl rid st = Some (VList ids) ->
  let msg :=
    VStr (fill (format template [VStr rid; VInt (len ids); VList ids])) in
  (n <~ on_store (len_item2 l "data" rid);
   data <~ on_store (getitem2 l "data" rid);
   on_store (setitem2 l "message" rid
     (VStr (fill (format template [VStr rid; VInt n; data])))) >>
   n <~ on_store (len_item2 l "data" rid);
   msg <~ on_store (getitem2 l "message" rid);
   assert (n =? 0) (Some msg)) {| store := st; model := m |}
  = ((if len ids =? 0 then Ok tt else Raise (AssertionError (Some msg))),
     {| store := set_entry ml rid msg st; model := m |}).
Proof.
  intros Hd He msg.
  pose proof (decorated_set_entry _ _ _ _ _ ml rid msg Hd
                (or_intror eq_refl)) as Hd1.
  assert (Hdm : dl <> ml) by apply Hd.
  assert (He1 : entry dl rid (set_entry ml rid msg st) = Some (VList ids)).
  { by rewrite entry_set_other. }
  assert (Hm1 : entry ml rid (set_entry ml rid msg st) = Some msg).
  { apply entry_set_same, Hd. }
  step_store (len_item2_data _ _ _ _ _ _ _ Hd He).
  step_store (getitem2_data _ _ _ _ _ _ _ Hd He).
  step_store (setitem2_message _ _ _ _ _ rid msg Hd).
  step_store (len_item2_data _ _ _ _ _ _ _ Hd1 He1).
  step_store (getitem2_message _ _ _ _ _ _ _ Hd1 Hm1).
  unfold assert. by destruct (len ids =? 0).
Qed.

End Precursors.

Lemma len_ids_zero {A} (f : A -> string) (l : list A) :
  (len (get_ids f l) =? 0) = true <-> l = [].
Proof.
  rewrite Z.eqb_eq. unfold get_ids. rewrite len_nil_iff.
  destruct l; simpl; split; done.
Qed.

(** X20: [test_biomass_precursors_default_production] looks the reaction up,
    stores the identifiers of the precursors that the search returns
    under the identifier of the reaction, and passes exactly when the
    search returned none.  The check opens no block of its own: the model
    it leaves is the model the search left. *)
Theorem precursors_default_report
    (format : string -> list value -> string) (fill : string -> string)
    (find_blocked_biomass_precursors : nat -> M Model (list Metabolite))
    (reaction_id : string) (st : Store) (m m' : Model) (l dl ml : loc)
    (ref : nat) (blocked : list Metabolite) :
  decorated_at "test_biomass_precursors_default_production" l dl ml st ->
  index_of_id reaction_id 0 (reactions m) = Some ref ->
  find_blocked_biomass_precursors ref m = (Ok blocked, m') ->
  let run :=
    TestBiomass.test_biomass_precursors_default_production format fill
      find_blocked_biomass_precursors reaction_id
      {| store := st; model := m |} in
  model (snd run) = m'
  /\ attached_entry "test_biomass_precursors_default_production" "data"
       reaction_id (store (snd run))
     = Some (VList (get_ids met_id blocked))
  /\ is_Some
       (attached_entry "test_biomass_precursors_default_production"
          "message" reaction_id (store (snd run)))
  /\ (fst run = Ok tt <-> blocked = []).
Proof.
  intros Hd Hid Hfb run. unfold run.
  unfold TestBiomass.test_biomass_precursors_default_production.
  assert (Hget : get_by_id reaction_id m = (Ok ref, m)).
  { unfold get_by_id. by rewrite Hid. }
  set (ids := get_ids met_id blocked).
  pose proof (decorated_set_entry _ _ _ _ _ dl reaction_id (VList ids) Hd
                (or_introl eq_refl)) as Hd1.
  assert (He1 : entry dl reaction_id
                  (set_entry dl reaction_id (VList ids) st)
                = Some (VList ids)) by apply entry_set_same, Hd.
  step_store (annotation_ok _ _ _ (proj1 Hd)).
  step_model Hget. step_model Hfb.
  step_store (setitem2_data _ _ _ _ _ reaction_id (VList ids) Hd).
  rewrite (precursors_tail format fill _ _ _ _ _ _ _ _ m' Hd1 He1).
  simpl.
  match goal with
  | |- context [set_entry ml reaction_id ?v _] => set (msg := v)
  end.
  pose proof (decorated_set_entry _ _ _ _ _ ml reaction_id msg Hd1
                (or_intror eq_refl)) as Hd2.
  assert (Hdm : dl <> ml) by apply Hd.
  rewrite (attached_entry_data _ _ _ _ _ _ Hd2),
    (attached_entry_message _ _ _ _ _ _ Hd2).
  split; [done|]. split.
  { by rewrite entry_set_other. }
  split.
  { rewrite entry_set_same by apply Hd1. by eexists. }
  rewrite <- (len_ids_zero met_id blocked). fold ids.
  by destruct (len ids =? 0).
Qed.

(** X22: [test_biomass_precursors_open_production] runs the search on the model
    with the exchanges widened, stores the identifiers of the precursors
    that the search returns under the identifier of the reaction, and
    passes exactly when the search returned none; the model it leaves is
    the model it was given. *)
Theorem precursors_open_report
    (format : string -> list value -> string) (fill : string -> string)
    (find_blocked_biomass_precursors : nat -> M Model (list Metabolite))
    (reaction_id : string) (st : Store) (m : Model) (l dl ml : loc)
    (ref : nat) (blocked : list Metabolite) :
  decorated_at "test_biomass_precursors_open_production" l dl ml st ->
  index_of_id reaction_id 0 (reactions m) = Some ref ->
  tracked (find_blocked_biomass_precursors ref) ->
  fst (find_blocked_biomass_precursors ref (in_complete_medium m))
  = Ok blocked ->
  let run :=
    TestBiomass.test_biomass_precursors_open_production format fill
      find_blocked_biomass_precursors reaction_id
      {| store := st; model := m |} in
  model (snd run) = m
  /\ attached_entry "test_biomass_precursors_open_production" "data"
       reaction_id (store (snd run))
     = Some (VList (get_ids met_id blocked))
  /\ is_Some
       (attached_entry "test_biomass_precursors_open_production"
          "message" reaction_id (store (snd run)))
  /\ (fst run = Ok tt <-> blocked = []).
Proof.
  intros Hd Hid Htr Hfb run. unfold run.
  unfold TestBiomass.test_biomass_precursors_open_production.
  set (ids := get_ids met_id blocked).
  pose proof (decorated_set_entry _ _ _ _ _ dl reaction_id (VList ids) Hd
                (or_introl eq_refl)) as Hd1.
  assert (He1 : entry dl reaction_id
                  (set_entry dl reaction_id (VList ids) st)
                = Some (VList ids)) by apply entry_set_same, Hd.
  pose proof (Htr m _ (scoped_complete_medium m)) as Hs.
  destruct (find_blocked_biomass_precursors ref (in_complete_medium m))
    as [r m1] eqn:Hrun.
  simpl in Hfb, Hs. subst r.
  step_store (annotation_ok _ _ _ (proj1 Hd)).
  match goal with
  | |- context [with_model_w ?b] =>
      assert (Hbody :
                with_model_w b {| store := st; model := m |}
                = (Ok tt,
                   {| store := set_entry dl reaction_id (VList ids) st;
                      model := m |}))
  end.
  { apply (with_model_w_run _ st m _ _ m1); [|exact Hs].
    step_model (proj1 (open_exchanges_spec m)).
    assert (Hget : get_by_id reaction_id (in_complete_medium m)
                   = (Ok ref, in_complete_medium m)).
    { rewrite get_by_id_complete_medium. by rewrite Hid. }
    step_model Hget. step_model Hrun.
    apply on_store_eq.
    apply (setitem2_data _ _ _ _ _ reaction_id (VList ids) Hd). }
  rewrite (bind_ok _ _ _ _ _ Hbody).
  rewrite (precursors_tail format fill _ _ _ _ _ _ _ _ m Hd1 He1).
  simpl.
  match goal with
  | |- context [set_entry ml reaction_id ?v _] => set (msg := v)
  end.
  pose proof (decorated_set_entry _ _ _ _ _ ml reaction_id msg Hd1
                (or_intror eq_refl)) as Hd2.
  assert (Hdm : dl <> ml) by apply Hd.
  rewrite (attached_entry_data _ _ _ _ _ _ Hd2),
    (attached_entry_message _ _ _ _ _ _ Hd2).
  split; [done|]. split.
  { by rewrite entry_set_other. }
  split.
  { rewrite entry_set_same by apply Hd1. by eexists. }
  rewrite <- (len_ids_zero met_id blocked). fold ids.
  by destruct (len ids =? 0).
Qed.

Lemma modest_search_default :
  Biomass.find_blocked_biomass_precursors Examples.modest_solver 1%nat
    Examples.modest
  = (Ok [Examples.z_c], Examples.modest).
Proof. vm_compute. reflexivity. Qed.

Lemma precursors_default_report_witness :
  let run :=
    TestBiomass.test_biomass_precursors_default_production Examples.format
      Examples.fill
      (Biomass.find_blocked_biomass_precursors Examples.modest_solver)
      "BIOMASS"
      {| store := Examples.biomass_store; model := Examples.modest |} in
  model (snd run) = Examples.modest
  /\ attached_entry "test_biomass_precursors_default_production" "data"
       "BIOMASS" (store (snd run))
     = Some (VList ["z_c"])
  /\ is_Some
       (attached_entry "test_biomass_precursors_default_production"
          "message" "BIOMASS" (store (snd run)))
  /\ (fst run = Ok tt <-> [Examples.z_c] = []).
Proof.
  exact (precursors_default_report Examples.format Examples.fill
           (Biomass.find_blocked_biomass_precursors Examples.modest_solver)
           "BIOMASS" Examples.biomass_store Examples.modest Examples.modest
           9%positive 7%positive 8%positive 1%nat [Examples.z_c]
           (proj1 (proj2 (proj2 biomass_store_decorated))) eq_refl
           modest_search_default).
Defined.

Lemma modest_search_complete :
  fst (Biomass.find_blocked_biomass_precursors Examples.modest_solver 1%nat
         (in_complete_medium Examples.modest))
  = Ok [Examples.z_c].
Proof. vm_compute. reflexivity. Qed.

Lemma precursors_open_report_witness :
  let run :=
    TestBiomass.test_biomass_precursors_open_production Examples.format
      Examples.fill
      (Biomass.find_blocked_biomass_precursors Examples.modest_solver)
      "BIOMASS"
      {| store := Examples.biomass_store; model := Examples.modest |} in
  model (snd run) = Examples.modest
  /\ attached_entry "test_biomass_precursors_open_production" "data"
       "BIOMASS" (store (snd run))
     = Some (VList ["z_c"])
  /\ is_Some
       (attached_entry "test_biomass_precursors_open_production"
          "message" "BIOMASS" (store (snd run)))
  /\ (fst run = Ok tt <-> [Examples.z_c] = []).
Proof.
  exact (precursors_open_report Examples.format Examples.fill
           (Biomass.find_blocked_biomass_precursors Examples.modest_solver)
           "BIOMASS" Examples.biomass_store Examples.modest
           12%positive 10%positive 11%positive 1%nat [Examples.z_c]
           (proj1 (proj2 (proj2 (proj2 biomass_store_decorated)))) eq_refl
           (find_blocked_tracked Examples.modest_solver 1%nat)
           modest_search_complete).
Defined.

(** ** Growth-associated maintenance *)

(** X23: [test_gam_in_biomass] stores what [gam_in_biomass] says of the
    reaction and passes exactly when that is true.  The message, which
    says that the reaction has no term for growth-associated maintenance,
    is stored before the assertion, so the record carries it after a check
    that passed as well.  The model is left as it was. *)
Theorem gam_check_report
    (format : string -> list value -> string) (fill : string -> string)
    (gam_in_biomass : Reaction -> bool)
    (reaction_id : string) (st : Store) (m : Model) (l dl ml : loc)
    (ref : nat) (rxn : Reaction) :
  decorated_at "test_gam_in_biomass" l dl ml st ->
  index_of_id reaction_id 0 (reactions m) = Some ref ->
  reactions m !! ref = Some rxn ->
  let run :=
    TestBiomass.test_gam_in_biomass format fill gam_in_biomass reaction_id
      {| store := st; model := m |} in
  model (snd run) = m
  /\ attached_entry "test_gam_in_biomass" "data" reaction_id
       (store (snd run))
     = Some (VBool (gam_in_biomass rxn))
  /\ attached_entry "test_gam_in_biomass" "message" reaction_id
       (store (snd run))
     = Some (VStr (fill (format
         "{} does not contain a term for growth-associated maintenance. "
         [VStr reaction_id])))
  /\ (fst run = Ok tt <-> gam_in_biomass rxn = true).
Proof.
  intros Hd Hid Hrx run. unfold run, TestBiomass.test_gam_in_biomass.
  assert (Hget : get_by_id reaction_id m = (Ok ref, m)).
  { unfold get_by_id. by rewrite Hid. }
  assert (Hderef : deref ref m = (Ok rxn, m)).
  { unfold deref. by rewrite Hrx. }
  set (msg := VStr (fill (format
         "{} does not contain a term for growth-associated maintenance. "
         [VStr reaction_id]))).
  destruct (store_data_message _ l dl ml st reaction_id
              (VBool (gam_in_biomass rxn)) msg Hd)
    as (Hd2 & _ & He2 & Hm2 & _ & Hd1).
  simpl in Hd2, He2, Hm2.
  step_store (annotation_ok _ _ _ (proj1 Hd)).
  step_model Hget. step_model Hderef.
  step_store (setitem2_data _ _ _ _ _ reaction_id
                (VBool (gam_in_biomass rxn)) Hd).
  step_store (setitem2_message _ _ _ _ _ reaction_id msg Hd1).
  step_store (getitem2_data _ _ _ _ _ _ _ Hd2 He2).
  step_store (getitem2_message _ _ _ _ _ _ _ Hd2 Hm2).
  assert (Hfin : forall b : bool,
            fst (@assert World b (Some msg)
                   {| store := set_entry ml reaction_id msg
                                 (set_entry dl reaction_id
                                    (VBool (gam_in_biomass rxn)) st);
                      model := m |}) = Ok tt <-> b = true).
  { intros []; simpl; split; done. }
  split; [unfold assert; by destruct (truthy _)|].
  split.
  { replace (snd _) with
      {| store := set_entry ml reaction_id msg
                    (set_entry dl reaction_id
                       (VBool (gam_in_biomass rxn)) st);
         model := m |}
      by (unfold assert; by destruct (truthy _)).
    simpl. by rewrite (attached_entry_data _ _ _ _ _ _ Hd2). }
  split.
  { replace (snd _) with
      {| store := set_entry ml reaction_id msg
                    (set_entry dl reaction_id
                       (VBool (gam_in_biomass rxn)) st);
         model := m |}
      by (unfold assert; by destruct (truthy _)).
    simpl. by rewrite (attached_entry_message _ _ _ _ _ _ Hd2). }
  apply Hfin.
Qed.

Lemma gam_check_report_witness :
  let run :=
    TestBiomass.test_gam_in_biomass Examples.format Examples.fill
      (fun _ => true) "BIOMASS"
      {| store := Examples.lookup_store; model := Examples.modest |} in
  model (snd run) = Examples.modest
  /\ attached_entry "test_gam_in_biomass" "data" "BIOMASS"
       (store (snd run))
     = Some (VBool true)
  /\ attached_entry "test_gam_in_biomass" "message" "BIOMASS"
       (store (snd run))
     = Some (VStr (Examples.fill (Examples.format
         "{} does not contain a term for growth-associated maintenance. "
         [VStr "BIOMASS"])))
  /\ (fst run = Ok tt <-> true = true).
Proof.
  apply (gam_check_report Examples.format Examples.fill (fun _ => true)
           "BIOMASS" Examples.lookup_store Examples.modest
           12%positive 10%positive 11%positive 1%nat
           Examples.modest_biomass).
  - apply decorated_atb_true. vm_compute. reflexivity.
  - reflexivity.
  - reflexivity.
Defined.

(** ** The metabolic coverage *)

(** X13: When [calculate_metabolic_coverage] returns a number,
    [test_metabolic_coverage] stores it as the metric, stores a message,
    leaves the data of its record as they were, and passes exactly when
    the number is at least 1; a NaN fails the assertion. *)
Theorem coverage_check_report
    (format : string -> list value -> string) (fill : string -> string)
    (calculate_metabolic_coverage : Model -> result float)
    (model : Model) (st : Store) (l : loc) (x : float) :
  annotated_at "test_metabolic_coverage" l st ->
  calculate_metabolic_coverage model = Ok x ->
  let run :=
    TestBasic.test_metabolic_coverage format fill
      calculate_metabolic_coverage model st in
  attached_field "test_metabolic_coverage" "metric" (snd run)
  = Some (VFloat x)
  /\ attached_field "test_metabolic_coverage" "message" (snd run)
     = Some (VStr (fill (format
          "The degree of metabolic coverage is {:.2}." [VFloat x])))
  /\ attached_field "test_metabolic_coverage" "data" (snd run)
     = attached_field "test_metabolic_coverage" "data" st
  /\ (fst run = Ok tt <-> F64.leb F64.one x = true)
  /\ (x = S754_nan -> exists msg, fst run = Raise (AssertionError msg)).
Proof.
  intros Han Hx run. pose proof Han as [Ha Hl].
  set (msg := VStr (fill (format
          "The degree of metabolic coverage is {:.2}." [VFloat x]))).
  set (st1 := set_entry l "metric" (VFloat x) st).
  set (st2 := set_entry l "message" msg st1).
  assert (Hm1 : entry l "metric" st1 = Some (VFloat x))
    by (by apply entry_set_same).
  assert (Hl1 : is_Some (heap st1 !! l)) by (by apply heap_set_entry).
  assert (Hm2 : entry l "metric" st2 = Some (VFloat x)).
  { unfold st2. by rewrite entry_set_other_key. }
  assert (Hg2 : entry l "message" st2 = Some msg)
    by (by apply entry_set_same).
  assert (Hrun : run
                 = ((if F64.leb F64.one x then Ok tt
                     else Raise (AssertionError (Some msg))), st2)).
  { unfold run, TestBasic.test_metabolic_coverage.
    step (annotation_ok _ _ _ Ha).
    unfold lift_result at 1. unfold Py.bind at 1. rewrite Hx.
    step (setitem_ok l "metric" (VFloat x) st Hl).
    step (getitem_ok _ _ _ _ Hm1).
    step (setitem_ok l "message" msg st1 Hl1).
    step (getitem_ok _ _ _ _ Hm2).
    step (getitem_ok _ _ _ _ Hg2).
    unfold assert. by destruct (F64.leb F64.one x). }
  rewrite Hrun. simpl.
  assert (Ha2 : attrs st2 !! "test_metabolic_coverage" = Some l) by done.
  rewrite !(attached_field_entry _ _ l) by done.
  split; [exact Hm2|]. split; [exact Hg2|]. split.
  { unfold st2, st1. by rewrite !entry_set_other_key. }
  split.
  { destruct (F64.leb F64.one x); simpl; split; done. }
  intros ->. by eexists.
Qed.

Lemma coverage_check_report_witness :
  let run :=
    TestBasic.test_metabolic_coverage Examples.format Examples.fill
      (fun _ => Ok F64.one) Examples.five_reactions Examples.basic_store in
  attached_field "test_metabolic_coverage" "metric" (snd run)
  = Some (VFloat F64.one)
  /\ attached_field "test_metabolic_coverage" "message" (snd run)
     = Some (VStr (Examples.fill (Examples.format
          "The degree of metabolic coverage is {:.2}." [VFloat F64.one])))
  /\ attached_field "test_metabolic_coverage" "data" (snd run)
     = attached_field "test_metabolic_coverage" "data" Examples.basic_store
  /\ (fst run = Ok tt <-> F64.leb F64.one F64.one = true)
  /\ (F64.one = S754_nan -> exists msg, fst run = Raise (AssertionError msg)).
Proof.
  apply (coverage_check_report Examples.format Examples.fill
           (fun _ => Ok F64.one) Examples.five_reactions
           Examples.basic_store 5%positive F64.one).
  - apply annotated_atb_true. vm_compute. reflexivity.
  - reflexivity.
Defined.
